(** * A shallow embedding of the web-scraper core

    The development follows the Python sources of the repository:
    - [scraper/state_manager.py]   the SQLite-backed visit/session store,
    - [scraper/extractor.py]       the three-layer extraction engine,
    - [scraper/async_scraper.py]   the httpx-based scraper and its pagination,
    - [scraper/universal_scraper.py] the browser-driven crawl loop.

    Python values are modelled by a universal [value] type, Python [str] by
    lists of Unicode code points, exceptions by a [res] type, and methods
    that mutate their object by a small state-and-exception monad. *)

From Stdlib Require Import String Ascii ZArith NArith List Bool Lia.
From Stdlib Require Import Floats Uint63.
From Stdlib Require Permutation.
Import ListNotations.

Set Warnings "-register-all".

(** ** Python strings *)

(** A Python [str] is a sequence of Unicode code points. *)
Definition str := list N.

(** [lit] reads an ASCII literal of the source as a [str]. *)
Definition lit (s : string) : str :=
  List.map N_of_ascii (list_ascii_of_string s).

Arguments lit : simpl never.

Definition str_eq_dec : forall a b : str, {a = b} + {a <> b} :=
  list_eq_dec N.eq_dec.

Definition str_eqb (a b : str) : bool :=
  if str_eq_dec a b then true else false.

Definition ostr_eq_dec : forall a b : option str, {a = b} + {a <> b}.
Proof. decide equality. apply str_eq_dec. Defined.

(** [a in b] for strings: [a] occurs as a contiguous substring of [b]. *)
Fixpoint str_prefix (a b : str) : bool :=
  match a, b with
  | [], _ => true
  | x :: a', y :: b' => N.eqb x y && str_prefix a' b'
  | _ :: _, [] => false
  end.

Fixpoint str_in (a b : str) : bool :=
  str_prefix a b ||
  match b with
  | [] => false
  | _ :: b' => str_in a b'
  end.

(** [str.isspace] on one code point (the Unicode 14 table of CPython 3.11). *)
Definition isspace (c : N) : bool :=
  ((9 <=? c) && (c <=? 13) || (28 <=? c) && (c <=? 32) ||
   (c =? 133) || (c =? 160) || (c =? 5760) ||
   (8192 <=? c) && (c <=? 8202) || (c =? 8232) || (c =? 8233) ||
   (c =? 8239) || (c =? 8287) || (c =? 12288))%N.

Fixpoint lstrip (s : str) : str :=
  match s with
  | c :: s' => if isspace c then lstrip s' else s
  | [] => []
  end.

(** [s.strip()] *)
Definition strip (s : str) : str := rev (lstrip (rev (lstrip s))).

(** The code points on which [str.isdecimal] holds are 66 runs of ten
    consecutive code points, each run starting at the digit zero of a
    script (Unicode 14). *)
Definition decimal_zeros : list N :=
  [48; 1632; 1776; 1984; 2406; 2534; 2662; 2790; 2918; 3046; 3174; 3302;
   3430; 3558; 3664; 3792; 3872; 4160; 4240; 6112; 6160; 6470; 6608; 6784;
   6800; 6992; 7088; 7232; 7248; 42528; 43216; 43264; 43472; 43504; 43600;
   44016; 65296; 66720; 68912; 69734; 69872; 69942; 70096; 70384; 70736;
   70864; 71248; 71360; 71472; 71904; 72016; 72784; 73040; 73120; 92768;
   92864; 93008; 120782; 120792; 120802; 120812; 120822; 123200; 123632;
   125264; 130032]%N.

(** The decimal value of a code point, when it is a decimal digit. *)
Definition decimal_value (c : N) : option N :=
  match find (fun z => (z <=? c) && (c <? z + 10))%N decimal_zeros with
  | Some z => Some (c - z)%N
  | None => None
  end.

Definition isdecimal (c : N) : bool :=
  match decimal_value c with Some _ => true | None => false end.

(** [sorted] on a list of strings: insertion sort by code-point order. *)
Fixpoint str_leb (a b : str) : bool :=
  match a, b with
  | [], _ => true
  | _ :: _, [] => false
  | x :: a', y :: b' => (x <? y)%N || ((x =? y)%N && str_leb a' b')
  end.

Fixpoint insert_sorted (x : str) (l : list str) : list str :=
  match l with
  | [] => [x]
  | y :: l' => if str_leb x y then x :: l else y :: insert_sorted x l'
  end.

Definition sorted (l : list str) : list str :=
  fold_right insert_sorted [] l.

(** [sep.join(l)] *)
Fixpoint join (sep : str) (l : list str) : str :=
  match l with
  | [] => []
  | [x] => x
  | x :: l' => x ++ sep ++ join sep l'
  end.

(** [str(n)] for a non-negative integer: its decimal digits. *)
Fixpoint digits_of (fuel : nat) (n : N) (acc : str) : str :=
  match fuel with
  | O => acc
  | S f =>
      let acc' := (48 + n mod 10)%N :: acc in
      if (n <? 10)%N then acc' else digits_of f (n / 10)%N acc'
  end.

Definition str_of_Z (z : Z) : str :=
  let n := Z.abs_N z in
  let ds := digits_of (S (N.to_nat (N.log2 n))) n [] in
  if (z <? 0)%Z then 45%N :: ds else ds.

(** ** Python values *)

(** Dictionaries keep insertion order, so they are association lists with
    in-place update. *)
Inductive value : Type :=
| VNone
| VBool (b : bool)
| VInt (z : Z)
| VStr (s : str)
| VList (l : list value)
| VDict (d : list (str * value)).

Definition dict := list (str * value).

Fixpoint dict_get (k : str) (d : dict) : option value :=
  match d with
  | [] => None
  | (k', v) :: d' => if str_eqb k k' then Some v else dict_get k d'
  end.

(** [d[k] = v] *)
Fixpoint dict_set (k : str) (v : value) (d : dict) : dict :=
  match d with
  | [] => [(k, v)]
  | (k', v') :: d' =>
      if str_eqb k k' then (k', v) :: d' else (k', v') :: dict_set k v d'
  end.

Definition dict_has (k : str) (d : dict) : bool :=
  match dict_get k d with Some _ => true | None => false end.

(** Truth value testing. *)
Definition truthy (v : value) : bool :=
  match v with
  | VNone => false
  | VBool b => b
  | VInt z => negb (z =? 0)%Z
  | VStr s => match s with [] => false | _ => true end
  | VList l => match l with [] => false | _ => true end
  | VDict d => match d with [] => false | _ => true end
  end.

(** [d.get(k)], with [None] for a missing key. *)
Definition get (k : str) (d : dict) : value :=
  match dict_get k d with Some v => v | None => VNone end.

(** [d.get(k, default)] *)
Definition get_default (k : str) (dflt : value) (d : dict) : value :=
  match dict_get k d with Some v => v | None => dflt end.

(** [a or b] *)
Definition py_or (a b : value) : value := if truthy a then a else b.

(** [any(d.values())] *)
Definition any_values (d : dict) : bool := existsb (fun kv => truthy (snd kv)) d.

(** Optional strings ([Optional[str]]): truthiness and [a or b]. *)
Definition otruthy (s : option str) : bool :=
  match s with
  | Some (_ :: _) => true
  | _ => false
  end.

Definition oor (a b : option str) : option str := if otruthy a then a else b.

(** ** Exceptions and the state monad of methods *)

Inductive exn : Type :=
| IntegrityError
| TypeError
| ValueError
| IndexError
| AttributeError
| KeyError
| SelectorSyntaxError
| OtherError (msg : str).

Inductive res (A : Type) : Type :=
| Ok (a : A)
| Raise (e : exn).
Arguments Ok {A} a.
Arguments Raise {A} e.

(** A method of an object with state [S]: it returns or raises, and leaves
    the object in some state either way. *)
Definition M (S A : Type) : Type := S -> res A * S.

Definition ret {S A} (a : A) : M S A := fun s => (Ok a, s).

Definition bind {S A B} (m : M S A) (f : A -> M S B) : M S B :=
  fun s =>
    match m s with
    | (Ok a, s') => f a s'
    | (Raise e, s') => (Raise e, s')
    end.

Definition raise {S A} (e : exn) : M S A := fun s => (Raise e, s).

Definition get_state {S} : M S S := fun s => (Ok s, s).
Definition put_state {S} (s : S) : M S unit := fun _ => (Ok tt, s).
Definition modify {S} (f : S -> S) : M S unit := fun s => (Ok tt, f s).

(** [try: m  except <catches>: h] *)
Definition try_except {S A} (m : M S A) (catches : exn -> bool)
  (h : exn -> M S A) : M S A :=
  fun s =>
    match m s with
    | (Raise e, s') => if catches e then h e s' else (Raise e, s')
    | r => r
    end.

(** Lifting of a pure computation that may raise. *)
Definition lift {S A} (r : res A) : M S A := fun s => (r, s).

Declare Scope monad_scope.
Delimit Scope monad_scope with monad.
Notation "x <- m ;; k" := (bind m (fun x => k))
  (at level 61, m at next level, right associativity) : monad_scope.
Notation "m ;;; k" := (bind m (fun _ => k))
  (at level 61, right associativity) : monad_scope.

(** [try: m  finally: f] *)
Definition try_finally {S A} (m : M S A) (f : M S unit) : M S A :=
  fun s =>
    match m s with
    | (r, s') =>
        match f s' with
        | (Ok _, s'') => (r, s'')
        | (Raise e, s'') => (Raise e, s'')
        end
    end.

(** A method run in a state of [P] returns [a] in a state of [Q a], or
    raises [e] in a state of [E e]. *)
Definition triple {S A} (P : S -> Prop) (m : M S A)
  (Q : A -> S -> Prop) (E : exn -> S -> Prop) : Prop :=
  forall s, P s ->
    match m s with
    | (Ok a, s') => Q a s'
    | (Raise e, s') => E e s'
    end.

(** ** [str.encode('utf-8')] and [hashlib.md5(...).hexdigest()] *)

(** Strings are taken to hold Unicode scalar values; bytes are [Z] in
    [0, 256). *)
Definition utf8_encode_char (c : N) : list Z :=
  let z := Z.of_N c in
  if (z <? 128)%Z then [z]
  else if (z <? 2048)%Z then
    [Z.lor 192 (Z.shiftr z 6); Z.lor 128 (Z.land z 63)]
  else if (z <? 65536)%Z then
    [Z.lor 224 (Z.shiftr z 12); Z.lor 128 (Z.land (Z.shiftr z 6) 63);
     Z.lor 128 (Z.land z 63)]
  else
    [Z.lor 240 (Z.shiftr z 18); Z.lor 128 (Z.land (Z.shiftr z 12) 63);
     Z.lor 128 (Z.land (Z.shiftr z 6) 63); Z.lor 128 (Z.land z 63)].

Definition encode_utf8 (s : str) : list Z := flat_map utf8_encode_char s.

Module MD5.
Local Open Scope Z_scope.

Definition w32 (x : Z) : Z := Z.land x 4294967295.
Definition add32 (x y : Z) : Z := w32 (x + y).
Definition not32 (x : Z) : Z := Z.lxor x 4294967295.
Definition rotl32 (x n : Z) : Z :=
  w32 (Z.lor (Z.shiftl x n) (Z.shiftr x (32 - n))).

Definition K : list Z :=
  [0xd76aa478; 0xe8c7b756; 0x242070db; 0xc1bdceee; 0xf57c0faf; 0x4787c62a;
   0xa8304613; 0xfd469501; 0x698098d8; 0x8b44f7af; 0xffff5bb1; 0x895cd7be;
   0x6b901122; 0xfd987193; 0xa679438e; 0x49b40821; 0xf61e2562; 0xc040b340;
   0x265e5a51; 0xe9b6c7aa; 0xd62f105d; 0x02441453; 0xd8a1e681; 0xe7d3fbc8;
   0x21e1cde6; 0xc33707d6; 0xf4d50d87; 0x455a14ed; 0xa9e3e905; 0xfcefa3f8;
   0x676f02d9; 0x8d2a4c8a; 0xfffa3942; 0x8771f681; 0x6d9d6122; 0xfde5380c;
   0xa4beea44; 0x4bdecfa9; 0xf6bb4b60; 0xbebfbc70; 0x289b7ec6; 0xeaa127fa;
   0xd4ef3085; 0x04881d05; 0xd9d4d039; 0xe6db99e5; 0x1fa27cf8; 0xc4ac5665;
   0xf4292244; 0x432aff97; 0xab9423a7; 0xfc93a039; 0x655b59c3; 0x8f0ccc92;
   0xffeff47d; 0x85845dd1; 0x6fa87e4f; 0xfe2ce6e0; 0xa3014314; 0x4e0811a1;
   0xf7537e82; 0xbd3af235; 0x2ad7d2bb; 0xeb86d391].

Definition shifts : list Z :=
  [7; 12; 17; 22; 7; 12; 17; 22; 7; 12; 17; 22; 7; 12; 17; 22;
   5; 9; 14; 20; 5; 9; 14; 20; 5; 9; 14; 20; 5; 9; 14; 20;
   4; 11; 16; 23; 4; 11; 16; 23; 4; 11; 16; 23; 4; 11; 16; 23;
   6; 10; 15; 21; 6; 10; 15; 21; 6; 10; 15; 21; 6; 10; 15; 21].

(** The message followed by the bit 1, zero bits up to 56 modulo 64 bytes
    and the bit length as a 64-bit little-endian integer. *)
Definition le_bytes (n : nat) (x : Z) : list Z :=
  List.map (fun i => Z.land (Z.shiftr x (8 * Z.of_nat i)) 255) (seq 0 n).

Definition pad (msg : list Z) : list Z :=
  let len := Z.of_nat (length msg) in
  let zeros := Z.to_nat ((55 - len) mod 64) in
  msg ++ [128] ++ repeat 0 zeros ++ le_bytes 8 (Z.land (8 * len) (2 ^ 64 - 1)).

Fixpoint words (fuel : nat) (bs : list Z) : list Z :=
  match fuel, bs with
  | S f, b0 :: b1 :: b2 :: b3 :: bs' =>
      Z.lor b0 (Z.lor (Z.shiftl b1 8) (Z.lor (Z.shiftl b2 16) (Z.shiftl b3 24)))
      :: words f bs'
  | _, _ => []
  end.

Definition state : Type := Z * Z * Z * Z.

Definition round (m : list Z) (st : state) (i : nat) : state :=
  let '(a, b, c, d) := st in
  let iz := Z.of_nat i in
  let '(f, g) :=
    if iz <? 16 then (Z.lor (Z.land b c) (Z.land (not32 b) d), iz)
    else if iz <? 32 then
      (Z.lor (Z.land d b) (Z.land (not32 d) c), (5 * iz + 1) mod 16)
    else if iz <? 48 then (Z.lxor b (Z.lxor c d), (3 * iz + 5) mod 16)
    else (Z.lxor c (Z.lor b (not32 d)), (7 * iz) mod 16) in
  let f' := add32 (add32 (add32 f a) (nth i K 0)) (nth (Z.to_nat g) m 0) in
  (d, add32 b (rotl32 f' (nth i shifts 0)), b, c).

Definition block (st : state) (m : list Z) : state :=
  let '(a0, b0, c0, d0) := st in
  let '(a, b, c, d) := fold_left (round m) (seq 0 64) st in
  (add32 a0 a, add32 b0 b, add32 c0 c, add32 d0 d).

Fixpoint blocks (fuel : nat) (ws : list Z) (st : state) : state :=
  match fuel, ws with
  | S f, _ :: _ => blocks f (skipn 16 ws) (block st (firstn 16 ws))
  | _, _ => st
  end.

Definition digest (msg : list Z) : list Z :=
  let bs := pad msg in
  let ws := words (length bs) bs in
  let '(a, b, c, d) :=
    blocks (length ws) ws (0x67452301, 0xefcdab89, 0x98badcfe, 0x10325476) in
  le_bytes 4 a ++ le_bytes 4 b ++ le_bytes 4 c ++ le_bytes 4 d.

Definition hex_digit (x : Z) : N :=
  if x <? 10 then Z.to_N (48 + x) else Z.to_N (87 + x).

Definition hexdigest (msg : list Z) : str :=
  flat_map (fun b => [hex_digit (Z.shiftr b 4); hex_digit (Z.land b 15)])
           (digest msg).
End MD5.

(** ** The [re] module, as far as the scrapers use it *)

(** A compiled pattern.  Quantifiers are the greedy ones; [Cls] is a
    bracketed set or a class escape such as [\d]. *)
Module Re.

Inductive citem : Type :=
| Single (c : N)
| Range (lo hi : N)
| Digit.                         (* \d on a str pattern: Unicode decimals *)

Inductive regex : Type :=
| Empty
| Lit (c : N)
| Any                            (* . *)
| Cls (negated : bool) (items : list citem)
| Seq (r1 r2 : regex)
| Alt (r1 r2 : regex)
| Repeat (lo : nat) (hi : option nat) (r : regex)
| Group (n : nat) (r : regex).   (* the n-th capturing group *)

Definition plus (r : regex) : regex := Repeat 1 None r.
Definition star (r : regex) : regex := Repeat 0 None r.

(** The pattern that matches the characters of [s] literally. *)
Fixpoint literal (s : str) : regex :=
  match s with
  | [] => Empty
  | [c] => Lit c
  | c :: s' => Seq (Lit c) (literal s')
  end.

Definition citem_matches (c : N) (i : citem) : bool :=
  match i with
  | Single x => N.eqb c x
  | Range lo hi => N.leb lo c && N.leb c hi
  | Digit => isdecimal c
  end.

Definition cls_matches (negated : bool) (items : list citem) (c : N) : bool :=
  xorb negated (existsb (citem_matches c) items).

(** Spans of the groups that took part in a match, latest first. *)
Definition caps : Type := list (nat * (nat * nat)).

Definition below (count : nat) (hi : option nat) : bool :=
  match hi with
  | Some h => Nat.ltb count h
  | None => true
  end.

(** A greedy quantifier over a matcher [body] of the quantified pattern:
    one more iteration is tried before stopping, and an iteration beyond
    the minimum has to consume input. *)
Fixpoint iterate {A : Type}
  (body : str -> nat -> caps -> (str -> nat -> caps -> option A) -> option A)
  (lo : nat) (hi : option nat) (k : str -> nat -> caps -> option A)
  (fuel count : nat) (s : str) (i : nat) (g : caps) {struct fuel} : option A :=
  match fuel with
  | O => None
  | S fuel' =>
      let more :=
        if below count hi then
          body s i g
               (fun s' i' g' =>
                  if Nat.eqb i' i && Nat.leb lo count then None
                  else iterate body lo hi k fuel' (S count) s' i' g')
        else None in
      match more with
      | Some a => Some a
      | None => if Nat.leb lo count then k s i g else None
      end
  end.

(** Backtracking matcher: [mtch r s i g k] matches [r] at the head of the
    suffix [s], which starts at index [i] of the subject, and hands the
    rest to the continuation [k]; alternatives are tried in the order of
    the pattern. *)
Fixpoint mtch {A : Type} (r : regex) (s : str) (i : nat) (g : caps)
  (k : str -> nat -> caps -> option A) {struct r} : option A :=
  match r with
  | Empty => k s i g
  | Lit c =>
      match s with
      | x :: s' => if N.eqb x c then k s' (S i) g else None
      | [] => None
      end
  | Any =>
      match s with
      | x :: s' => if N.eqb x 10 then None else k s' (S i) g
      | [] => None
      end
  | Cls negated items =>
      match s with
      | x :: s' => if cls_matches negated items x then k s' (S i) g else None
      | [] => None
      end
  | Seq r1 r2 => mtch r1 s i g (fun s' i' g' => mtch r2 s' i' g' k)
  | Alt r1 r2 =>
      match mtch r1 s i g k with
      | Some a => Some a
      | None => mtch r2 s i g k
      end
  | Group n r1 => mtch r1 s i g (fun s' i' g' => k s' i' ((n, (i, i')) :: g'))
  | Repeat lo hi r1 =>
      iterate (fun s' i' g' k' => mtch r1 s' i' g' k') lo hi k
              (S (List.length s + lo)) O s i g
  end.

(** A match object: the span of the match and of its groups, and the
    subject after the match. *)
Record match_object : Type := mk_match {
  m_start : nat;
  m_end : nat;
  m_caps : caps;
  m_rest : str
}.

(** One attempt at index [i]; with [must_advance] an empty match there is
    refused (as after an empty match in [sub]). *)
Definition match_at (r : regex) (s : str) (i : nat) (must_advance : bool)
  : option match_object :=
  mtch r s i []
       (fun s' i' g' =>
          if must_advance && Nat.eqb i' i then None
          else Some (mk_match i i' g' s')).

(** Leftmost match in the suffix [s] starting at index [i]; the result
    comes with the characters skipped before the match. *)
Fixpoint search_from (r : regex) (s : str) (i : nat) (must_advance : bool)
  : option (str * match_object) :=
  match match_at r s i must_advance with
  | Some m => Some ([], m)
  | None =>
      match s with
      | [] => None
      | c :: s' =>
          match search_from r s' (S i) false with
          | Some (skipped, m) => Some (c :: skipped, m)
          | None => None
          end
      end
  end.

(** [re.search(pattern, string)] *)
Definition search (r : regex) (s : str) : option match_object :=
  match search_from r s 0 false with
  | Some (_, m) => Some m
  | None => None
  end.

(** The number of capturing groups of a pattern. *)
Fixpoint groups (r : regex) : nat :=
  match r with
  | Seq r1 r2 | Alt r1 r2 => Nat.max (groups r1) (groups r2)
  | Repeat _ _ r1 => groups r1
  | Group n r1 => Nat.max n (groups r1)
  | _ => O
  end.

Definition slice (s : str) (a b : nat) : str := firstn (b - a) (skipn a s).

(** [m.group(n)] for a match [m] of [r] in [s]: the text of the group,
    [None] when the group took no part in the match. *)
Definition group (r : regex) (s : str) (m : match_object) (n : nat)
  : res (option str) :=
  match n with
  | O => Ok (Some (slice s (m_start m) (m_end m)))
  | _ =>
      if Nat.ltb (groups r) n then Raise IndexError
      else
        match find (fun c => Nat.eqb (fst c) n) (m_caps m) with
        | Some (_, (a, b)) => Ok (Some (slice s a b))
        | None => Ok None
        end
  end.

(** [re.sub(pattern, repl, string)] for a replacement without escapes:
    every non-overlapping match, left to right, is replaced by [repl]. *)
Fixpoint sub_from (fuel : nat) (r : regex) (repl s : str) (i : nat)
  (must_advance : bool) : str :=
  match fuel with
  | O => s
  | S fuel' =>
      match search_from r s i must_advance with
      | None => s
      | Some (skipped, m) =>
          skipped ++ repl ++
          sub_from fuel' r repl (m_rest m) (m_end m)
                   (Nat.eqb (m_end m) (m_start m))
      end
  end.

Definition sub (r : regex) (repl s : str) : str :=
  sub_from (2 * List.length s + 2) r repl s 0 false.

(** What [c+] followed by [k] comes to for a character class [p]: take
    characters of the class while they last, then give back one at a time
    until [k] accepts the rest. *)
Fixpoint greedy_plus {A : Type} (p : N -> bool) (s : str) (i : nat)
  (k : str -> nat -> option A) : option A :=
  match s with
  | x :: s' =>
      if p x then
        match greedy_plus p s' (S i) k with
        | Some a => Some a
        | None => k s' (S i)
        end
      else None
  | [] => None
  end.

End Re.

(** [int(s)] on a string: surrounding whitespace, an optional sign, then
    decimal digits that single underscores may separate. *)
Fixpoint int_digits (s : str) (acc : N) (after_digit : bool) : option N :=
  match s with
  | [] => if after_digit then Some acc else None
  | c :: s' =>
      if N.eqb c 95 then
        if after_digit then int_digits s' acc false else None
      else
        match decimal_value c with
        | Some d => int_digits s' (10 * acc + d)%N true
        | None => None
        end
  end.

(** The whitespace [int] skips: the ASCII whitespace of C and the
    Unicode spaces above U+007F; the separators U+001C to U+001F, which
    [str.strip] removes, are no whitespace here. *)
Definition int_space (c : N) : bool :=
  isspace c && negb ((28 <=? c) && (c <=? 31))%N.

Fixpoint int_lstrip (s : str) : str :=
  match s with
  | c :: s' => if int_space c then int_lstrip s' else s
  | [] => []
  end.

(** [sys.int_max_str_digits]: the longest numeral [int] converts. *)
Definition int_max_str_digits : nat := 4300.

Definition py_int (s : str) : res Z :=
  let body := rev (int_lstrip (rev (int_lstrip s))) in
  let '(negative, ds) :=
    match body with
    | 45%N :: ds => (true, ds)
    | 43%N :: ds => (false, ds)
    | _ => (false, body)
    end in
  if Nat.ltb int_max_str_digits
             (List.length (filter (fun c => negb (N.eqb c 95)) ds))
  then Raise ValueError
  else
    match int_digits ds 0 false with
    | Some n => Ok (if negative then (- Z.of_N n)%Z else Z.of_N n)
    | None => Raise ValueError
    end.

(** ** scraper/state_manager.py *)

Module StateManager.
Local Open Scope monad_scope.

(** Rows of the three tables created by [_init_db].  Timestamps are the
    text [CURRENT_TIMESTAMP] evaluates to; a nullable column is an
    [option]. *)
Record visited_url : Type := mk_visited_url {
  vu_url_hash : str;               (* TEXT PRIMARY KEY *)
  vu_url : str;                    (* TEXT NOT NULL *)
  vu_session_id : option str;
  vu_visited_at : str;             (* DEFAULT CURRENT_TIMESTAMP *)
  vu_status : str                  (* DEFAULT 'success' *)
}.

Record session : Type := mk_session {
  se_session_id : str;             (* TEXT PRIMARY KEY *)
  se_start_url : str;
  se_started_at : str;             (* DEFAULT CURRENT_TIMESTAMP *)
  se_completed_at : option str;
  se_status : str;                 (* DEFAULT 'active' *)
  se_metadata : option value       (* the JSON document stored as text *)
}.

Record scraped_item : Type := mk_scraped_item {
  si_id : Z;                       (* INTEGER PRIMARY KEY AUTOINCREMENT *)
  si_session_id : option str;
  si_url : str;
  si_data : value;                 (* the JSON document stored as text *)
  si_scraped_at : str              (* DEFAULT CURRENT_TIMESTAMP *)
}.

(** The database file: the tables in insertion order, and the
    AUTOINCREMENT sequence of [scraped_items]. *)
Record database : Type := mk_database {
  visited_urls : list visited_url;
  sessions : list session;
  scraped_items : list scraped_item;
  scraped_items_seq : Z
}.

(** The object: the database behind [db_path] and the current session. *)
Record t : Type := mk {
  db : database;
  session_id : option str
}.

Definition empty_database : database := mk_database [] [] [] 0.

(** [CREATE TABLE IF NOT EXISTS ...]: an existing database is kept. *)
Definition _init_db (file : option database) : database :=
  match file with
  | Some d => d
  | None => empty_database
  end.

Definition __init__ (file : option database) : t :=
  mk (_init_db file) None.

Definition _hash_url (url : str) : str := MD5.hexdigest (encode_utf8 url).

(** [url.encode('utf-8')] returns: the URL holds no surrogate code point.
    On a URL that does not encode the source raises UnicodeEncodeError
    where it hashes the URL, before it touches the store; the methods
    below are those of the source on the URLs that encode. *)
Definition encodes (url : str) : bool :=
  forallb (fun c => negb ((55296 <=? c) && (c <=? 57343))%N) url.

(** *** SQL statements *)

(** [col = ?] on a nullable column: NULL equals nothing. *)
Definition col_eq (col : option str) (param : str) : bool :=
  match col with
  | Some c => str_eqb c param
  | None => false
  end.

Definition insert_visited_urls (r : visited_url) (d : database)
  : res database :=
  if existsb (fun q => str_eqb (vu_url_hash q) (vu_url_hash r))
             (visited_urls d)
  then Raise IntegrityError
  else Ok (mk_database (visited_urls d ++ [r]) (sessions d)
                       (scraped_items d) (scraped_items_seq d)).

(** [UPDATE visited_urls SET status = ?, visited_at = CURRENT_TIMESTAMP
     WHERE url_hash = ?] *)
Definition update_visited_row (now status url_hash : str) (q : visited_url)
  : visited_url :=
  if str_eqb (vu_url_hash q) url_hash
  then mk_visited_url (vu_url_hash q) (vu_url q) (vu_session_id q) now status
  else q.

Definition update_visited_urls (now status url_hash : str) (d : database)
  : res database :=
  Ok (mk_database (List.map (update_visited_row now status url_hash)
                            (visited_urls d))
                  (sessions d) (scraped_items d) (scraped_items_seq d)).

Definition insert_sessions (r : session) (d : database) : res database :=
  if existsb (fun q => str_eqb (se_session_id q) (se_session_id r))
             (sessions d)
  then Raise IntegrityError
  else Ok (mk_database (visited_urls d) (sessions d ++ [r])
                       (scraped_items d) (scraped_items_seq d)).

(** [UPDATE sessions SET completed_at = CURRENT_TIMESTAMP,
     status = 'completed' WHERE session_id = ?] *)
Definition complete_session_row (now sid : str) (q : session) : session :=
  if str_eqb (se_session_id q) sid
  then mk_session (se_session_id q) (se_start_url q) (se_started_at q)
                  (Some now) (lit "completed") (se_metadata q)
  else q.

Definition update_sessions (now sid : str) (d : database) : res database :=
  Ok (mk_database (visited_urls d)
                  (List.map (complete_session_row now sid) (sessions d))
                  (scraped_items d) (scraped_items_seq d)).

Definition insert_scraped_items (now : str) (sid : option str) (url : str)
  (data : value) (d : database) : res database :=
  let id := (scraped_items_seq d + 1)%Z in
  Ok (mk_database (visited_urls d) (sessions d)
                  (scraped_items d ++ [mk_scraped_item id sid url data now])
                  id).

(** [cursor.execute(...); conn.commit()] on the object's database: a
    statement that fails leaves the database as it was. *)
Definition execute (stmt : database -> res database) : M t unit :=
  fun sm =>
    match stmt (db sm) with
    | Ok d' => (Ok tt, mk d' (session_id sm))
    | Raise e => (Raise e, sm)
    end.

Definition is_integrity_error (e : exn) : bool :=
  match e with IntegrityError => true | _ => false end.

(** *** Methods *)

(** [stamp] is [datetime.now().strftime('%Y%m%d_%H%M%S')], [now] the
    value of [CURRENT_TIMESTAMP] when the row is inserted. *)
Definition start_session (stamp now : str) (start_url : str)
  (metadata : option value) : M t str :=
  let sid := (lit "session_" ++ stamp)%list in
  modify (fun sm => mk (db sm) (Some sid)) ;;;
  let metadata_json :=
    match metadata with
    | Some m => if truthy m then Some m else None
    | None => None
    end in
  execute (insert_sessions
             (mk_session sid start_url now None (lit "active") metadata_json)) ;;;
  ret sid.

Definition end_session (now : str) (sid : option str) : M t unit :=
  sm <- get_state ;;
  let sid := oor sid (session_id sm) in
  match sid with
  | Some (c :: s) => execute (update_sessions now (c :: s))
  | _ => ret tt
  end.

Definition is_visited (url : str) (sid : option str) (sm : t) : bool :=
  let url_hash := _hash_url url in
  let count :=
    match sid with
    | Some (c :: s) =>
        List.length
          (filter (fun q => str_eqb (vu_url_hash q) url_hash
                            && col_eq (vu_session_id q) (c :: s))
                  (visited_urls (db sm)))
    | _ =>
        List.length
          (filter (fun q => str_eqb (vu_url_hash q) url_hash)
                  (visited_urls (db sm)))
    end in
  Nat.ltb 0 count.

Definition mark_visited (now : str) (url : str) (sid : option str)
  (status : str) : M t unit :=
  let url_hash := _hash_url url in
  sm <- get_state ;;
  let sid := oor sid (session_id sm) in
  try_except
    (execute (insert_visited_urls
                (mk_visited_url url_hash url sid now status)))
    is_integrity_error
    (fun _ =>
       (* URL already visited, update status *)
       execute (update_visited_urls now status url_hash)).

Definition save_item (now : str) (url : str) (data : value)
  (sid : option str) : M t unit :=
  sm <- get_state ;;
  let sid := oor sid (session_id sm) in
  execute (insert_scraped_items now sid url data).

(** [ORDER BY scraped_at]: a stable sort of the rows by timestamp text. *)
Fixpoint insert_by_time (r : scraped_item) (l : list scraped_item)
  : list scraped_item :=
  match l with
  | [] => [r]
  | q :: l' =>
      if str_leb (si_scraped_at q) (si_scraped_at r)
      then q :: insert_by_time r l'
      else r :: l
  end.

Definition order_by_scraped_at (l : list scraped_item) : list scraped_item :=
  fold_left (fun acc r => insert_by_time r acc) l [].

(** [data['_source_url'] = url] on each decoded item. *)
Fixpoint with_source_url (rows : list scraped_item) : res (list value) :=
  match rows with
  | [] => Ok []
  | r :: rows' =>
      match si_data r with
      | VDict d =>
          match with_source_url rows' with
          | Ok items =>
              Ok (VDict (dict_set (lit "_source_url") (VStr (si_url r)) d)
                  :: items)
          | Raise e => Raise e
          end
      | _ => Raise TypeError
      end
  end.

Definition get_session_items (sid : option str) (sm : t) : res (list value) :=
  match oor sid (session_id sm) with
  | Some (c :: s) =>
      with_source_url
        (order_by_scraped_at
           (filter (fun r => col_eq (si_session_id r) (c :: s))
                   (scraped_items (db sm))))
  | _ => Ok []
  end.

Definition get_visited_count (sid : option str) (sm : t) : nat :=
  match sid with
  | Some (c :: s) =>
      List.length (filter (fun q => col_eq (vu_session_id q) (c :: s))
                          (visited_urls (db sm)))
  | _ => List.length (visited_urls (db sm))
  end.

Definition clear_session (sid : str) : M t unit :=
  execute (fun d =>
    Ok (mk_database
          (filter (fun q => negb (col_eq (vu_session_id q) sid)) (visited_urls d))
          (filter (fun q => negb (str_eqb (se_session_id q) sid)) (sessions d))
          (filter (fun q => negb (col_eq (si_session_id q) sid)) (scraped_items d))
          (scraped_items_seq d))).

Definition clear_all : M t unit :=
  execute (fun d => Ok (mk_database [] [] [] (scraped_items_seq d))).

(** *** Histories *)

(** The calls the scrapers make on a store during and between crawls;
    [Restart] is a new process opening the same database file. *)
Inductive call : Type :=
| StartSession (stamp now start_url : str) (metadata : option value)
| EndSession (now : str) (sid : option str)
| MarkVisited (now url : str) (sid : option str) (status : str)
| SaveItem (now url : str) (data : value) (sid : option str)
| Restart.

(** A call that raises leaves the object in the state reached. *)
Definition run_call (c : call) (sm : t) : t :=
  match c with
  | StartSession stamp now u m => snd (start_session stamp now u m sm)
  | EndSession now sid => snd (end_session now sid sm)
  | MarkVisited now u sid st => snd (mark_visited now u sid st sm)
  | SaveItem now u d sid => snd (save_item now u d sid sm)
  | Restart => __init__ (Some (db sm))
  end.

Definition run_calls (cs : list call) (sm : t) : t :=
  fold_left (fun s c => run_call c s) cs sm.

(** The primary key of [visited_urls]: no two rows share a [url_hash]. *)
Definition visited_pk (d : database) : Prop :=
  NoDup (List.map vu_url_hash (visited_urls d)).

(** The rows of [visited_urls] for one URL hash. *)
Definition visits_of (url_hash : str) (d : database) : list visited_url :=
  filter (fun q => str_eqb (vu_url_hash q) url_hash) (visited_urls d).

(** The rows of [sessions] with one session id. *)
Definition sessions_of (sid : str) (d : database) : list session :=
  filter (fun q => str_eqb (se_session_id q) sid) (sessions d).

(** Whether [visited_urls] already holds the primary key of a URL. *)
Definition known (url : str) (d : database) : bool :=
  existsb (fun q => str_eqb (vu_url_hash q) (_hash_url url)) (visited_urls d).

(** The columns an [UPDATE ... WHERE url_hash = h] leaves alone. *)
Definition visit_frame (now st h : str) (q q' : visited_url) : Prop :=
  vu_url_hash q' = vu_url_hash q /\
  vu_url q' = vu_url q /\
  vu_session_id q' = vu_session_id q /\
  (vu_url_hash q = h -> vu_status q' = st /\ vu_visited_at q' = now) /\
  (vu_url_hash q <> h -> q' = q).

(** The columns [end_session] leaves alone. *)
Definition session_frame (now sid : str) (q q' : session) : Prop :=
  se_session_id q' = se_session_id q /\
  se_start_url q' = se_start_url q /\
  se_started_at q' = se_started_at q /\
  se_metadata q' = se_metadata q /\
  (se_session_id q = sid ->
   se_status q' = lit "completed" /\ se_completed_at q' = Some now) /\
  (se_session_id q <> sid -> q' = q).

(** A visit record of URL [u] in session [s]. *)
Definition has_visit (u s : str) (d : database) : Prop :=
  exists r, In r (visited_urls d) /\
            vu_url_hash r = _hash_url u /\ vu_session_id r = Some s.

(** The rows of one session for one URL hash. *)
Definition visits_in_session (url_hash s : str) (d : database)
  : list visited_url :=
  filter (fun q => str_eqb (vu_url_hash q) url_hash
                   && col_eq (vu_session_id q) s)
         (visited_urls d).

(** [ORDER BY started_at DESC]: a sort of the rows by timestamp text, the
    latest first. *)
Fixpoint insert_by_start (r : session) (l : list session) : list session :=
  match l with
  | [] => [r]
  | q :: l' =>
      if str_leb (se_started_at r) (se_started_at q)
      then q :: insert_by_start r l'
      else r :: l
  end.

Definition order_by_started_at_desc (l : list session) : list session :=
  fold_left (fun acc r => insert_by_start r acc) l [].

Definition is_active (q : session) : bool := str_eqb (se_status q) (lit "active").

Definition session_summary (q : session) : value :=
  VDict [(lit "session_id", VStr (se_session_id q));
         (lit "start_url", VStr (se_start_url q));
         (lit "started_at", VStr (se_started_at q));
         (lit "metadata",
          match se_metadata q with
          | Some m => m
          | None => VNone
          end)].

Definition get_active_sessions (sm : t) : list value :=
  List.map session_summary
    (order_by_started_at_desc (filter is_active (sessions (db sm)))).

(** Every method that writes to the store, the maintenance calls
    included. *)
Inductive command : Type :=
| Call (c : call)
| ClearSession (sid : str)
| ClearAll.

Definition run_command (c : command) (sm : t) : t :=
  match c with
  | Call c => run_call c sm
  | ClearSession sid => snd (clear_session sid sm)
  | ClearAll => snd (clear_all sm)
  end.

Definition run_commands (cs : list command) (sm : t) : t :=
  fold_left (fun s c => run_command c s) cs sm.

(** The keys of the three tables: no two visits share a url_hash, no two
    sessions a session_id, no two items an id, and no item id exceeds the
    AUTOINCREMENT sequence. *)
Definition keys_hold (d : database) : Prop :=
  NoDup (List.map vu_url_hash (visited_urls d)) /\
  NoDup (List.map se_session_id (sessions d)) /\
  NoDup (List.map si_id (scraped_items d)) /\
  Forall (fun r => (si_id r <= scraped_items_seq d)%Z) (scraped_items d).

(** The rows of [scraped_items] of one session. *)
Definition items_of (sid : str) (d : database) : list scraped_item :=
  filter (fun r => col_eq (si_session_id r) sid) (scraped_items d).

(** The item [get_session_items] makes of a row that holds a mapping. *)
Definition item_of_row (r : scraped_item) : value :=
  match si_data r with
  | VDict d => VDict (dict_set (lit "_source_url") (VStr (si_url r)) d)
  | v => v
  end.

Definition holds_mapping (r : scraped_item) : Prop :=
  exists d, si_data r = VDict d.
End StateManager.

(** ** Floating-point arithmetic of the scoring heuristics *)

(** [float(n)] for a length; exact below 2^53. *)
Definition float_of_nat (n : nat) : float :=
  PrimFloat.of_uint63 (Uint63.of_Z (Z.of_nat n)).

(** [a / b] on two lengths (true division); the callers divide by a
    length that is at least one. *)
Definition true_div (a b : nat) : float :=
  PrimFloat.div (float_of_nat a) (float_of_nat b).

(** The literals [0.6], [1.5], [1.0], [3] and [0] as binary64 values. *)
Definition f0_6 : float := 0x1.3333333333333p-1%float.
Definition f1_5 : float := 0x1.8p+0%float.
Definition f1_0 : float := 0x1p+0%float.
Definition f3 : float := 0x1.8p+1%float.
Definition f0 : float := 0x0p+0%float.

(** ** The parsed document (BeautifulSoup) *)

(** The value of an attribute: a string, or a list of strings for a
    multi-valued attribute such as [class]. *)
Inductive attr_value : Type :=
| AStr (s : str)
| AList (l : list str).

(** A page element: a string of the text ([NavigableString]), a string
    that [get_text] of an enclosing element leaves out (comment, doctype,
    the content of a script, style or template element), or a tag.  The
    text that bs4 gives for a script, style or template element itself is
    outside the model. *)
Inductive node : Type :=
| Text (s : str)
| Other (s : str)
| Tag (name : str) (attrs : list (str * attr_value)) (children : list node).

(** [tag.descendants]: the nodes below a tag, in document order. *)
Fixpoint descendants (n : node) : list node :=
  match n with
  | Tag _ _ cs =>
      (fix go (l : list node) : list node :=
         match l with
         | [] => []
         | c :: l' => c :: descendants c ++ go l'
         end) cs
  | _ => []
  end.

Definition is_tag_named (name : str) (n : node) : bool :=
  match n with
  | Tag nm _ _ => str_eqb nm name
  | _ => false
  end.

(** [tag.find_all(name)] and [tag.find(name)] *)
Definition find_all (name : str) (n : node) : list node :=
  filter (is_tag_named name) (descendants n).

Definition find_tag (name : str) (n : node) : option node :=
  hd_error (find_all name n).

Fixpoint attr_lookup (k : str) (attrs : list (str * attr_value))
  : option attr_value :=
  match attrs with
  | [] => None
  | (k', v) :: attrs' => if str_eqb k k' then Some v else attr_lookup k attrs'
  end.

(** [tag.get(key)] *)
Definition tag_get (k : str) (n : node) : option attr_value :=
  match n with
  | Tag _ attrs _ => attr_lookup k attrs
  | _ => None
  end.

Definition attr_truthy (a : option attr_value) : bool :=
  match a with
  | Some (AStr (_ :: _)) => true
  | Some (AList (_ :: _)) => true
  | _ => false
  end.

Definition attr_len (a : attr_value) : nat :=
  match a with
  | AStr s => List.length s
  | AList l => List.length l
  end.

Definition value_of_attr (a : attr_value) : value :=
  match a with
  | AStr s => VStr s
  | AList l => VList (List.map VStr l)
  end.

(** [a or b] on attribute values. *)
Definition attr_or (a b : option attr_value) : option attr_value :=
  if attr_truthy a then a else b.

(** [tag.find(name, attrs={k: v})]: the attribute equals [v], or is a
    list that holds [v] or spells it. *)
Definition attr_is (k v : str) (n : node) : bool :=
  match tag_get k n with
  | Some (AStr s) => str_eqb s v
  | Some (AList l) =>
      existsb (fun s => str_eqb s v) l || str_eqb (join [32%N] l) v
  | None => false
  end.

Definition find_with_attr (name k v : str) (n : node) : option node :=
  hd_error (filter (fun d => is_tag_named name d && attr_is k v d)
                   (descendants n)).

(** The strings [get_text] joins: with [strip], each is stripped and the
    empty ones are dropped. *)
Definition all_strings (strip_them : bool) (n : node) : list str :=
  flat_map
    (fun d =>
       match d with
       | Text s =>
           if strip_them then
             match strip s with
             | [] => []
             | s' => [s']
             end
           else [s]
       | _ => []
       end)
    (descendants n).

(** [tag.get_text(separator, strip=...)] *)
Definition get_text (sep : str) (strip_them : bool) (n : node) : str :=
  join sep (all_strings strip_them n).

(** ** Collaborators *)

(** The libraries the extractor calls: the HTML parser
    ([BeautifulSoup(html, 'lxml')]), the CSS selector engine behind
    [select] and [select_one], [str.lower], [trafilatura.extract], and
    the text [str(e)] of an exception. *)
Class Libraries : Type := {
  BeautifulSoup : str -> node;
  select : value -> node -> res (list node);
  lower : str -> str;
  trafilatura_extract : str -> res (option str);
  message : exn -> str
}.

(** [ConfigLoader.get_config_for_url], over the configuration file. *)
Class ConfigLoader : Type := {
  get_config_for_url : str -> option dict
}.

(** ** scraper/extractor.py *)

Module Extractor.
Local Open Scope monad_scope.

(** The messages [extract] logs, one constructor per logging call. *)
Inductive event : Type :=
| AttemptSelectors
| ExtractedItems (n : nat)
| ExtractedData
| SelectorsYieldedNoData
| AttemptListDetection
| DetectedList (n : nat)
| FallingBack
| TrafilaturaFailed.

(** [r'[\$€£0-9]+[.,]\d{2}']: the set of [$] (36), [€] (8364), [£] (163)
    and the ASCII digits, once or more; then [price_tail], a dot or a comma
    and two decimal digits. *)
Definition price_tail : Re.regex :=
  Re.Seq (Re.Cls false [Re.Single 46; Re.Single 44])
         (Re.Repeat 2 (Some 2) (Re.Cls false [Re.Digit])).

Definition price_pattern : Re.regex :=
  Re.Seq (Re.plus (Re.Cls false [Re.Single 36; Re.Single 8364; Re.Single 163;
                                 Re.Range 48 57]))
         price_tail.

Definition headings : list str :=
  [lit "h1"; lit "h2"; lit "h3"; lit "h4"; lit "h5"; lit "strong"].

(** The heading loop: the first heading tag found with non-empty text
    gives the title; a tag found with empty text does not stop the loop. *)
Fixpoint heading_title (hs : list str) (element : node) : option str :=
  match hs with
  | [] => None
  | h :: hs' =>
      match find_tag h element with
      | Some h_tag =>
          match get_text [] true h_tag with
          | [] => heading_title hs' element
          | text => Some text
          end
      | None => heading_title hs' element
      end
  end.

(** 1. Image *)
Definition image_field (element : node) (data : dict) : dict :=
  match find_tag (lit "img") element with
  | Some img =>
      match attr_or (tag_get (lit "src") img) (tag_get (lit "data-src") img) with
      | Some src =>
          if attr_truthy (Some src) && Nat.ltb 10 (attr_len src)
          then dict_set (lit "image") (value_of_attr src) data
          else data
      | None => data
      end
  | None => data
  end.

(** 2. Link, and the title inside the main link *)
Definition link_fields (element : node) (data : dict) : dict :=
  match find_tag (lit "a") element with
  | Some a_tag =>
      let data :=
        match tag_get (lit "href") a_tag with
        | Some href =>
            if attr_truthy (Some href)
            then dict_set (lit "link") (value_of_attr href) data
            else data
        | None => data
        end in
      let link_text := get_text [] true a_tag in
      if Nat.ltb 3 (List.length link_text)
      then dict_set (lit "title") (VStr link_text) data
      else data
  | None => data
  end.

(** 3. Title, from the headings when the link gave none *)
Definition title_field (element : node) (data : dict) : dict :=
  if dict_has (lit "title") data then data
  else
    match heading_title headings element with
    | Some text => dict_set (lit "title") (VStr text) data
    | None => data
    end.

(** 4. Price *)
Definition price_field (element : node) (data : dict) : dict :=
  let text_content := get_text [32%N] true element in
  match Re.search price_pattern text_content with
  | Some price_match =>
      dict_set (lit "price")
               (VStr (Re.slice text_content (Re.m_start price_match)
                               (Re.m_end price_match)))
               data
  | None => data
  end.

Definition _heuristically_extract_item (element : node) : dict :=
  price_field element
    (title_field element (link_fields element (image_field element []))).

(** The characters and the shape the price pattern looks for: one
    character that is a currency symbol or an ASCII digit, then a dot or a
    comma, then two decimal digits. *)
Definition is_currency_symbol (c : N) : bool :=
  N.eqb c 36 || N.eqb c 8364 || N.eqb c 163.

Definition price_char (c : N) : bool :=
  is_currency_symbol c || (N.leb 48 c && N.leb c 57).

Definition price_separator (c : N) : bool := N.eqb c 46 || N.eqb c 44.

Definition has_price_token (text : str) : Prop :=
  exists pre c sep d1 d2 post,
    text = pre ++ c :: sep :: d1 :: d2 :: post /\
    price_char c = true /\ price_separator sep = true /\
    isdecimal d1 = true /\ isdecimal d2 = true.

(** The signature of an element's classes: [".".join(sorted(classes))]. *)
Definition class_signature (classes : attr_value) : str :=
  match classes with
  | AList l => join [46%N] (sorted l)
  | AStr s => join [46%N] (sorted (List.map (fun c => [c]) s))
  end.

(** [class_counts[sig].append(element)], creating the entry when new. *)
Fixpoint add_to_group (sig : str) (element : node)
  (class_counts : list (str * list node)) : list (str * list node) :=
  match class_counts with
  | [] => [(sig, [element])]
  | (s, els) :: rest =>
      if str_eqb sig s then (s, els ++ [element]) :: rest
      else (s, els) :: add_to_group sig element rest
  end.

Definition container_tags : list str :=
  [lit "div"; lit "article"; lit "li"; lit "tr"].

Definition group_by_class (soup : node) : list (str * list node) :=
  fold_left
    (fun class_counts tag_name =>
       fold_left
         (fun class_counts element =>
            match tag_get (lit "class") element with
            | Some classes =>
                if attr_truthy (Some classes)
                then add_to_group (class_signature classes) element class_counts
                else class_counts
            | None => class_counts
            end)
         (find_all tag_name soup) class_counts)
    container_tags [].

(** The first loop of a candidate: how many of the first five elements
    yield at least two fields. *)
Definition count_valid (sample : list node) : nat :=
  fold_left
    (fun valid_items el =>
       if Nat.leb 2 (List.length (_heuristically_extract_item el))
       then S valid_items else valid_items)
    sample O.

(** [valid_items / sample_size > 0.6] *)
Definition sample_looks_good (elements : list node) : bool :=
  let sample_size := Nat.min (List.length elements) 5 in
  let valid_items := count_valid (firstn sample_size elements) in
  PrimFloat.ltb f0_6 (true_div valid_items sample_size).

(** The body of the loop over candidates: the score of a candidate and
    the items extracted from it. *)
Definition score_candidate (elements : list node) : float * list dict :=
  if sample_looks_good elements then
    let extracted_set :=
      filter any_values (List.map _heuristically_extract_item elements) in
    match extracted_set with
    | [] => (f0, extracted_set)
    | _ =>
        let avg_fields :=
          true_div (list_sum (List.map (@List.length _) extracted_set))
                   (List.length extracted_set) in
        (PrimFloat.mul
           (PrimFloat.mul (float_of_nat (List.length extracted_set)) avg_fields)
           (if PrimFloat.leb f3 avg_fields then f1_5 else f1_0),
         extracted_set)
    end
  else (f0, []).

Definition _detect_and_extract_list (soup : node) : option (list dict) :=
  let class_counts := group_by_class soup in
  let candidates :=
    List.map snd
      (filter (fun e => Nat.leb 3 (List.length (snd e))) class_counts) in
  let '(best_items, max_score) :=
    fold_left
      (fun '(best_items, max_score) elements =>
         let '(score, extracted_set) := score_candidate elements in
         if PrimFloat.ltb max_score score
         then (extracted_set, score)
         else (best_items, max_score))
      candidates ([], f0) in
  match best_items with
  | [] => None
  | _ => Some best_items
  end.

Section WithLibraries.
Context {libs : Libraries}.

Definition text_value (target : node) : value := VStr (get_text [] true target).

Definition attr_or_else (k : str) (target : node) (dflt : value) : value :=
  match tag_get k target with
  | Some a => value_of_attr a
  | None => dflt
  end.

Definition is_one_of (names : list str) (s : str) : bool :=
  existsb (str_eqb s) names.

Definition _extract_fields (element : node) (selectors : value) : res dict :=
  match selectors with
  | VDict sel =>
      Ok (fold_left
            (fun data '(field_name, selector) =>
               match select selector element with
               | Ok (target :: _) =>
                   let lower_field := lower field_name in
                   if is_one_of [lit "link"; lit "url"; lit "href"] lower_field then
                     dict_set field_name
                       (attr_or_else (lit "href") target (text_value target)) data
                   else if is_one_of [lit "image"; lit "img"; lit "src";
                                      lit "thumbnail"] lower_field then
                     dict_set field_name
                       (attr_or_else (lit "src") target
                          (attr_or_else (lit "data-src") target
                             (text_value target))) data
                   else dict_set field_name (text_value target) data
               | _ => data            (* no target, or the exception is passed *)
               end)
            sel [])
  | _ => Raise AttributeError
  end.

(** [for element in containers: ...] *)
Fixpoint extract_containers (containers : list node) (selectors : value)
  : res (list value) :=
  match containers with
  | [] => Ok []
  | element :: rest =>
      match _extract_fields element selectors with
      | Ok item_data =>
          match extract_containers rest selectors with
          | Ok items =>
              Ok (if any_values item_data then VDict item_data :: items
                  else items)
          | Raise e => Raise e
          end
      | Raise e => Raise e
      end
  end.

Definition _extract_with_selectors (soup : node) (selectors container : value)
  : res value :=
  if truthy container then
    match select container soup with
    | Ok containers =>
        match extract_containers containers selectors with
        | Ok items => Ok (VList items)
        | Raise e => Raise e
        end
    | Raise e => Raise e
    end
  else
    match _extract_fields soup selectors with
    | Ok data => Ok (VDict data)
    | Raise e => Raise e
    end.

Definition log {A : Type} (e : A) : M (list A) unit :=
  modify (fun l => l ++ [e]).

Definition body_text (soup : node) : option value :=
  match find_tag (lit "body") soup with
  | Some body => Some (VStr (firstn 5000 (get_text [10%N] true body)))
  | None => None
  end.

Definition _extract_smart_content (html : str) (soup : node)
  : M (list event) value :=
  let results : dict := [] in
  let results :=
    match find_tag (lit "title") soup with
    | Some title => dict_set (lit "title") (VStr (get_text [] true title)) results
    | None => results
    end in
  let meta_desc :=
    match find_with_attr (lit "meta") (lit "name") (lit "description") soup with
    | Some m => Some m
    | None =>
        find_with_attr (lit "meta") (lit "property") (lit "og:description") soup
    end in
  results <-
    match meta_desc with
    | Some m =>
        match tag_get (lit "content") m with
        | Some (AStr c) => ret (dict_set (lit "description") (VStr (strip c)) results)
        | Some (AList _) => raise AttributeError
        | None => ret (dict_set (lit "description") (VStr []) results)
        end
    | None => ret results
    end ;;
  results <-
    match trafilatura_extract html with
    | Ok (Some (c :: main_content)) =>
        ret (dict_set (lit "content") (VStr (c :: main_content)) results)
    | Ok _ =>
        (* a missing body raises inside the try; the handler finds no body *)
        match body_text soup with
        | Some text => ret (dict_set (lit "content") text results)
        | None => log TrafilaturaFailed ;;; ret results
        end
    | Raise _ =>
        log TrafilaturaFailed ;;;
        match body_text soup with
        | Some text => ret (dict_set (lit "content") text results)
        | None => ret results
        end
    end ;;
  ret (VDict (dict_set (lit "extraction_type") (VStr (lit "smart_fallback"))
                       results)).

Definition extract (html config : value) : M (list event) value :=
  if negb (truthy html) then ret (VDict [])
  else
    match html, py_or config (VDict []) with
    | VStr html_text, VDict config =>
        let soup := BeautifulSoup html_text in
        (* Layer 1: Configured Selectors *)
        let selectors :=
          py_or (get (lit "selectors") config) (get (lit "fields") config) in
        layer1 <-
          (if truthy selectors then
             log AttemptSelectors ;;;
             let container := get (lit "container") config in
             result <- lift (_extract_with_selectors soup selectors container) ;;
             if truthy result then
               match result with
               | VList l => log (ExtractedItems (List.length l)) ;;; ret (Some result)
               | VDict d =>
                   if any_values d then log ExtractedData ;;; ret (Some result)
                   else log SelectorsYieldedNoData ;;; ret None
               | _ => log SelectorsYieldedNoData ;;; ret None
               end
             else ret None
           else ret None) ;;
        match layer1 with
        | Some result => ret result
        | None =>
            (* Layer 2: Automatic List Detection *)
            log AttemptListDetection ;;;
            match _detect_and_extract_list soup with
            | Some auto_list_result =>
                log (DetectedList (List.length auto_list_result)) ;;;
                ret (VList (List.map VDict auto_list_result))
            | None =>
                (* Layer 3: Smart Content Extraction *)
                log FallingBack ;;;
                _extract_smart_content html_text soup
            end
        end
    | VStr _, _ => raise AttributeError   (* config.get on a non-dict *)
    | _, _ => raise TypeError             (* markup that is not a string *)
    end.

(** The fields [_extract_fields] gives for a mapping of selectors. *)
Definition fields_of (element : node) (sel : dict) : dict :=
  match _extract_fields element (VDict sel) with
  | Ok data => data
  | Raise _ => []
  end.

(** The configured selectors yield no data: there are none, or they give
    an empty list or a mapping without any truthy value. *)
Definition yields_nothing (soup : node) (config : dict) : Prop :=
  let selectors :=
    py_or (get (lit "selectors") config) (get (lit "fields") config) in
  truthy selectors = true ->
  exists result,
    _extract_with_selectors soup selectors (get (lit "container") config)
      = Ok result /\
    match result with
    | VList l => l = []
    | VDict d => any_values d = false
    | _ => False
    end.

(** Layers 2 and 3 of [extract], as they run once Layer 1 has given
    nothing. *)
Definition lower_layers (html_text : str) (soup : node)
  : M (list event) value :=
  log AttemptListDetection ;;;
  match _detect_and_extract_list soup with
  | Some auto_list_result =>
      log (DetectedList (List.length auto_list_result)) ;;;
      ret (VList (List.map VDict auto_list_result))
  | None =>
      log FallingBack ;;;
      _extract_smart_content html_text soup
  end.

End WithLibraries.

(** The names of the fields of a heuristic item. *)
Definition heuristic_fields : list str :=
  [lit "image"; lit "link"; lit "title"; lit "price"].

(** Keys without repetition, among [ks], with truthy values. *)
Definition tidy (ks : list str) (d : dict) : Prop :=
  NoDup (List.map fst d) /\ incl (List.map fst d) ks /\
  Forall (fun kv => truthy (snd kv) = true) d.

(** An element that list detection groups under a signature: a descendant
    of the document whose classes spell the signature. *)
Definition has_signature (soup : node) (sig : str) (element : node) : Prop :=
  In element (descendants soup) /\
  exists classes,
    tag_get (lit "class") element = Some classes /\
    class_signature classes = sig.
End Extractor.

(** ** scraper/async_scraper.py *)

Module AsyncScraper.
Local Open Scope monad_scope.

(** [PaginationConfig]; the pattern is held compiled. *)
Record pagination_config : Type := mk_pagination {
  pc_type : option str;
  pc_selector : value;
  pc_pattern : option Re.regex
}.

(** [r'page=(\d+)'], the default of the [pattern] key. *)
Definition default_pattern : Re.regex :=
  Re.Seq (Re.literal (lit "page="))
         (Re.Group 1 (Re.plus (Re.Cls false [Re.Digit]))).

(** [{'type': 'url_pattern', 'pattern': ...}], or without the pattern. *)
Definition url_pattern (pattern : option Re.regex) : pagination_config :=
  mk_pagination (Some (lit "url_pattern")) VNone pattern.

(** The url_pattern branch of [_find_next_page]. *)
Definition next_by_url_pattern (current_url : str) (cfg : pagination_config)
  : res (option str) :=
  let pattern :=
    match pc_pattern cfg with
    | Some p => p
    | None => default_pattern
    end in
  match Re.search pattern current_url with
  | Some m =>
      match Re.group pattern current_url m 1 with
      | Ok (Some g) =>
          match py_int g with
          | Ok current_page =>
              let next_page := (current_page + 1)%Z in
              Ok (Some (Re.sub pattern (lit "page=" ++ str_of_Z next_page)
                               current_url))
          | Raise e => Raise e
          end
      | Ok None => Raise TypeError          (* int(None) *)
      | Raise e => Raise e
      end
  | None => Ok None
  end.

(** Following the words of the specification for url_pattern pagination:
    the current URL with the page number that the pattern locates (its
    first group, in the first match) incremented in place, the rest of the
    URL as it was; no next page when the pattern does not match. *)
Definition incremented_in_place (current_url : str) (pattern : Re.regex)
  : option str :=
  match Re.search pattern current_url with
  | Some m =>
      match find (fun c => Nat.eqb (fst c) 1) (Re.m_caps m) with
      | Some (_, (a, b)) =>
          match py_int (Re.slice current_url a b) with
          | Ok n =>
              Some (firstn a current_url ++ str_of_Z (n + 1)
                    ++ skipn b current_url)
          | Raise _ => None
          end
      | None => None
      end
  | None => None
  end.

(** [r'p=(\d+)'], a configured pattern with one numeric group. *)
Definition p_pattern : Re.regex :=
  Re.Seq (Re.literal (lit "p="))
         (Re.Group 1 (Re.plus (Re.Cls false [Re.Digit]))).

(** The object: its configuration, the state manager when enabled, the
    results collected, the state of the item pipeline, the requests issued
    so far and the number of clock readings taken by database writes. *)
Record t (Pipeline : Type) : Type := mk {
  config : dict;
  state_manager : option StateManager.t;
  results : list value;
  pipeline_manager : Pipeline;
  requests : list str;
  ticks : nat
}.
Arguments mk {Pipeline}.
Arguments config {Pipeline}.
Arguments state_manager {Pipeline}.
Arguments results {Pipeline}.
Arguments pipeline_manager {Pipeline}.
Arguments requests {Pipeline}.
Arguments ticks {Pipeline}.

(** What the scraper runs against: the HTTP client, [urljoin], the clock
    (the text of [CURRENT_TIMESTAMP] at each reading) and the item
    pipeline, which returns the item as its stages left it and whether it
    is kept, or what a stage raised. *)
Class Environment (Pipeline : Type) : Type := {
  http_get : str -> res str;
  urljoin : str -> str -> str;
  CURRENT_TIMESTAMP : nat -> str;
  process_item : value -> Pipeline -> (value * res bool) * Pipeline
}.

Section WithCollaborators.
Context {libs : Libraries} {loader : ConfigLoader}.
Context {Pipeline : Type} {env : Environment Pipeline}.

#[local] Abbreviation scraper := (t Pipeline).

(** [len(x)] *)
Definition py_len (v : value) : res nat :=
  match v with
  | VStr s => Ok (List.length s)
  | VList l => Ok (List.length l)
  | VDict d => Ok (List.length d)
  | _ => Raise TypeError
  end.

(** The selectors and the container [scrape] settles on before it takes
    the semaphore. *)
Definition resolve_configuration (url : str) (selectors : value)
  : M scraper (value * value) :=
  self <- get_state ;;
  let '(selectors, container) :=
    if truthy selectors then (selectors, VNone)
    else (get_default (lit "selectors") (VDict []) (config self),
          get (lit "container") (config self)) in
  if truthy selectors then ret (selectors, container)
  else
    match get_config_for_url url with
    | Some (kv :: loaded) =>
        let loaded_config := kv :: loaded in
        let selectors := get_default (lit "selectors") (VDict []) loaded_config in
        let container := get (lit "container") loaded_config in
        (* the log message formats len(selectors) *)
        _ <- lift (py_len selectors) ;;
        ret (selectors, container)
    | _ => ret (selectors, container)
    end.

Definition _fetch_page (url : str) : M scraper str :=
  modify (fun self : scraper =>
            mk (config self) (state_manager self) (results self)
               (pipeline_manager self) (requests self ++ [url]) (ticks self)) ;;;
  lift (http_get url).

(** [self.add_result(item)]; the item comes back as the pipeline left it. *)
Definition add_result (item : value) : M scraper value :=
  self <- get_state ;;
  let '((item', outcome), p') := process_item item (pipeline_manager self) in
  match outcome with
  | Ok kept =>
      put_state (mk (config self) (state_manager self)
                    (if kept then results self ++ [item'] else results self)
                    p' (requests self) (ticks self)) ;;;
      ret item'
  | Raise e =>
      put_state (mk (config self) (state_manager self) (results self)
                    p' (requests self) (ticks self)) ;;;
      raise e
  end.

(** A method of the state manager run on [self.state_manager]; the clock
    is read once. *)
Definition on_state_manager {A : Type} (m : str -> M StateManager.t A)
  (sm : StateManager.t) : M scraper A :=
  fun self =>
    let '(r, sm') := m (CURRENT_TIMESTAMP (ticks self)) sm in
    (r, mk (config self) (Some sm') (results self) (pipeline_manager self)
           (requests self) (S (ticks self))).

Definition set_item (k : str) (v : value) (item : value) : res value :=
  match item with
  | VDict d => Ok (VDict (dict_set k v d))
  | _ => Raise TypeError
  end.

Fixpoint annotate_items (url : str) (items : list value) : res (list value) :=
  match items with
  | [] => Ok []
  | item :: rest =>
      match set_item (lit "url") (VStr url) item with
      | Ok i1 =>
          match set_item (lit "status") (VStr (lit "success")) i1 with
          | Ok i2 =>
              match annotate_items url rest with
              | Ok rest' => Ok (i2 :: rest')
              | Raise e => Raise e
              end
          | Raise e => Raise e
          end
      | Raise e => Raise e
      end
  end.

Fixpoint add_results (items : list value) : M scraper (list value) :=
  match items with
  | [] => ret []
  | item :: rest =>
      item' <- add_result item ;;
      rest' <- add_results rest ;;
      ret (item' :: rest')
  end.

Definition skipped (url : str) : value :=
  VDict [(lit "url", VStr url); (lit "status", VStr (lit "skipped"));
         (lit "reason", VStr (lit "already_visited"))].

Definition failed (url : str) (e : exn) : value :=
  VDict [(lit "url", VStr url); (lit "status", VStr (lit "failed"));
         (lit "error", VStr (message e))].

Definition scrape (url : str) (selectors : value) : M scraper value :=
  sc <- resolve_configuration url selectors ;;
  let '(selectors, container) := sc in
  self <- get_state ;;
  (* Check if already visited *)
  if match state_manager self with
     | Some sm => StateManager.is_visited url None sm
     | None => false
     end
  then ret (skipped url)
  else
    try_except
      (html <- _fetch_page url ;;
       data <- lift (fst (Extractor.extract (VStr html)
                            (VDict [(lit "selectors", selectors);
                                    (lit "container", container)]) [])) ;;
       data <-
         match data with
         | VList items =>
             items <- lift (annotate_items url items) ;;
             items <- add_results items ;;
             ret (VList items)
         | _ =>
             d1 <- lift (set_item (lit "url") (VStr url) data) ;;
             d2 <- lift (set_item (lit "status") (VStr (lit "success")) d1) ;;
             add_result d2
         end ;;
       (* Mark as visited *)
       self <- get_state ;;
       match state_manager self with
       | Some sm =>
           on_state_manager
             (fun now => StateManager.mark_visited now url None (lit "success"))
             sm ;;;
           let save_data :=
             match data with
             | VDict _ => data
             | _ =>
                 match py_len data with
                 | Ok n => VDict [(lit "item_count", VInt (Z.of_nat n));
                                  (lit "type", VStr (lit "list"))]
                 | Raise _ => VNone
                 end
             end in
           self <- get_state ;;
           match state_manager self with
           | Some sm =>
               on_state_manager
                 (fun now => StateManager.save_item now url save_data None) sm
           | None => ret tt
           end
       | None => ret tt
       end ;;;
       ret data)
      (fun _ => true)
      (fun e =>
         self <- get_state ;;
         match state_manager self with
         | Some sm =>
             on_state_manager
               (fun now => StateManager.mark_visited now url None (lit "failed"))
               sm
         | None => ret tt
         end ;;;
         ret (failed url e)).

(** The next_button branch of [_find_next_page]: the vocabulary test on
    the text of a link or button. *)
Definition looks_like_next (text : str) : bool :=
  existsb (fun p => str_in p text)
          [lit "next"; lit "more"; lit "older"; lit ">"; [187%N]]
  && negb (str_in (lit "prev") text || str_in (lit "back") text
           || str_in (lit "newer") text).

Definition next_by_text (soup : node) : option node :=
  find (fun el =>
          looks_like_next (lower (get_text [] true el))
          && attr_truthy (tag_get (lit "href") el))
       (find_all (lit "a") soup).

Definition next_by_button (current_url : str) (cfg : pagination_config)
  : M scraper (option str) :=
  try_except
    (html <- _fetch_page current_url ;;
     let soup := BeautifulSoup html in
     next_element <-
       (if truthy (pc_selector cfg) then
          found <- lift (select (pc_selector cfg) soup) ;;
          ret (hd_error found)
        else ret None) ;;
     let next_element :=
       match next_element with
       | Some el => Some el
       | None => next_by_text soup
       end in
     match next_element with
     | Some el =>
         match tag_get (lit "href") el with
         | Some (AStr (c :: href)) => ret (Some (urljoin current_url (c :: href)))
         | Some (AList (_ :: _)) => raise TypeError
         | _ => ret None
         end
     | None => ret None
     end)
    (fun _ => true)
    (fun _ => ret None).

Definition _find_next_page (current_url : str) (cfg : pagination_config)
  : M scraper (option str) :=
  let pagination_type :=
    match pc_type cfg with
    | Some ty => ty
    | None => lit "next_button"
    end in
  if str_eqb pagination_type (lit "next_button") then
    next_by_button current_url cfg
  else if str_eqb pagination_type (lit "url_pattern") then
    lift (next_by_url_pattern current_url cfg)
  else ret None.

End WithCollaborators.

(** *** What a call of [scrape] leaves behind *)

Definition has_state_manager {Pipeline : Type} (s : t Pipeline) : bool :=
  match state_manager s with
  | Some _ => true
  | None => false
  end.

(** The scraper [s] is [self] after one request for [url]: the same
    configuration, one more request, and a state manager when [self] has
    one. *)
Definition after_request {Pipeline : Type} (self : t Pipeline) (url : str)
  (s : t Pipeline) : Prop :=
  config s = config self /\
  requests s = requests self ++ [url] /\
  has_state_manager s = has_state_manager self.

(** The state manager of [s], when it has one, holds a visit record of
    [url]. *)
Definition recorded {Pipeline : Type} (url : str) (s : t Pipeline) : Prop :=
  forall sm, state_manager s = Some sm ->
             StateManager.known url (StateManager.db sm) = true.

End AsyncScraper.

(** ** scraper/pipelines.py *)

Module Pipelines.

(** What the pipelines call: [hash(frozenset(item.items()))] on an item
    whose values are all hashable, and [jsonschema.validate], which
    returns ([Ok true]), raises ValidationError ([Ok false]) or raises
    something else. *)
Class Builtins : Type := {
  hash_items : dict -> Z;
  validate : value -> value -> res bool
}.

(** The four pipelines; the deduplication pipeline carries the ids it has
    seen. *)
Inductive pipeline : Type :=
| ItemPipeline
| ValidationPipeline
| DeduplicationPipeline (seen_ids : list value)
| SchemaValidationPipeline.

(** [for key, value in item.items(): if isinstance(value, str):
    item[key] = value.strip()] *)
Definition strip_item (item : dict) : dict :=
  fold_left
    (fun item' kv =>
       match snd kv with
       | VStr s => dict_set (fst kv) (VStr (strip s)) item'
       | _ => item'
       end)
    item item.

(** Lists and dictionaries are unhashable. *)
Definition hashable (v : value) : bool :=
  match v with
  | VList _ | VDict _ => false
  | _ => true
  end.

Definition number (v : value) : option Z :=
  match v with
  | VInt z => Some z
  | VBool b => Some (if b then 1 else 0)%Z
  | _ => None
  end.

(** [a == b] on hashable values: [True == 1], and a string equals no
    number. *)
Definition py_eq (a b : value) : bool :=
  match a, b with
  | VNone, VNone => true
  | VStr s, VStr s' => str_eqb s s'
  | _, _ =>
      match number a, number b with
      | Some x, Some y => (x =? y)%Z
      | _, _ => false
      end
  end.

Section WithBuiltins.
Context {builtins : Builtins}.

(** [item.get('link') or item.get('url') or
    hash(frozenset(item.items()))] *)
Definition item_id (item : dict) : res value :=
  if truthy (get (lit "link") item) then Ok (get (lit "link") item)
  else if truthy (get (lit "url") item) then Ok (get (lit "url") item)
  else if forallb (fun kv => hashable (snd kv)) item
       then Ok (VInt (hash_items item))
       else Raise TypeError.

(** [pipeline.process_item(item, scraper)]: the item object as the call
    leaves it, whether the item is returned ([Ok true]) or [None] is
    ([Ok false]), or what is raised; and the pipeline after the call. *)
Definition process (p : pipeline) (config : dict) (item : value)
  : (value * res bool) * pipeline :=
  match item with
  | VDict d =>
      match p with
      | ItemPipeline => ((VDict (strip_item d), Ok true), p)
      | ValidationPipeline =>
          ((item, Ok (truthy (get (lit "title") d))), p)
      | SchemaValidationPipeline =>
          let schema := get (lit "schema") config in
          if truthy schema then ((item, validate item schema), p)
          else ((item, Ok true), p)
      | DeduplicationPipeline seen_ids =>
          match item_id d with
          | Ok id =>
              if hashable id then
                if existsb (py_eq id) seen_ids then ((item, Ok false), p)
                else ((item, Ok true), DeduplicationPipeline (seen_ids ++ [id]))
              else ((item, Raise TypeError), p)
          | Raise e => ((item, Raise e), p)
          end
      end
  | _ => ((item, Raise AttributeError), p)   (* item.items(), item.get *)
  end.

(** [PipelineManager.__init__] *)
Definition default_pipelines : list pipeline :=
  [ItemPipeline; ValidationPipeline; DeduplicationPipeline [];
   SchemaValidationPipeline].

Definition __init__ (pipelines : list pipeline) : list pipeline :=
  match pipelines with
  | [] => default_pipelines
  | _ => pipelines
  end.

(** [PipelineManager.process_item]: the pipelines in turn, until one
    returns [None] or raises. *)
Fixpoint process_item (pipelines : list pipeline) (config : dict)
  (item : value) : (value * res bool) * list pipeline :=
  match pipelines with
  | [] => ((item, Ok true), [])
  | p :: rest =>
      let '((item', r), p') := process p config item in
      match r with
      | Ok true =>
          let '(out, rest') := process_item rest config item' in
          (out, p' :: rest')
      | _ => ((item', r), p' :: rest)
      end
  end.

(** The scraper's collaborators, with the pipeline manager of
    [BaseScraper.__init__] for a scraper of configuration [config]. *)
Definition environment (config : dict) (http_get : str -> res str)
  (urljoin : str -> str -> str) (CURRENT_TIMESTAMP : nat -> str)
  : AsyncScraper.Environment (list pipeline) := {|
  AsyncScraper.http_get := http_get;
  AsyncScraper.urljoin := urljoin;
  AsyncScraper.CURRENT_TIMESTAMP := CURRENT_TIMESTAMP;
  AsyncScraper.process_item := fun item ps => process_item ps config item
|}.

(** The ids the deduplication pipelines of a manager have seen. *)
Definition seen (pipelines : list pipeline) : list value :=
  flat_map (fun p => match p with
                     | DeduplicationPipeline seen_ids => seen_ids
                     | _ => []
                     end) pipelines.

(** The manager after the items have been processed, whatever became of
    them. *)
Definition feed (pipelines : list pipeline) (config : dict)
  (items : list value) : list pipeline :=
  fold_left (fun ps item => snd (process_item ps config item)) items pipelines.

End WithBuiltins.

(** A mapping: no key twice. *)
Definition is_mapping (d : dict) : Prop := NoDup (List.map fst d).

(** [value.strip()] on the strings, other values as they are. *)
Definition stripped (v : value) : value :=
  match v with
  | VStr s => VStr (strip s)
  | _ => v
  end.

End Pipelines.

(** ** scraper/config_loader.py *)

Module config_loader.

(** [urlparse(url).netloc], which raises on a malformed URL. *)
Class UrlLib : Type := {
  netloc : str -> res str
}.

(** [key.replace('_', '.')] *)
Definition replace_underscore (key : str) : str :=
  List.map (fun c => if (c =? 95)%N then 46%N else c) key.

Section WithLibraries.
Context {libs : Libraries} {urllib : UrlLib}.

(** The domain of the URL, in lower case and without a leading [www.] *)
Definition domain_of (url : str) : res str :=
  match netloc url with
  | Ok n =>
      let domain := lower n in
      Ok (if str_prefix (lit "www.") domain then skipn 4 domain else domain)
  | Raise e => Raise e
  end.

(** 1. Check "sites" list (Legacy/Strict support) *)
Fixpoint search_sites (domain : str) (sites : list value)
  : res (option dict) :=
  match sites with
  | [] => Ok None
  | VDict site :: rest =>
      match get_default (lit "domain") (VStr []) site with
      | VStr d =>
          let site_domain := lower d in
          if truthy (VStr site_domain) && str_in site_domain domain
          then Ok (Some site)
          else search_sites domain rest
      | _ => Raise AttributeError          (* .lower() of no string *)
      end
  | _ :: _ => Raise AttributeError          (* site.get *)
  end.

(** A. Check explicit 'domain' field in value *)
Definition domain_field_matches (domain : str) (options : dict) : res bool :=
  if dict_has (lit "domain") options then
    match get (lit "domain") options with
    | VStr d => Ok (str_in (lower d) domain)
    | _ => Raise AttributeError
    end
  else Ok false.

(** 2. Check Dictionary Keys (Current format) *)
Fixpoint search_keys (domain : str) (entries : dict) : res (option dict) :=
  match entries with
  | [] => Ok None
  | (key, VDict options) :: rest =>
      match domain_field_matches domain options with
      | Raise e => Raise e
      | Ok true => Ok (Some options)
      | Ok false =>
          (* B. Match Key against Domain (Heuristic) *)
          let normalized_key := replace_underscore key in
          if str_in normalized_key domain then Ok (Some options)
          (* C. Check if key is a substring of domain *)
          else if Nat.ltb 3 (List.length key) && str_in key domain
          then Ok (Some options)
          else search_keys domain rest
      end
  | _ :: rest => search_keys domain rest
  end.

(** The body of the [try] of [get_config_for_url], on a configuration
    that is a mapping. *)
Definition find_config (config : dict) (url : str) : res (option dict) :=
  match domain_of url with
  | Raise e => Raise e
  | Ok domain =>
      let from_sites :=
        match dict_get (lit "sites") config with
        | Some (VList sites) => search_sites domain sites
        | _ => Ok None
        end in
      match from_sites with
      | Ok None => search_keys domain config
      | found => found
      end
  end.

(** [get_config_for_url]: every exception gives [None].  A configuration
    file that holds no mapping makes ["sites" in self.config], the
    subscript or [.items()] raise. *)
Definition get_config_for_url (config : value) (url : str) : option dict :=
  match config with
  | VDict c =>
      match find_config c url with
      | Ok found => found
      | Raise _ => None
      end
  | _ => None
  end.

(** The loader of a scraper whose configuration file holds [config]. *)
Definition loader (config : value) : ConfigLoader :=
  Build_ConfigLoader (get_config_for_url config).

End WithLibraries.

(** No mapping of the entries has a domain field that is no string. *)
Definition domains_are_text (entries : dict) : Prop :=
  Forall (fun kv =>
            match snd kv with
            | VDict options =>
                match dict_get (lit "domain") options with
                | Some (VStr _) | None => True
                | Some _ => False
                end
            | _ => True
            end) entries.

End config_loader.

(** ** scraper/async_scraper.py: crawling with pagination *)

Module AsyncPagination.
Import AsyncScraper.
Local Open Scope monad_scope.

(** [datetime.now().strftime('%Y%m%d_%H%M%S')] at each reading of the
    clock. *)
Class SessionClock : Type := {
  strftime : nat -> str
}.

(** [result.get('status') == 'success']; a result that is a list has no
    [get]. *)
Definition status_is_success (result : value) : res bool :=
  match result with
  | VDict d =>
      Ok (match get (lit "status") d with
          | VStr s => str_eqb s (lit "success")
          | _ => false
          end)
  | _ => Raise AttributeError
  end.

(** [{}], the pagination configuration when none is given. *)
Definition no_pagination : pagination_config := mk_pagination None VNone None.

Section WithCollaborators.
Context {libs : Libraries} {loader : ConfigLoader}.
Context {Pipeline : Type} {env : Environment Pipeline} {clock : SessionClock}.

#[local] Abbreviation scraper := (t Pipeline).

(** [if self.state_manager: self.state_manager.start_session(start_url,
    metadata={...})] *)
Definition open_session (start_url : str) (metadata : value)
  : M scraper unit :=
  self <- get_state ;;
  match state_manager self with
  | Some sm =>
      on_state_manager
        (fun now =>
           StateManager.start_session (strftime (ticks self)) now start_url
                                      (Some metadata))
        sm ;;;
      ret tt
  | None => ret tt
  end.

(** [if self.state_manager: self.state_manager.end_session()] *)
Definition close_session : M scraper unit :=
  self <- get_state ;;
  match state_manager self with
  | Some sm => on_state_manager (fun now => StateManager.end_session now None) sm
  | None => ret tt
  end.

(** [while page_num <= max_pages: ...]; every turn that goes on adds one
    to [page_num], so [max_pages] turns of fuel are enough from page 1. *)
Fixpoint pages (fuel : nat) (selectors : value) (cfg : pagination_config)
  (max_pages page_num : Z) (current_url : str) (all_results : list value)
  : M scraper (list value) :=
  match fuel with
  | O => ret all_results
  | S fuel' =>
      if (page_num <=? max_pages)%Z then
        (* Scrape current page *)
        result <- scrape current_url selectors ;;
        success <- lift (status_is_success result) ;;
        if success then
          let all_results := all_results ++ [result] in
          (* Find next page URL *)
          next_url <- _find_next_page current_url cfg ;;
          match next_url with
          | Some (c :: u) =>
              pages fuel' selectors cfg max_pages (page_num + 1)%Z (c :: u)
                    all_results
          | _ => ret all_results
          end
        else ret all_results
      else ret all_results
  end.

(** [scrape_with_pagination]; [pagination] is what
    [pagination_config or self.config.get('pagination', {})] comes to,
    [None] when that is empty. *)
Definition scrape_with_pagination (start_url : str) (selectors : value)
  (pagination : option pagination_config) (max_pages : Z)
  : M scraper (list value) :=
  self <- get_state ;;
  let selectors :=
    py_or selectors (get_default (lit "selectors") (VDict []) (config self)) in
  match pagination, (max_pages <=? 1)%Z with
  | None, true =>
      (* No pagination config and no implicit pagination requested *)
      result <- scrape start_url selectors ;;
      success <- lift (status_is_success result) ;;
      ret (if success then [result] else [])
  | _, _ =>
      let cfg :=
        match pagination with
        | Some cfg => cfg
        | None => no_pagination
        end in
      (* Start a session *)
      open_session start_url
        (VDict [(lit "max_pages", VInt max_pages);
                (lit "pagination", VBool true)]) ;;;
      try_finally
        (pages (Z.to_nat max_pages) selectors cfg max_pages 1 start_url [])
        close_session
  end.

End WithCollaborators.


End AsyncPagination.

(** ** scraper/universal_scraper.py *)

Module UniversalScraper.
Local Open Scope monad_scope.

(** What the browser shows.  An element handle tells whether it is
    visible, its text content and the page a click on it leads to; a page
    gives its HTML and answers selector and XPath queries. *)
Record element : Type := mk_element {
  is_visible : bool;
  text_content : option str;
  leads_to : nat
}.

Record page : Type := mk_page {
  content : str;
  query_selector : value -> res (option element);
  query_selector_all : str -> str -> res (list element)
    (* the XPath of the fallback search, by tag and keyword *)
}.

(** The crawl in progress: the results accumulated, the page number, the
    page shown and the pages the browser has loaded. *)
Record crawl : Type := mk_crawl {
  all_results : list value;
  page_num : Z;
  current : nat;
  loaded : list nat
}.

Definition as_dict (v : value) : res dict :=
  match v with
  | VDict d => Ok d
  | _ => Raise AttributeError
  end.

(** The integer a value stands for in a comparison with a length. *)
Definition as_int (v : value) : res Z :=
  match v with
  | VInt z => Ok z
  | VBool b => Ok (if b then 1 else 0)%Z
  | _ => Raise TypeError
  end.

(** [l[:k]] *)
Definition slice_to (k : Z) (l : list value) : list value :=
  if (0 <=? k)%Z then firstn (Z.to_nat k) l
  else firstn (List.length l - Z.to_nat (- k)) l.

(** [all_results.extend(x)] *)
Definition extend (all_results : list value) (x : value) : res (list value) :=
  match x with
  | VList l => Ok (all_results ++ l)
  | VStr s => Ok (all_results ++ List.map (fun c => VStr [c]) s)
  | VDict d => Ok (all_results ++ List.map (fun kv => VStr (fst kv)) d)
  | _ => Raise TypeError
  end.

(** The keywords of the fallback search, as the source file spells them. *)
Definition keywords : list str :=
  [lit "next"; lit "more"; lit "older"; lit ">"; [194%N; 187%N]].

Definition bad_words : list str :=
  [lit "prev"; lit "back"; lit "newer"; lit "<"].

(** The browser: the pages of the site by number, and the page that
    [page.goto(url)] loads. *)
Class Browser : Type := {
  site : nat -> page;
  goto : str -> nat
}.

Section WithCollaborators.
Context {libs : Libraries} {loader : ConfigLoader} {browser : Browser}.

Definition _extract_data (p : page) (config : dict) : value :=
  let html := content p in
  match fst (Extractor.extract (VStr html) (VDict config) []) with
  | Ok data =>
      let results :=
        match data with
        | VList _ => [(lit "items", data)]
        | VDict d => d
        | _ => []
        end in
      VDict (if truthy (get (lit "save_html") config)
             then dict_set (lit "raw_html") (VStr html) results
             else results)
  | Raise e => VDict [(lit "error", VStr (message e))]
  end.

(** The first element of the XPath hits that is visible and whose text
    holds the keyword and none of the bad words. *)
Definition pick (kw : str) (elements : list element) : option element :=
  find (fun el =>
          is_visible el &&
          let txt :=
            match text_content el with
            | Some (ch :: t) => strip (lower (ch :: t))
            | _ => []
            end in
          str_in kw txt && negb (existsb (fun bad => str_in bad txt) bad_words))
       elements.

Fixpoint search_keywords (p : page) (tag : str) (kws : list str)
  : option element :=
  match kws with
  | [] => None
  | kw :: kws' =>
      match query_selector_all p tag kw with
      | Ok elements =>
          match pick kw elements with
          | Some el => Some el
          | None => search_keywords p tag kws'
          end
      | Raise _ => search_keywords p tag kws'
      end
  end.

Definition find_next_button (p : page) (pagination : dict) : option element :=
  let next_button :=
    if truthy (get (lit "selector") pagination) then
      match query_selector p (get (lit "selector") pagination) with
      | Ok el => el
      | Raise _ => None
      end
    else None in
  match next_button with
  | Some el => Some el
  | None =>
      match search_keywords p (lit "a") keywords with
      | Some el => Some el
      | None => search_keywords p (lit "button") keywords
      end
  end.

(** Flatten items into main list: a truthy [items] entry extends the
    results, any other page result is appended whole. *)
Definition accumulate (all_results : list value) (page_data : dict)
  : res (list value) :=
  if truthy (get (lit "items") page_data)
  then extend all_results (get (lit "items") page_data)
  else Ok (all_results ++ [VDict page_data]).

(** What one turn of the loop decides. *)
Inductive step : Type :=
| Continue (c : crawl)
| Break (c : crawl).

(** The body of [while page_num <= max_pages]. *)
Definition loop_body (config : dict) (max_pages : Z) (c : crawl) : res step :=
  (* Extract Data *)
  let page_data := _extract_data (site (current c)) config in
  match as_dict page_data with
  | Raise e => Raise e
  | Ok pd =>
      match accumulate (all_results c) pd with
      | Raise e => Raise e
      | Ok results =>
          (* Check Max Items *)
          let max_items := get (lit "max_items") config in
          let reached :=
            if truthy max_items then
              match as_int max_items with
              | Ok m => Ok (if (m <=? Z.of_nat (List.length results))%Z
                            then Some m else None)
              | Raise e => Raise e
              end
            else Ok None in
          match reached with
          | Raise e => Raise e
          | Ok (Some m) =>
              Ok (Break (mk_crawl (slice_to m results) (page_num c)
                                  (current c) (loaded c)))
          | Ok None =>
              (* Handle Pagination *)
              match as_dict (get_default (lit "pagination") (VDict []) config) with
              | Raise e => Raise e
              | Ok pagination =>
                  let should_paginate :=
                    truthy (get (lit "selector") pagination)
                    || (1 <? max_pages)%Z in
                  if should_paginate then
                    match find_next_button (site (current c)) pagination with
                    | Some next_button =>
                        Ok (Continue
                              (mk_crawl results (page_num c + 1)%Z
                                        (leads_to next_button)
                                        (loaded c ++ [leads_to next_button])))
                    | None =>
                        Ok (Break (mk_crawl results (page_num c) (current c)
                                            (loaded c)))
                    end
                  else
                    Ok (Break (mk_crawl results (page_num c) (current c)
                                        (loaded c)))
              end
          end
      end
  end.

(** [while page_num <= max_pages: ...]; every turn that continues adds
    one to [page_num], so [fuel] turns are enough when [fuel] is at least
    [max_pages - page_num + 1]. *)
Fixpoint loop (fuel : nat) (config : dict) (max_pages : Z) (c : crawl)
  : res crawl :=
  match fuel with
  | O => Ok c
  | S fuel' =>
      if (page_num c <=? max_pages)%Z then
        match loop_body config max_pages c with
        | Ok (Continue c') => loop fuel' config max_pages c'
        | Ok (Break c') => Ok c'
        | Raise e => Raise e
        end
      else Ok c
  end.

(** [scrape]: the result, and the pages the browser loaded.  (The retry
    decorator, the CAPTCHA pause and the random delay are left out.) *)
Definition scrape (url : str) (config : option dict)
  : res (value * list nat) :=
  (* 1. Resolve Configuration *)
  let config : dict :=
    match config with
    | Some (kv :: rest) => kv :: rest
    | _ =>
        match get_config_for_url url with
        | Some (kv :: rest) => kv :: rest
        | _ => []
        end
    end in
  let start := goto url in
  let max_pages :=
    let pagination := get (lit "pagination") config in
    if truthy pagination then
      match as_dict pagination with
      | Ok pg =>
          if truthy (get (lit "max_pages") pg)
          then as_int (get (lit "max_pages") pg)
          else Ok 50%Z
      | Raise e => Raise e
      end
    else Ok 50%Z in
  match max_pages with
  | Raise e => Raise e
  | Ok max_pages =>
      match loop (Z.to_nat max_pages) config max_pages
                 (mk_crawl [] 1 start [start]) with
      | Ok c =>
          Ok (VDict [(lit "items", VList (all_results c));
                     (lit "total_pages", VInt (page_num c))],
              loaded c)
      | Raise e => Raise e
      end
  end.

(** [max_pages] as [scrape] settles it: 50, or the truthy [max_pages] of
    a truthy [pagination] entry. *)
Definition configured_max_pages (config : dict) : res Z :=
  let pagination := get (lit "pagination") config in
  if truthy pagination then
    match as_dict pagination with
    | Ok pg =>
        if truthy (get (lit "max_pages") pg)
        then as_int (get (lit "max_pages") pg)
        else Ok 50%Z
    | Raise e => Raise e
    end
  else Ok 50%Z.

(** The crawl after [n] turns of the loop that went on to a next page. *)
Fixpoint after_turns (n : nat) (config : dict) (max_pages : Z) (c : crawl)
  : option crawl :=
  match n with
  | O => Some c
  | S n' =>
      if (page_num c <=? max_pages)%Z then
        match loop_body config max_pages c with
        | Ok (Continue c') => after_turns n' config max_pages c'
        | _ => None
        end
      else None
  end.

End WithCollaborators.
End UniversalScraper.

(** ** Test doubles *)

(** Stand-ins for the collaborators, to run the scrapers on small sites. *)
Module Fixtures.

(** [<div class="card"><a href=HREF>TEXT</a></div>] *)
Definition card (href text : str) : node :=
  Tag (lit "div") [(lit "class", AList [lit "card"])]
      [Tag (lit "a") [(lit "href", AStr href)] [Text text]].

(** [<div class="card">TEXT</div>] *)
Definition plain (text : str) : node :=
  Tag (lit "div") [(lit "class", AList [lit "card"])] [Text text].

Definition document (body : list node) : node :=
  Tag (lit "[document]") []
      [Tag (lit "html") [] [Tag (lit "body") [] body]].

(** A listing of ten cards, whose links start with the name of the page. *)
Definition listing (name : str) : node :=
  document
    (List.map
       (fun i => card (lit "/" ++ name ++ lit "/" ++ str_of_Z (Z.of_nat i))
                      (lit "Product " ++ str_of_Z (Z.of_nat i)))
       (seq 0 10)).

(** Five elements of one class, of which exactly three yield two fields
    (a link and a title) and two yield none. *)
Definition three_of_five : list node :=
  [card (lit "/p/1") (lit "Product one");
   card (lit "/p/2") (lit "Product two");
   card (lit "/p/3") (lit "Product three");
   plain (lit "Sold out");
   plain (lit "Sold out")].

(** Lowercasing of the ASCII letters. *)
Definition ascii_lower (s : str) : str :=
  List.map (fun c => if (65 <=? c)%N && (c <=? 90)%N then (c + 32)%N else c) s.

(** Every HTML text parses to the listing named by it; selectors match
    nothing; trafilatura finds no main content. *)
Definition libraries : Libraries := {|
  BeautifulSoup := listing;
  select := fun _ _ => Ok [];
  lower := ascii_lower;
  trafilatura_extract := fun _ => Ok None;
  message := fun _ => lit "error"
|}.

Definition no_configuration : ConfigLoader := {|
  get_config_for_url := fun _ => None
|}.

(** A site of three pages, each yielding ten items; the first two carry a
    visible "Next" link to the page after them. *)
Definition three_pages : UniversalScraper.Browser := {|
  UniversalScraper.site := fun n =>
    UniversalScraper.mk_page
      (lit "page" ++ str_of_Z (Z.of_nat (S n)))
      (fun _ => Ok None)
      (fun tag kw =>
         if Nat.ltb n 2 && str_eqb tag (lit "a") && str_eqb kw (lit "next")
         then Ok [UniversalScraper.mk_element true (Some (lit "Next")) (S n)]
         else Ok []);
  UniversalScraper.goto := fun _ => O
|}.

(** An HTTP client that serves every URL, a pipeline that keeps every
    item, and a clock that reads the number of the reading. *)
Definition network : AsyncScraper.Environment unit := {|
  AsyncScraper.http_get := fun url => Ok url;
  AsyncScraper.urljoin := fun _ href => href;
  AsyncScraper.CURRENT_TIMESTAMP := fun n => str_of_Z (Z.of_nat n);
  AsyncScraper.process_item := fun item p => ((item, Ok true), p)
|}.

(** The crawl of the example: at most five items. *)
Definition five_items : dict := [(lit "max_items", VInt 5)].

(** What [_extract_data] gives on page [n] of the site. *)
Definition page_data (n : nat) : dict :=
  match @UniversalScraper._extract_data libraries
          (@UniversalScraper.site three_pages n) five_items with
  | VDict d => d
  | _ => []
  end.

Definition page_items (n : nat) : list value :=
  match get (lit "items") (page_data n) with
  | VList l => l
  | _ => []
  end.

Definition new_scraper (sm : option StateManager.t) : AsyncScraper.t unit :=
  AsyncScraper.mk [] sm [] tt [] O.

(** A selector engine that knows two selectors: [.card] (the elements of
    class [card]) and [a] (the links); it raises on a selector that is
    no string and matches nothing otherwise. *)
Definition has_class (c : str) (n : node) : bool :=
  match tag_get (lit "class") n with
  | Some (AList l) => existsb (str_eqb c) l
  | _ => false
  end.

Definition simple_select (selector : value) (element : node)
  : res (list node) :=
  match selector with
  | VStr s =>
      if str_eqb s (lit ".card") then
        Ok (filter (has_class (lit "card")) (descendants element))
      else if str_eqb s (lit "a") then Ok (find_all (lit "a") element)
      else Ok []
  | _ => Raise SelectorSyntaxError
  end.

(** Every HTML text parses to the five cards of [three_of_five]. *)
Definition selecting_libraries : Libraries := {|
  BeautifulSoup := fun _ => document three_of_five;
  select := simple_select;
  lower := ascii_lower;
  trafilatura_extract := fun _ => Ok None;
  message := fun _ => lit "error"
|}.

(** [{'container': '.card', 'selectors': {'link': 'a'}}] *)
Definition card_links : dict :=
  [(lit "container", VStr (lit ".card"));
   (lit "selectors", VDict [(lit "link", VStr (lit "a"))])].

(** [{'selectors': {'name': '.missing'}}] *)
Definition missing_name : dict :=
  [(lit "selectors", VDict [(lit "name", VStr (lit ".missing"))])].

(** A network that is down: every request raises. *)
Definition offline : AsyncScraper.Environment unit := {|
  AsyncScraper.http_get := fun _ => Raise (OtherError (lit "connection refused"));
  AsyncScraper.urljoin := fun _ href => href;
  AsyncScraper.CURRENT_TIMESTAMP := fun n => str_of_Z (Z.of_nat n);
  AsyncScraper.process_item := fun item p => ((item, Ok true), p)
|}.


(** Builtins for the pipelines: the hash of an item is its number of
    fields, and every instance conforms to every schema. *)
Definition builtins : Pipelines.Builtins := {|
  Pipelines.hash_items := fun d => Z.of_nat (List.length d);
  Pipelines.validate := fun _ _ => Ok true
|}.

(** [{'title': ' Widget ', 'link': '/p/1'}] and an item with another title
    and price but the same link. *)
Definition widget : dict :=
  [(lit "title", VStr (lit " Widget ")); (lit "link", VStr (lit "/p/1"))].

Definition gadget : dict :=
  [(lit "title", VStr (lit "Gadget")); (lit "price", VStr (lit "$3.00"));
   (lit "link", VStr (lit "/p/1"))].

(** [urlparse] on URLs of the form [https://host/path]: the text
    between the eighth character and the next slash. *)
Fixpoint upto_slash (s : str) : str :=
  match s with
  | [] => []
  | c :: s' => if (c =? 47)%N then [] else c :: upto_slash s'
  end.

Definition urllib : config_loader.UrlLib := {|
  config_loader.netloc := fun url => Ok (upto_slash (skipn 8 url))
|}.

(** [{"co": {"selectors": {"title": "h1"}}}] *)
Definition short_key : dict :=
  [(lit "co", VDict [(lit "selectors", VDict [(lit "title", VStr (lit "h1"))])])].

(** A clock for session ids that reads the number of the reading. *)
Definition session_clock : AsyncPagination.SessionClock := {|
  AsyncPagination.strftime := fun n => str_of_Z (Z.of_nat n)
|}.


(** A crawl of at most fifteen items. *)
Definition fifteen_items : dict := [(lit "max_items", VInt 15)].

(** Every HTML text parses to a page with a link "Back" and a link
    "Next". *)
Definition next_link_libraries : Libraries := {|
  BeautifulSoup := fun _ =>
    document
      [Tag (lit "a") [(lit "href", AStr (lit "/list?page=0"))]
           [Text (lit "Back")];
       Tag (lit "a") [(lit "href", AStr (lit "/list?page=2"))]
           [Text (lit "Next")]];
  select := fun _ _ => Ok [];
  lower := ascii_lower;
  trafilatura_extract := fun _ => Ok None;
  message := fun _ => lit "error"
|}.

(** [<div class="card"><h3>TITLE</h3><span>PRICE</span></div>] *)
Definition offer (title price : str) : node :=
  Tag (lit "div") [(lit "class", AList [lit "card"])]
      [Tag (lit "h3") [] [Text title]; Tag (lit "span") [] [Text price]].

(** Every HTML text parses to a listing of three offers without links. *)
Definition offer_libraries : Libraries := {|
  BeautifulSoup := fun _ =>
    document [offer (lit "One") (lit "$1.00"); offer (lit "Two") (lit "$2.00");
              offer (lit "Three") (lit "$3.00")];
  select := fun _ _ => Ok [];
  lower := ascii_lower;
  trafilatura_extract := fun _ => Ok None;
  message := fun _ => lit "error"
|}.

Definition offers : list dict :=
  [[(lit "title", VStr (lit "One")); (lit "price", VStr (lit "$1.00"))];
   [(lit "title", VStr (lit "Two")); (lit "price", VStr (lit "$2.00"))];
   [(lit "title", VStr (lit "Three")); (lit "price", VStr (lit "$3.00"))]].

End Fixtures.

(** * The model against known values *)

(** Values computed by the libraries themselves (hashlib, re, int, float),
    reproduced by the model. *)
Module ModelChecks.

Example md5_of_empty_and_abc :
  MD5.hexdigest (encode_utf8 []) = lit "d41d8cd98f00b204e9800998ecf8427e" /\
  MD5.hexdigest (encode_utf8 (lit "abc")) = lit "900150983cd24fb0d6963f7d28e17f72".
Proof. vm_compute. split; reflexivity. Qed.

(** Two blocks, and a URL with a character outside ASCII. *)
Example md5_of_long_and_euro :
  MD5.hexdigest
    (encode_utf8 (lit "12345678901234567890123456789012345678901234567890123456789012345678901234567890"))
    = lit "57edf4a22be3c955ac49da2e2107b67a" /\
  StateManager._hash_url (lit "https://x.com/a" ++ [8364%N])
    = lit "97c1f769723e140789cb3369a365af10".
Proof. vm_compute. split; reflexivity. Qed.

(** [re.sub] on patterns that match the empty string. *)
Example sub_with_empty_matches :
  Re.sub (Re.star (Re.Lit 97)) (lit "-") (lit "baac") = lit "-b--c-" /\
  Re.sub (Re.Alt Re.Empty (Re.Lit 97)) (lit "-") (lit "baac") = lit "-b-----c-" /\
  Re.sub (Re.Repeat 0 (Some 1) (Re.Lit 97)) (lit "-") (lit "baac") = lit "-b---c-".
Proof. vm_compute. repeat split. Qed.

Example search_is_leftmost_and_greedy :
  option_map (fun m => (Re.m_start m, Re.m_end m))
    (Re.search Extractor.price_pattern (lit "abc $12.345,67 x"))
    = Some (4, 10)%nat /\
  option_map (fun m => (Re.m_start m, Re.m_end m, Re.m_caps m))
    (Re.search AsyncScraper.default_pattern (lit "https://x.com/list?page=31"))
    = Some (19, 26, [(1, (24, 26))])%nat.
Proof. vm_compute. split; reflexivity. Qed.

Example int_of_strings :
  py_int (lit " +1_000 ") = Ok 1000%Z /\
  py_int (lit "-7") = Ok (-7)%Z /\
  py_int [1635%N; 1633%N] = Ok 31%Z /\
  py_int (lit "12_") = Raise ValueError /\
  py_int (lit "") = Raise ValueError /\
  py_int [31%N; 55%N] = Raise ValueError /\
  py_int [160%N; 55%N; 32%N] = Ok 7%Z.
Proof. vm_compute. repeat split. Qed.

Example strings :
  strip (lit "  a b " ++ [160%N; 10%N]) = lit "a b" /\
  sorted [lit "item"; lit "card"; lit "big"] = [lit "big"; lit "card"; lit "item"] /\
  join (lit ".") [lit "big"; lit "card"] = lit "big.card" /\
  str_of_Z 1024 = lit "1024" /\ str_of_Z 0 = lit "0".
Proof. vm_compute. repeat split. Qed.

(** [3 / 5 > 0.6] is False, [4 / 5 > 0.6] and [2 / 3 > 0.6] are True. *)
Example ratios_against_sixty_percent :
  PrimFloat.ltb f0_6 (true_div 3 5) = false /\
  PrimFloat.ltb f0_6 (true_div 4 5) = true /\
  PrimFloat.ltb f0_6 (true_div 2 3) = true.
Proof. vm_compute. repeat split. Qed.
End ModelChecks.

(** * Properties of the visit/session store *)

Module StateManagerFacts.
Import StateManager.
#[local] Arguments _hash_url : simpl never.

Lemma str_eqb_eq (a b : str) : str_eqb a b = true <-> a = b.
Proof.
  unfold str_eqb. destruct (str_eq_dec a b); split; congruence.
Qed.

Lemma str_eqb_refl (a : str) : str_eqb a a = true.
Proof. now apply str_eqb_eq. Qed.

Lemma str_eqb_neq (a b : str) : str_eqb a b = false <-> a <> b.
Proof.
  unfold str_eqb. destruct (str_eq_dec a b); split; congruence.
Qed.

(** [mark_visited] never raises: it inserts a row for a new key and
    updates the rows of a known one. *)
Lemma mark_visited_eq now url sid status sm :
  mark_visited now url sid status sm =
  (Ok tt,
   mk (if known url (db sm)
       then mk_database
              (List.map (update_visited_row now status (_hash_url url))
                        (visited_urls (db sm)))
              (sessions (db sm)) (scraped_items (db sm))
              (scraped_items_seq (db sm))
       else mk_database
              (visited_urls (db sm) ++
               [mk_visited_url (_hash_url url) url (oor sid (session_id sm))
                               now status])
              (sessions (db sm)) (scraped_items (db sm))
              (scraped_items_seq (db sm)))
      (session_id sm)).
Proof.
  unfold mark_visited, bind, get_state, try_except, execute,
    insert_visited_urls, update_visited_urls, known.
  cbn [vu_url_hash].
  destruct (existsb _ (visited_urls (db sm))); reflexivity.
Qed.

Lemma end_session_eq now sid sm :
  end_session now sid sm =
  (Ok tt,
   match oor sid (session_id sm) with
   | Some (c :: s) =>
       mk (mk_database (visited_urls (db sm))
             (List.map (complete_session_row now (c :: s)) (sessions (db sm)))
             (scraped_items (db sm)) (scraped_items_seq (db sm)))
          (session_id sm)
   | _ => sm
   end).
Proof.
  unfold end_session, bind, get_state.
  destruct (oor sid (session_id sm)) as [[|c s]|]; reflexivity.
Qed.

Lemma update_row_hash now st h q :
  vu_url_hash (update_visited_row now st h q) = vu_url_hash q.
Proof. unfold update_visited_row. now destruct (str_eqb _ _). Qed.

Lemma map_update_hashes now st h l :
  List.map vu_url_hash (List.map (update_visited_row now st h) l) =
  List.map vu_url_hash l.
Proof.
  rewrite map_map. apply map_ext. intro q. apply update_row_hash.
Qed.

Lemma known_false_not_in url d :
  known url d = false ->
  ~ In (_hash_url url) (List.map vu_url_hash (visited_urls d)).
Proof.
  unfold known. intros E HIn. apply in_map_iff in HIn as (q & Hq & Hin).
  assert (existsb (fun q => str_eqb (vu_url_hash q) (_hash_url url))
                  (visited_urls d) = true) as T.
  { apply existsb_exists. exists q. split; [exact Hin|]. now apply str_eqb_eq. }
  congruence.
Qed.

Lemma known_true_in url d :
  known url d = true ->
  exists q, In q (visited_urls d) /\ vu_url_hash q = _hash_url url.
Proof.
  unfold known. intro E. apply existsb_exists in E as (q & Hin & Hq).
  exists q. split; [exact Hin|]. now apply str_eqb_eq.
Qed.

(** ** The primary key is an invariant *)

Lemma mark_visited_pk now url sid status sm :
  visited_pk (db sm) ->
  visited_pk (db (snd (mark_visited now url sid status sm))).
Proof.
  intro PK. rewrite mark_visited_eq. cbn [snd db].
  destruct (known url (db sm)) eqn:E; unfold visited_pk; cbn [visited_urls].
  - now rewrite map_update_hashes.
  - rewrite map_app. cbn [List.map vu_url_hash].
    apply NoDup_app; [exact PK | constructor; [intros []|constructor] |].
    intros a Ha [<-|[]]. revert Ha. now apply known_false_not_in.
Qed.

Lemma run_call_pk c sm :
  visited_pk (db sm) -> visited_pk (db (run_call c sm)).
Proof.
  intro PK. destruct c as [stamp now u m|now sid|now u sid st|now u d sid|];
    cbn [run_call].
  - unfold start_session, bind, modify, execute, insert_sessions, ret.
    cbn [db session_id]. destruct (existsb _ _); exact PK.
  - rewrite end_session_eq. cbn [snd].
    destruct (oor sid (session_id sm)) as [[|c s]|]; exact PK.
  - now apply mark_visited_pk.
  - unfold save_item, bind, get_state, execute, insert_scraped_items.
    exact PK.
  - exact PK.
Qed.

Lemma run_calls_pk cs sm :
  visited_pk (db sm) -> visited_pk (db (run_calls cs sm)).
Proof.
  revert sm. induction cs as [|c cs IH]; intros sm PK; cbn.
  - exact PK.
  - apply IH. now apply run_call_pk.
Qed.

(** Every store reached from a new database file keeps the key. *)
Lemma reachable_pk cs : visited_pk (db (run_calls cs (__init__ None))).
Proof. apply run_calls_pk. constructor. Qed.

Lemma visits_of_absent h l :
  ~ In h (List.map vu_url_hash l) ->
  filter (fun q => str_eqb (vu_url_hash q) h) l = [].
Proof.
  induction l as [|q l IH]; intro Hnin; cbn; [reflexivity|].
  destruct (str_eqb (vu_url_hash q) h) eqn:E.
  - apply str_eqb_eq in E. exfalso. apply Hnin. now left.
  - apply IH. intro Hin. apply Hnin. now right.
Qed.

(** Under the key, the rows answering a hash are the one row that has it. *)
Lemma pk_visits_single h l q :
  NoDup (List.map vu_url_hash l) ->
  In q l -> vu_url_hash q = h ->
  filter (fun q => str_eqb (vu_url_hash q) h) l = [q].
Proof.
  induction l as [|p l IH]; intros ND Hin Hq; [destruct Hin|].
  inversion ND as [|x xs Hnin ND']; subst. cbn.
  destruct Hin as [->|Hin].
  - rewrite str_eqb_refl. f_equal. now apply visits_of_absent.
  - destruct (str_eqb (vu_url_hash p) (vu_url_hash q)) eqn:E.
    + apply str_eqb_eq in E. exfalso. apply Hnin. rewrite E.
      now apply in_map.
    + now apply IH.
Qed.

Lemma pk_visits_le1 h l :
  NoDup (List.map vu_url_hash l) ->
  (List.length (filter (fun q => str_eqb (vu_url_hash q) h) l) <= 1)%nat.
Proof.
  intro ND.
  destruct (in_dec str_eq_dec h (List.map vu_url_hash l)) as [Hin|Hnin].
  - apply in_map_iff in Hin as (q & Hq & Hin).
    rewrite (pk_visits_single _ _ _ ND Hin Hq). cbn. lia.
  - rewrite (visits_of_absent _ _ Hnin). cbn. lia.
Qed.

Lemma filter_map_update now st h h' l :
  filter (fun q => str_eqb (vu_url_hash q) h')
         (List.map (update_visited_row now st h) l) =
  List.map (update_visited_row now st h)
           (filter (fun q => str_eqb (vu_url_hash q) h') l).
Proof.
  induction l as [|q l IH]; cbn; [reflexivity|].
  rewrite update_row_hash, IH.
  now destruct (str_eqb (vu_url_hash q) h').
Qed.

(** The row of a URL after [mark_visited]: one row, carrying the status
    and the timestamp of the call; its url and session are those of the
    row found, or of the call when none was there. *)
Lemma visits_after_mark now url sid st sm :
  visited_pk (db sm) ->
  exists r,
    visits_of (_hash_url url) (db (snd (mark_visited now url sid st sm))) = [r]
    /\ vu_url_hash r = _hash_url url
    /\ vu_status r = st /\ vu_visited_at r = now
    /\ (visits_of (_hash_url url) (db sm) = [] ->
        vu_url r = url /\ vu_session_id r = oor sid (session_id sm))
    /\ (forall q, In q (visited_urls (db sm)) ->
                  vu_url_hash q = _hash_url url ->
                  vu_url r = vu_url q /\ vu_session_id r = vu_session_id q).
Proof.
  intro PK. rewrite mark_visited_eq. cbn [snd db]. unfold visits_of.
  destruct (known url (db sm)) eqn:E; cbn [visited_urls].
  - destruct (known_true_in _ _ E) as (q & Hin & Hq).
    rewrite filter_map_update, (pk_visits_single _ _ _ PK Hin Hq). cbn [List.map].
    unfold update_visited_row. rewrite Hq, str_eqb_refl.
    eexists. split; [reflexivity|]. cbn.
    assert (forall p, In p (visited_urls (db sm)) ->
                      vu_url_hash p = _hash_url url -> p = q) as U.
    { intros p Hp Hpq.
      pose proof (pk_visits_single _ _ _ PK Hp Hpq) as P1.
      rewrite (pk_visits_single _ _ _ PK Hin Hq) in P1. congruence. }
    split; [reflexivity|]. split; [reflexivity|]. split; [reflexivity|].
    split.
    + intro F. discriminate F.
    + intros p Hp Hpq. rewrite (U p Hp Hpq). split; reflexivity.
  - pose proof (known_false_not_in _ _ E) as Hnin.
    rewrite filter_app, (visits_of_absent _ _ Hnin). cbn.
    rewrite str_eqb_refl. eexists. split; [reflexivity|]. cbn.
    split; [reflexivity|]. split; [reflexivity|]. split; [reflexivity|].
    split.
    + intros _. split; reflexivity.
    + intros p Hp Hpq. exfalso. apply Hnin. apply in_map_iff. now exists p.
Qed.

Lemma update_rows_frame now st h l :
  Forall2 (visit_frame now st h) l (List.map (update_visited_row now st h) l).
Proof.
  induction l as [|q l IH]; cbn; constructor; [|exact IH].
  unfold visit_frame, update_visited_row.
  destruct (str_eqb (vu_url_hash q) h) eqn:E; cbn.
  - repeat split; try reflexivity.
    intro N. apply str_eqb_eq in E. contradiction.
  - apply str_eqb_neq in E. repeat split; try reflexivity; contradiction.
Qed.

Lemma complete_rows_frame now sid l :
  Forall2 (session_frame now sid) l
          (List.map (complete_session_row now sid) l).
Proof.
  induction l as [|q l IH]; cbn; constructor; [|exact IH].
  unfold session_frame, complete_session_row.
  destruct (str_eqb (se_session_id q) sid) eqn:E; cbn.
  - repeat split; try reflexivity.
    intro N. apply str_eqb_eq in E. contradiction.
  - apply str_eqb_neq in E. repeat split; try reflexivity; contradiction.
Qed.

Lemma complete_row_twice t1 t2 sid q :
  complete_session_row t2 sid (complete_session_row t1 sid q) =
  complete_session_row t2 sid q.
Proof.
  unfold complete_session_row.
  destruct (str_eqb (se_session_id q) sid) eqn:E; cbn; rewrite E; reflexivity.
Qed.
End StateManagerFacts.

Module StateManagerClaims.
Import StateManager StateManagerFacts.
#[local] Arguments _hash_url : simpl never.

(** ** Marking a URL twice *)

(** C6. [mark_visited] called twice for the same url and session, with
    statuses [s1] then [s2], raises neither time and leaves exactly one
    visit record for the url; that record has status [s2] and the
    timestamp of the second call. *)
Theorem mark_visited_twice_one_record :
  forall (sm : t) (url : str) (sid : option str) (s1 s2 t1 t2 : str),
    visited_pk (db sm) ->
    exists sm1 sm2 r,
      mark_visited t1 url sid s1 sm = (Ok tt, sm1) /\
      mark_visited t2 url sid s2 sm1 = (Ok tt, sm2) /\
      visits_of (_hash_url url) (db sm2) = [r] /\
      vu_status r = s2 /\ vu_visited_at r = t2.
Proof.
  intros sm url sid s1 s2 t1 t2 PK.
  pose proof (mark_visited_pk t1 url sid s1 sm PK) as PK1.
  destruct (visits_after_mark t2 url sid s2 _ PK1)
    as (r & Hr & _ & Hst & Hat & _).
  exists (snd (mark_visited t1 url sid s1 sm)),
         (snd (mark_visited t2 url sid s2
                 (snd (mark_visited t1 url sid s1 sm)))), r.
  repeat split; try assumption.
  - now rewrite mark_visited_eq.
  - now rewrite (mark_visited_eq t2).
Qed.

Lemma mark_visited_twice_one_record_witness :
  visited_pk (db (__init__ None)) /\
  exists sm1 sm2 r,
    mark_visited (lit "2024-05-01 10:00:00") (lit "https://x.com/a")
                 (Some (lit "session_20240501_100000")) (lit "failed")
                 (__init__ None) = (Ok tt, sm1) /\
    mark_visited (lit "2024-05-01 10:00:07") (lit "https://x.com/a")
                 (Some (lit "session_20240501_100000")) (lit "success")
                 sm1 = (Ok tt, sm2) /\
    visits_of (_hash_url (lit "https://x.com/a")) (db sm2) = [r] /\
    vu_status r = lit "success" /\
    vu_visited_at r = lit "2024-05-01 10:00:07".
Proof.
  split.
  - constructor.
  - apply (mark_visited_twice_one_record (__init__ None)). constructor.
Defined.

(** C10. When a record for the url hash already exists, [mark_visited]
    takes the update branch and changes only the status and visited_at
    columns of that record: the url_hash, url and session_id of every row
    stay as they were (whatever session the re-visit is issued under),
    rows of other hashes are untouched, and so are the other tables and
    the current session. *)
Theorem mark_visited_update_frame :
  forall (sm : t) (now url : str) (sid : option str) (status : str)
         (r : visited_url),
    In r (visited_urls (db sm)) ->
    vu_url_hash r = _hash_url url ->
    exists sm',
      mark_visited now url sid status sm = (Ok tt, sm') /\
      Forall2 (visit_frame now status (_hash_url url))
              (visited_urls (db sm)) (visited_urls (db sm')) /\
      sessions (db sm') = sessions (db sm) /\
      scraped_items (db sm') = scraped_items (db sm) /\
      scraped_items_seq (db sm') = scraped_items_seq (db sm) /\
      session_id sm' = session_id sm.
Proof.
  intros sm now url sid status r Hin Hr.
  rewrite mark_visited_eq.
  assert (known url (db sm) = true) as ->.
  { unfold known. apply existsb_exists. exists r.
    split; [exact Hin | now apply str_eqb_eq]. }
  eexists. split; [reflexivity|]. cbn [db visited_urls sessions
    scraped_items scraped_items_seq session_id].
  repeat split. apply update_rows_frame.
Qed.

Lemma mark_visited_update_frame_witness :
  let u := lit "https://x.com/a" in
  let s1 := lit "session_20240501_100000" in
  let s2 := lit "session_20240502_090000" in
  let t1 := lit "2024-05-01 10:00:00" in
  let t2 := lit "2024-05-02 09:00:00" in
  let sm := snd (mark_visited t1 u (Some s1) (lit "success") (__init__ None)) in
  let r := mk_visited_url (_hash_url u) u (Some s1) t1 (lit "success") in
  In r (visited_urls (db sm)) /\
  vu_url_hash r = _hash_url u /\
  exists sm',
    mark_visited t2 u (Some s2) (lit "failed") sm = (Ok tt, sm') /\
    Forall2 (visit_frame t2 (lit "failed") (_hash_url u))
            (visited_urls (db sm)) (visited_urls (db sm')) /\
    sessions (db sm') = sessions (db sm) /\
    scraped_items (db sm') = scraped_items (db sm) /\
    scraped_items_seq (db sm') = scraped_items_seq (db sm) /\
    session_id sm' = session_id sm.
Proof.
  intros u s1 s2 t1 t2 sm r.
  assert (In r (visited_urls (db sm))) as Hin
    by (vm_compute; left; reflexivity).
  assert (vu_url_hash r = _hash_url u) as Hh by (vm_compute; reflexivity).
  split; [exact Hin|]. split; [exact Hh|].
  exact (mark_visited_update_frame sm t2 u (Some s2) (lit "failed") r Hin Hh).
Defined.

(** ** Uniqueness of visit records *)

(** C1, as stated, fails: after [mark_visited(u, s1)] and then
    [mark_visited(u, s2)] with two distinct sessions on a new store there
    is no visit record for [u] in session [s2]; the session-scoped
    [is_visited(u, s2)] answers False. *)
Lemma visit_per_session_counterexample :
  let u := lit "https://x.com/a" in
  let s1 := lit "session_20240501_100000" in
  let s2 := lit "session_20240502_090000" in
  let sm := run_calls
              [MarkVisited (lit "2024-05-01 10:00:00") u (Some s1) (lit "success");
               MarkVisited (lit "2024-05-02 09:00:00") u (Some s2) (lit "success")]
              (__init__ None) in
  s1 <> s2 /\
  ~ (has_visit u s1 (db sm) /\ has_visit u s2 (db sm)) /\
  is_visited u (Some s2) sm = false.
Proof.
  intros u s1 s2 sm. split; [discriminate|].
  split; [|vm_compute; reflexivity].
  intros [_ (r & Hin & _ & Hs)].
  vm_compute in Hin. destruct Hin as [<-|[]].
  vm_compute in Hs. discriminate Hs.
Qed.

(** C1, amended. Uniqueness of visit records is scoped to the url hash
    alone.  For a URL [u] with no record yet, [mark_visited(u, s1)]
    followed by [mark_visited(u, s2)] (any two sessions) leaves exactly
    one record for [u]: it stays in the session of the first call and
    carries the status and timestamp of the second.  The primary key is
    kept, so within every single session there is at most one record per
    url hash. *)
Theorem visit_unique_per_url_hash :
  forall (sm : t) (u : str) (s1 s2 : option str) (st1 st2 t1 t2 : str),
    visited_pk (db sm) ->
    visits_of (_hash_url u) (db sm) = [] ->
    exists sm1 sm2,
      mark_visited t1 u s1 st1 sm = (Ok tt, sm1) /\
      mark_visited t2 u s2 st2 sm1 = (Ok tt, sm2) /\
      visits_of (_hash_url u) (db sm2) =
        [mk_visited_url (_hash_url u) u (oor s1 (session_id sm)) t2 st2] /\
      visited_pk (db sm2) /\
      forall h s, (List.length (visits_in_session h s (db sm2)) <= 1)%nat.
Proof.
  intros sm u s1 s2 st1 st2 t1 t2 PK Hnew.
  pose proof (mark_visited_pk t1 u s1 st1 sm PK) as PK1.
  pose proof (mark_visited_pk t2 u s2 st2 _ PK1) as PK2.
  destruct (visits_after_mark t1 u s1 st1 sm PK)
    as (r1 & Hr1 & Hh1 & _ & _ & Hfresh & _).
  destruct (Hfresh Hnew) as [Hu1 Hs1].
  destruct (visits_after_mark t2 u s2 st2 _ PK1)
    as (r2 & Hr2 & Hh2 & Hst2 & Hat2 & _ & Hkeep).
  assert (In r1 (visited_urls (db (snd (mark_visited t1 u s1 st1 sm))))) as Hin1.
  { assert (In r1 [r1]) as I by now left.
    rewrite <- Hr1 in I. unfold visits_of in I.
    now apply filter_In in I. }
  destruct (Hkeep r1 Hin1 Hh1) as [Hu2 Hs2].
  exists (snd (mark_visited t1 u s1 st1 sm)),
         (snd (mark_visited t2 u s2 st2 (snd (mark_visited t1 u s1 st1 sm)))).
  split; [now rewrite mark_visited_eq|].
  split; [now rewrite (mark_visited_eq t2)|].
  split.
  - rewrite Hr2. f_equal. destruct r2; cbn in *. congruence.
  - split; [exact PK2|]. intros h s. unfold visits_in_session.
    eapply Nat.le_trans; [|apply (pk_visits_le1 h _ PK2)].
    clear. induction (visited_urls _) as [|q l IH]; cbn; [lia|].
    destruct (str_eqb (vu_url_hash q) h); cbn; [|exact IH].
    destruct (col_eq (vu_session_id q) s); cbn; lia.
Qed.

Lemma visit_unique_per_url_hash_witness :
  let u := lit "https://x.com/a" in
  let s1 := Some (lit "session_20240501_100000") in
  let s2 := Some (lit "session_20240502_090000") in
  let t1 := lit "2024-05-01 10:00:00" in
  let t2 := lit "2024-05-02 09:00:00" in
  let sm := __init__ None in
  visited_pk (db sm) /\
  visits_of (_hash_url u) (db sm) = [] /\
  exists sm1 sm2,
    mark_visited t1 u s1 (lit "success") sm = (Ok tt, sm1) /\
    mark_visited t2 u s2 (lit "failed") sm1 = (Ok tt, sm2) /\
    visits_of (_hash_url u) (db sm2) =
      [mk_visited_url (_hash_url u) u (oor s1 (session_id sm)) t2 (lit "failed")] /\
    visited_pk (db sm2) /\
    forall h s, (List.length (visits_in_session h s (db sm2)) <= 1)%nat.
Proof.
  intros u s1 s2 t1 t2 sm.
  assert (visits_of (_hash_url u) (db sm) = []) as Hnew
    by (vm_compute; reflexivity).
  split; [constructor|]. split; [exact Hnew|].
  exact (visit_unique_per_url_hash sm u s1 s2 (lit "success") (lit "failed")
           t1 t2 (NoDup_nil _) Hnew).
Defined.

(** ** Ending a session twice *)

(** C2, as stated, fails: a second [end_session] overwrites the
    completed_at written by the first. *)
Lemma end_session_twice_counterexample :
  let t1 := lit "2024-05-01 10:05:00" in
  let t2 := lit "2024-05-01 10:05:09" in
  let sid := lit "session_20240501_100000" in
  let sm0 := run_calls
               [StartSession (lit "20240501_100000") (lit "2024-05-01 10:00:00")
                             (lit "https://x.com/list") None]
               (__init__ None) in
  let sm1 := snd (end_session t1 None sm0) in
  let sm2 := snd (end_session t2 None sm1) in
  List.map se_completed_at (sessions_of sid (db sm1)) = [Some t1] /\
  List.map se_completed_at (sessions_of sid (db sm2)) = [Some t2] /\
  Some t1 <> Some t2 /\
  sm2 <> sm1.
Proof.
  intros t1 t2 sid sm0 sm1 sm2.
  split; [vm_compute; reflexivity|]. split; [vm_compute; reflexivity|].
  split; [discriminate|].
  intro E. assert (sessions (db sm2) = sessions (db sm1)) as E' by now rewrite E.
  vm_compute in E'. discriminate E'.
Qed.

(** C2, amended. A second [end_session] on an ended session does not
    raise; it leaves every column of every session row as it was except
    completed_at (and the status, which stays 'completed') of the rows of
    that session, whose completed_at becomes the timestamp of the second
    call.  The store ends as if only the second call had been made, and
    the second call changes nothing when both calls read the same
    timestamp. *)
Theorem end_session_twice_overwrites :
  forall (sm : t) (sid : option str) (t1 t2 : str),
    exists sm1 sm2,
      end_session t1 sid sm = (Ok tt, sm1) /\
      end_session t2 sid sm1 = (Ok tt, sm2) /\
      sm2 = snd (end_session t2 sid sm) /\
      visited_urls (db sm2) = visited_urls (db sm1) /\
      scraped_items (db sm2) = scraped_items (db sm1) /\
      session_id sm2 = session_id sm1 /\
      (forall c s, oor sid (session_id sm) = Some (c :: s) ->
         Forall2 (session_frame t2 (c :: s))
                 (sessions (db sm1)) (sessions (db sm2))) /\
      (otruthy (oor sid (session_id sm)) = false -> sm2 = sm1) /\
      (t1 = t2 -> sm2 = sm1).
Proof.
  intros sm sid t1 t2.
  exists (snd (end_session t1 sid sm)),
         (snd (end_session t2 sid (snd (end_session t1 sid sm)))).
  rewrite !end_session_eq. cbn [snd].
  assert (session_id
            match oor sid (session_id sm) with
            | Some (c :: s) =>
                mk (mk_database (visited_urls (db sm))
                      (List.map (complete_session_row t1 (c :: s))
                                (sessions (db sm)))
                      (scraped_items (db sm)) (scraped_items_seq (db sm)))
                   (session_id sm)
            | _ => sm
            end = session_id sm) as Hsid.
  { destruct (oor sid (session_id sm)) as [[|c s]|]; reflexivity. }
  rewrite Hsid.
  destruct (oor sid (session_id sm)) as [[|c s]|] eqn:E;
    cbn [db visited_urls sessions scraped_items scraped_items_seq session_id].
  - repeat split; try reflexivity. intros c s [=].
  - pose proof (complete_rows_frame t2 (c :: s)
                  (List.map (complete_session_row t1 (c :: s)) (sessions (db sm))))
      as Fr.
    rewrite map_map in *.
    rewrite (map_ext _ _ (complete_row_twice t1 t2 (c :: s))) in *.
    repeat split; try reflexivity.
    + intros c' s' [= <- <-]. exact Fr.
    + intros [=].
    + intros ->. reflexivity.
  - repeat split; try reflexivity. intros c s [=].
Qed.
End StateManagerClaims.

(** * Properties of the scrapers *)

Module AsyncScraperFacts.
Import StateManager StateManagerFacts AsyncScraper.
#[local] Arguments _hash_url : simpl never.

(** Without a session, [is_visited] asks whether the key is known. *)
Lemma is_visited_global url sm :
  is_visited url None sm = known url (db sm).
Proof.
  unfold is_visited, known.
  induction (visited_urls (db sm)) as [|q l IH]; [reflexivity|].
  cbn [filter existsb]. now destruct (str_eqb (vu_url_hash q) (_hash_url url)).
Qed.

Lemma known_after_mark now url sid st sm :
  known url (db (snd (mark_visited now url sid st sm))) = true.
Proof.
  rewrite mark_visited_eq. cbn [snd db]. unfold known at 1.
  destruct (known url (db sm)) eqn:E; cbn [visited_urls].
  - apply known_true_in in E as (q & Hin & Hq).
    apply existsb_exists. exists (update_visited_row now st (_hash_url url) q).
    split; [now apply in_map|]. rewrite update_row_hash. now apply str_eqb_eq.
  - rewrite existsb_app. cbn. rewrite str_eqb_refl. apply orb_true_r.
Qed.

(** No call of a crawl forgets a key. *)
Lemma known_run_call url c sm :
  known url (db sm) = true -> known url (db (run_call c sm)) = true.
Proof.
  intro K. destruct c as [stamp now u m|now sid|now u sid st|now u d sid|];
    cbn [run_call].
  - unfold start_session, bind, modify, execute, insert_sessions, ret.
    cbn [db session_id]. destruct (existsb _ _); exact K.
  - rewrite end_session_eq. cbn [snd].
    destruct (oor sid (session_id sm)) as [[|c s]|]; exact K.
  - rewrite mark_visited_eq. cbn [snd db]. unfold known at 1.
    destruct (known u (db sm)); cbn [visited_urls].
    + apply known_true_in in K as (q & Hin & Hq).
      apply existsb_exists. exists (update_visited_row now st (_hash_url u) q).
      split; [now apply in_map|]. rewrite update_row_hash. now apply str_eqb_eq.
    + rewrite existsb_app. unfold known in K. rewrite K. reflexivity.
  - unfold save_item, bind, get_state, execute, insert_scraped_items. exact K.
  - exact K.
Qed.

Lemma known_run_calls url cs sm :
  known url (db sm) = true -> known url (db (run_calls cs sm)) = true.
Proof.
  revert sm. induction cs as [|c cs IH]; intros sm K; cbn; [exact K|].
  apply IH. now apply known_run_call.
Qed.

Section Resolution.
Context {loader : ConfigLoader} {Pipeline : Type}.

(** Settling the configuration leaves the scraper as it is. *)
Lemma resolve_configuration_state url selectors (self : t Pipeline) :
  snd (resolve_configuration url selectors self) = self.
Proof.
  unfold resolve_configuration, bind, get_state, ret, lift.
  destruct (if truthy selectors then _ else _) as [sel container].
  destruct (truthy sel); [reflexivity|].
  destruct (get_config_for_url url) as [[|kv loaded]|]; try reflexivity.
  destruct (py_len _); reflexivity.
Qed.
End Resolution.
End AsyncScraperFacts.

Module UniversalScraperFacts.
Import UniversalScraper.

Section Loop.
Context {libs : Libraries} {browser : Browser}.

#[local] Abbreviation body := loop_body.
#[local] Abbreviation run := loop.

(** A turn that continues adds one to the page number. *)
Lemma loop_body_continue config max_pages c c' :
  body config max_pages c = Ok (Continue c') ->
  page_num c' = (page_num c + 1)%Z.
Proof.
  unfold loop_body.
  destruct (as_dict _) as [pd|]; [|discriminate].
  destruct (accumulate _ _) as [results|]; [|discriminate].
  destruct (truthy (get (lit "max_items") config)).
  - destruct (as_int _) as [m|]; [|discriminate].
    destruct (m <=? _)%Z; [discriminate|].
    destruct (as_dict _) as [pg|]; [|discriminate].
    destruct (_ || _); [|discriminate].
    destruct (find_next_button _ _); [|discriminate].
    intros [= <-]. reflexivity.
  - destruct (as_dict _) as [pg|]; [|discriminate].
    destruct (_ || _); [|discriminate].
    destruct (find_next_button _ _); [|discriminate].
    intros [= <-]. reflexivity.
Qed.

(** The fuel [scrape] gives the loop is enough: more fuel changes
    nothing once it covers the pages left. *)
Lemma loop_fuel_enough fuel config max_pages c :
  (max_pages - page_num c + 1 <= Z.of_nat fuel)%Z ->
  run (S fuel) config max_pages c = run fuel config max_pages c.
Proof.
  revert c. induction fuel as [|fuel IH]; intros c Hf.
  - cbn [loop]. destruct (page_num c <=? max_pages)%Z eqn:E; [|reflexivity].
    apply Z.leb_le in E. lia.
  - change (run (S (S fuel)) config max_pages c)
      with (if (page_num c <=? max_pages)%Z
            then match body config max_pages c with
                 | Ok (Continue c') => run (S fuel) config max_pages c'
                 | Ok (Break c') => Ok c'
                 | Raise e => Raise e
                 end
            else Ok c).
    change (run (S fuel) config max_pages c)
      with (if (page_num c <=? max_pages)%Z
            then match body config max_pages c with
                 | Ok (Continue c') => run fuel config max_pages c'
                 | Ok (Break c') => Ok c'
                 | Raise e => Raise e
                 end
            else Ok c).
    destruct (page_num c <=? max_pages)%Z; [|reflexivity].
    destruct (body config max_pages c) as [[c'|c']|e] eqn:B; try reflexivity.
    apply IH. apply loop_body_continue in B. lia.
Qed.

(** With a positive [max_items], the crawl never returns more items than
    the limit, however it ends. *)
Lemma loop_within_max_items fuel config max_pages m :
  get (lit "max_items") config = VInt m -> (0 < m)%Z ->
  forall c c',
    (Z.of_nat (List.length (all_results c)) < m)%Z ->
    run fuel config max_pages c = Ok c' ->
    (Z.of_nat (List.length (all_results c')) <= m)%Z.
Proof.
  intros Hm Hpos. induction fuel as [|fuel IH]; intros c c' Hc H.
  - cbn [loop] in H. injection H as <-. lia.
  - cbn [loop] in H. destruct (page_num c <=? max_pages)%Z.
    2:{ injection H as <-. lia. }
    unfold loop_body in H.
    destruct (as_dict _) as [pd|]; [|discriminate].
    destruct (accumulate _ _) as [results|]; [|discriminate].
    rewrite Hm in H.
    assert (truthy (VInt m) = true) as T
      by (cbn; apply negb_true_iff, Z.eqb_neq; lia).
    rewrite T in H. cbn [as_int] in H.
    destruct (m <=? Z.of_nat (List.length results))%Z eqn:E.
    + injection H as <-. cbn [all_results]. unfold slice_to.
      assert ((0 <=? m)%Z = true) as -> by (apply Z.leb_le; lia).
      rewrite length_firstn. lia.
    + apply Z.leb_gt in E.
      destruct (as_dict _) as [pg|]; [|discriminate].
      destruct (_ || _).
      * destruct (find_next_button _ _).
        -- apply IH in H; [exact H|]. cbn [all_results]. exact E.
        -- injection H as <-. cbn [all_results]. lia.
      * injection H as <-. cbn [all_results]. lia.
Qed.
(** A turn of the loop either stops on the page it is on, or loads one
    page and adds one to the page number. *)
Lemma loop_body_pages config max_pages c :
  match loop_body config max_pages c with
  | Ok (Continue c') =>
      page_num c' = (page_num c + 1)%Z /\
      exists n, loaded c' = loaded c ++ [n] /\ current c' = n
  | Ok (Break c') => page_num c' = page_num c /\ loaded c' = loaded c
  | Raise _ => True
  end.
Proof.
  unfold loop_body.
  destruct (as_dict _) as [pd|]; [|exact I].
  destruct (accumulate _ _) as [results|]; [|exact I].
  assert (match
            match as_dict (get_default (lit "pagination") (VDict []) config) with
            | Ok pagination =>
                if truthy (get (lit "selector") pagination) || (1 <? max_pages)%Z
                then
                  match find_next_button (site (current c)) pagination with
                  | Some next_button =>
                      Ok (Continue
                            (mk_crawl results (page_num c + 1)
                               (leads_to next_button)
                               (loaded c ++ [leads_to next_button])))
                  | None =>
                      Ok (Break (mk_crawl results (page_num c) (current c)
                                          (loaded c)))
                  end
                else Ok (Break (mk_crawl results (page_num c) (current c)
                                         (loaded c)))
            | Raise e => Raise e
            end
          with
          | Ok (Continue c') =>
              page_num c' = (page_num c + 1)%Z /\
              exists n, loaded c' = loaded c ++ [n] /\ current c' = n
          | Ok (Break c') => page_num c' = page_num c /\ loaded c' = loaded c
          | Raise _ => True
          end) as Pagination.
  { destruct (as_dict _) as [pg|]; [|exact I].
    destruct (_ || _); [|now split].
    destruct (find_next_button _ _) as [b|]; [|now split].
    split; [reflexivity|]. now exists (leads_to b). }
  destruct (truthy (get (lit "max_items") config)); [|exact Pagination].
  destruct (as_int _) as [m|]; [|exact I].
  destruct (m <=? _)%Z; [now split | exact Pagination].
Qed.
End Loop.
End UniversalScraperFacts.

Module ScraperClaims.
Import StateManager StateManagerFacts.

(** ** The visited check of the async scraper *)

(** C9. [scrape] asks [is_visited(url)] without a session, so the check is
    global: once a URL has been marked visited in any session (with any
    status), then after any further history of the store (sessions
    started and ended, other URLs marked, items saved, the process
    restarted on the same database) a scraper with that store returns the
    record with status 'skipped' and reason 'already_visited' for it and
    stays as it was: no request is issued and nothing is written.  The
    history holds the calls the scrapers make; the maintenance calls
    [clear_session] and [clear_all], which delete visit records, are not
    among them.  The hypothesis on [resolve_configuration] says that
    settling the selectors, which precedes the check, does not raise. *)
Theorem visited_url_skipped_across_sessions :
  forall (libs : Libraries) (loader : ConfigLoader) (Pipeline : Type)
         (env : AsyncScraper.Environment Pipeline)
         (self : AsyncScraper.t Pipeline) (sm : StateManager.t)
         (url : str) (sid : option str) (status now : str)
         (history : list call) (selectors : value) (sc : value * value),
    AsyncScraper.state_manager self =
      Some (run_calls history (snd (mark_visited now url sid status sm))) ->
    fst (AsyncScraper.resolve_configuration url selectors self) = Ok sc ->
    AsyncScraper.scrape url selectors self = (Ok (AsyncScraper.skipped url), self).
Proof.
  intros libs loader Pipeline env self sm url sid status now history
         selectors sc Hsm Hres.
  unfold AsyncScraper.scrape, bind.
  pose proof (AsyncScraperFacts.resolve_configuration_state url selectors self)
    as Hst.
  destruct (AsyncScraper.resolve_configuration url selectors self) as [r s'].
  cbn [fst snd] in Hres, Hst. subst r s'.
  destruct sc as [sel container]. unfold get_state at 1.
  rewrite Hsm, AsyncScraperFacts.is_visited_global.
  rewrite AsyncScraperFacts.known_run_calls
    by apply AsyncScraperFacts.known_after_mark.
  reflexivity.
Qed.

Lemma visited_url_skipped_across_sessions_witness :
  let url := lit "https://x.com/list?page=2" in
  let history :=
    [EndSession (lit "2024-05-01 10:09:00") None;
     Restart;
     StartSession (lit "20240502_090000") (lit "2024-05-02 09:00:00")
                  (lit "https://x.com/list") None] in
  let sm :=
    run_calls
      [StartSession (lit "20240501_100000") (lit "2024-05-01 10:00:00")
                    (lit "https://x.com/list") None]
      (__init__ None) in
  let store :=
    run_calls history
      (snd (mark_visited (lit "2024-05-01 10:00:03") url None (lit "failed") sm)) in
  let self := Fixtures.new_scraper (Some store) in
  AsyncScraper.state_manager self = Some store /\
  fst (@AsyncScraper.resolve_configuration Fixtures.no_configuration unit
         url VNone self) = Ok (VDict [], VNone) /\
  @AsyncScraper.scrape Fixtures.libraries Fixtures.no_configuration unit
    Fixtures.network url VNone self = (Ok (AsyncScraper.skipped url), self).
Proof.
  intros url history sm store self.
  assert (AsyncScraper.state_manager self = Some store) as H1 by reflexivity.
  assert (fst (@AsyncScraper.resolve_configuration Fixtures.no_configuration
                 unit url VNone self) = Ok (VDict [], VNone)) as H2
    by (vm_compute; reflexivity).
  split; [exact H1|]. split; [exact H2|].
  exact (visited_url_skipped_across_sessions Fixtures.libraries
           Fixtures.no_configuration unit Fixtures.network self sm url None
           (lit "failed") (lit "2024-05-01 10:00:03") history VNone
           (VDict [], VNone) H1 H2).
Defined.

(** ** Empty HTML *)

(** C8. For a falsy HTML input (the empty string, None) and any
    configuration, [extract] returns the empty mapping at once: it raises
    nothing, and no logging call of any strategy is reached. *)
Theorem extract_falsy_html :
  forall (libs : Libraries) (html config : value)
         (logged : list Extractor.event),
    truthy html = false ->
    Extractor.extract html config logged = (Ok (VDict []), logged).
Proof.
  intros libs html config logged H.
  unfold Extractor.extract. rewrite H. reflexivity.
Qed.

Lemma extract_falsy_html_witness :
  (truthy (VStr []) = false /\
   @Extractor.extract Fixtures.libraries (VStr [])
     (VDict [(lit "selectors", VDict [(lit "title", VStr (lit "h1"))])]) [] =
   (Ok (VDict []), [])) /\
  (truthy VNone = false /\
   @Extractor.extract Fixtures.libraries VNone VNone [] = (Ok (VDict []), [])).
Proof.
  split; (split; [reflexivity|]).
  - exact (extract_falsy_html Fixtures.libraries (VStr []) _ [] eq_refl).
  - exact (extract_falsy_html Fixtures.libraries VNone VNone [] eq_refl).
Defined.

(** ** The item limit of the crawl loop *)

(** The turn of the loop on which the accumulated results reach a
    positive [max_items]: the loop ends there with the first [max_items]
    results, on the page it is on. *)
Lemma loop_stops_at_max_items :
  forall (libs : Libraries) (browser : UniversalScraper.Browser)
         (config : dict) (max_pages : Z) (fuel : nat)
         (c : UniversalScraper.crawl) (m : Z) (page_data : dict)
         (results : list value),
    get (lit "max_items") config = VInt m ->
    (0 < m)%Z ->
    (UniversalScraper.page_num c <= max_pages)%Z ->
    UniversalScraper._extract_data
      (UniversalScraper.site (UniversalScraper.current c)) config
      = VDict page_data ->
    UniversalScraper.accumulate (UniversalScraper.all_results c) page_data
      = Ok results ->
    (m <= Z.of_nat (List.length results))%Z ->
    UniversalScraper.loop (S fuel) config max_pages c =
    Ok (UniversalScraper.mk_crawl (firstn (Z.to_nat m) results)
          (UniversalScraper.page_num c) (UniversalScraper.current c)
          (UniversalScraper.loaded c)).
Proof.
  intros libs browser config max_pages fuel c m pd results
         Hm Hpos Hpage Hdata Hacc Hlen.
  cbn [UniversalScraper.loop].
  apply Z.leb_le in Hpage. rewrite Hpage.
  unfold UniversalScraper.loop_body.
  rewrite Hdata. cbn [UniversalScraper.as_dict]. rewrite Hacc, Hm.
  assert (truthy (VInt m) = true) as ->.
  { cbn. apply negb_true_iff. apply Z.eqb_neq. lia. }
  cbn [UniversalScraper.as_int].
  apply Z.leb_le in Hlen. rewrite Hlen.
  unfold UniversalScraper.slice_to.
  assert ((0 <=? m)%Z = true) as -> by (apply Z.leb_le; lia).
  reflexivity.
Qed.

(** Turns that go on add one to the page number each, and more fuel than
    turns leaves the rest of the loop to run from where they end. *)
Lemma after_turns_loop :
  forall (libs : Libraries) (browser : UniversalScraper.Browser)
         (config : dict) (max_pages : Z) (n : nat)
         (c0 c : UniversalScraper.crawl),
    UniversalScraper.after_turns n config max_pages c0 = Some c ->
    UniversalScraper.page_num c
      = (UniversalScraper.page_num c0 + Z.of_nat n)%Z /\
    List.length (UniversalScraper.loaded c)
      = (List.length (UniversalScraper.loaded c0) + n)%nat /\
    forall fuel,
      UniversalScraper.loop (n + fuel) config max_pages c0
      = UniversalScraper.loop fuel config max_pages c.
Proof.
  intros libs browser config max_pages n.
  induction n as [|n IH]; intros c0 c H.
  - injection H as <-. split; [lia|]. split; [lia | reflexivity].
  - cbn [UniversalScraper.after_turns] in H.
    destruct (UniversalScraper.page_num c0 <=? max_pages)%Z eqn:E;
      [|discriminate H].
    destruct (UniversalScraper.loop_body config max_pages c0)
      as [[c1|c1]|e] eqn:B; try discriminate H.
    apply IH in H as (Hp & Hn & Hl).
    pose proof (UniversalScraperFacts.loop_body_pages config max_pages c0)
      as Hc1.
    rewrite B in Hc1. destruct Hc1 as (Hc1 & x & Hx & _).
    split; [lia|]. split.
    + rewrite Hn, Hx, length_app. cbn [List.length]. lia.
    + intros fuel.
      cbn [Nat.add UniversalScraper.loop]. rewrite E, B. apply Hl.
Qed.

(** C7, as stated, fails for a negative limit: [max_items=-3] is
    configured and the ten items of the first page reach it at once; the
    crawl ends there, but the results are cut by three from the end, and
    seven items are returned. *)
Lemma negative_max_items_counterexample :
  let config := [(lit "max_items", VInt (-3))] in
  @UniversalScraper.scrape Fixtures.libraries Fixtures.no_configuration
    Fixtures.three_pages (lit "https://x.com/list") (Some config)
  = Ok (VDict [(lit "items", VList (firstn 7 (Fixtures.page_items 0)));
               (lit "total_pages", VInt 1)],
        [0%nat]) /\
  List.length (firstn 7 (Fixtures.page_items 0)) = 7%nat /\
  Z.of_nat (List.length (firstn 7 (Fixtures.page_items 0))) <> (-3)%Z.
Proof. vm_compute. repeat split. discriminate. Qed.

(** C7, amended. With [max_items] configured as a positive [m], the crawl
    ends on the turn on which the accumulated results reach [m]: whatever
    number of turns went on to a next page before, [scrape] returns the
    first [m] of the results accumulated on that turn, exactly [m] items,
    with the page number of that turn, and the browser has loaded the
    pages loaded until then and no further page. *)
Theorem crawl_stops_at_max_items :
  forall (libs : Libraries) (loader : ConfigLoader)
         (browser : UniversalScraper.Browser)
         (url : str) (config : dict) (m max_pages : Z) (n : nat)
         (c : UniversalScraper.crawl) (page_data : dict)
         (results : list value),
    get (lit "max_items") config = VInt m ->
    (0 < m)%Z ->
    UniversalScraper.configured_max_pages config = Ok max_pages ->
    UniversalScraper.after_turns n config max_pages
      (UniversalScraper.mk_crawl [] 1 (UniversalScraper.goto url)
                                 [UniversalScraper.goto url]) = Some c ->
    (UniversalScraper.page_num c <= max_pages)%Z ->
    UniversalScraper._extract_data
      (UniversalScraper.site (UniversalScraper.current c)) config
      = VDict page_data ->
    UniversalScraper.accumulate (UniversalScraper.all_results c) page_data
      = Ok results ->
    (m <= Z.of_nat (List.length results))%Z ->
    UniversalScraper.scrape url (Some config) =
      Ok (VDict [(lit "items", VList (firstn (Z.to_nat m) results));
                 (lit "total_pages", VInt (UniversalScraper.page_num c))],
          UniversalScraper.loaded c) /\
    Z.of_nat (List.length (firstn (Z.to_nat m) results)) = m /\
    UniversalScraper.page_num c = Z.of_nat (S n) /\
    List.length (UniversalScraper.loaded c) = S n.
Proof.
  intros libs loader browser url config m max_pages n c pd results
         Hm Hpos Hmax Hturns Hpage Hdata Hacc Hlen.
  destruct (after_turns_loop libs browser config max_pages n _ c Hturns)
    as (Hnum & Hloaded & Hloop).
  cbn [UniversalScraper.page_num UniversalScraper.loaded List.length]
    in Hnum, Hloaded.
  assert (exists fuel, Z.to_nat max_pages = (n + S fuel)%nat) as [fuel Hfuel].
  { exists (Z.to_nat max_pages - S n)%nat. lia. }
  split; [|split; [|split]].
  - destruct config as [|kv rest]; [discriminate Hm|].
    unfold UniversalScraper.scrape.
    fold (UniversalScraper.configured_max_pages (kv :: rest)).
    rewrite Hmax, Hfuel, Hloop.
    rewrite (loop_stops_at_max_items libs browser (kv :: rest) max_pages fuel
               c m pd results Hm Hpos Hpage Hdata Hacc Hlen).
    reflexivity.
  - rewrite length_firstn. lia.
  - lia.
  - lia.
Qed.

Lemma crawl_stops_at_max_items_witness :
  let url := lit "https://x.com/list" in
  let c := UniversalScraper.mk_crawl (Fixtures.page_items 0) 2 1 [0; 1]%nat in
  let results := Fixtures.page_items 0 ++ Fixtures.page_items 1 in
  @UniversalScraper.scrape Fixtures.libraries Fixtures.no_configuration
    Fixtures.three_pages url (Some Fixtures.fifteen_items) =
    Ok (VDict [(lit "items", VList (firstn (Z.to_nat 15) results));
               (lit "total_pages", VInt (UniversalScraper.page_num c))],
        UniversalScraper.loaded c) /\
  Z.of_nat (List.length (firstn (Z.to_nat 15) results)) = 15%Z /\
  UniversalScraper.page_num c = Z.of_nat 2 /\
  List.length (UniversalScraper.loaded c) = 2%nat.
Proof.
  intros url c results.
  assert (get (lit "max_items") Fixtures.fifteen_items = VInt 15) as H1
    by (vm_compute; reflexivity).
  assert (0 < 15)%Z as H2 by lia.
  assert (UniversalScraper.configured_max_pages Fixtures.fifteen_items
          = Ok 50%Z) as H3 by (vm_compute; reflexivity).
  assert (@UniversalScraper.after_turns Fixtures.libraries Fixtures.three_pages
            1 Fixtures.fifteen_items 50
            (UniversalScraper.mk_crawl [] 1
               (@UniversalScraper.goto Fixtures.three_pages url)
               [@UniversalScraper.goto Fixtures.three_pages url]) = Some c)
    as H4 by (vm_compute; reflexivity).
  assert (UniversalScraper.page_num c <= 50)%Z as H5
    by (vm_compute; discriminate).
  assert (@UniversalScraper._extract_data Fixtures.libraries
            (@UniversalScraper.site Fixtures.three_pages
               (UniversalScraper.current c))
            Fixtures.fifteen_items = VDict (Fixtures.page_data 1)) as H6
    by (vm_compute; reflexivity).
  assert (UniversalScraper.accumulate (UniversalScraper.all_results c)
            (Fixtures.page_data 1) = Ok results) as H7
    by (vm_compute; reflexivity).
  assert (15 <= Z.of_nat (List.length results))%Z as H8
    by (vm_compute; discriminate).
  exact (crawl_stops_at_max_items Fixtures.libraries Fixtures.no_configuration
           Fixtures.three_pages url Fixtures.fifteen_items 15 50 1 c
           (Fixtures.page_data 1) results H1 H2 H3 H4 H5 H6 H7 H8).
Defined.

(** The example of C7 run as a whole: three pages of ten items each and
    [max_items=5] give the first five items of the first page, on page
    number 1, and the browser loads the first page only; without the limit
    the same crawl collects thirty items over the three pages. *)
Example crawl_three_pages_limit_five :
  List.map (fun n => List.length (Fixtures.page_items n)) [0; 1; 2]%nat
    = [10; 10; 10]%nat /\
  @UniversalScraper.scrape Fixtures.libraries Fixtures.no_configuration
    Fixtures.three_pages (lit "https://x.com/list") (Some Fixtures.five_items)
  = Ok (VDict [(lit "items", VList (firstn 5 (Fixtures.page_items 0)));
               (lit "total_pages", VInt 1)],
        [0%nat]) /\
  @UniversalScraper.scrape Fixtures.libraries Fixtures.no_configuration
    Fixtures.three_pages (lit "https://x.com/list") None
  = Ok (VDict [(lit "items",
                VList (Fixtures.page_items 0 ++ Fixtures.page_items 1
                       ++ Fixtures.page_items 2));
               (lit "total_pages", VInt 3)],
        [0; 1; 2]%nat).
Proof. vm_compute. repeat split. Qed.
End ScraperClaims.

(** * Properties of the regular expressions *)

Module ReFacts.
Import Re.

(** A [+] over a character class is [greedy_plus]. *)
Lemma iterate_plus_cls {A : Type} negated items
  (k : str -> nat -> caps -> option A) (g : caps) :
  forall (s : str) (fuel count i : nat),
    (List.length s < fuel)%nat ->
    iterate (fun s' i' g' k' => mtch (Cls negated items) s' i' g' k')
            1 None k fuel count s i g =
    match count with
    | O => greedy_plus (cls_matches negated items) s i (fun s' i' => k s' i' g)
    | S _ =>
        match greedy_plus (cls_matches negated items) s i
                          (fun s' i' => k s' i' g) with
        | Some a => Some a
        | None => k s i g
        end
    end.
Proof.
  induction s as [|x s IH]; intros fuel count i Hf;
    (destruct fuel as [|fuel]; [cbn in Hf; lia|]).
  - cbn [iterate below mtch greedy_plus]. now destruct count.
  - cbn [iterate below mtch greedy_plus].
    destruct (cls_matches negated items x).
    + assert (Nat.eqb (S i) i = false) as -> by (apply Nat.eqb_neq; lia).
      cbn [andb]. rewrite IH by (cbn in Hf; lia).
      destruct (greedy_plus _ s (S i) _); destruct count; try reflexivity.
      cbn [Nat.leb]. now destruct (k s (S i) g).
    + now destruct count.
Qed.

Lemma mtch_plus_cls {A : Type} negated items (s : str) (i : nat) (g : caps)
  (k : str -> nat -> caps -> option A) :
  mtch (plus (Cls negated items)) s i g k =
  greedy_plus (cls_matches negated items) s i (fun s' i' => k s' i' g).
Proof.
  change (mtch (plus (Cls negated items)) s i g k)
    with (iterate (fun s' i' g' k' => mtch (Cls negated items) s' i' g' k')
                  1 None k (S (List.length s + 1)) O s i g).
  now rewrite iterate_plus_cls by lia.
Qed.

(** Exactly two characters of a class. *)
Lemma mtch_two_cls {A : Type} negated items (s : str) (i : nat) (g : caps)
  (k : str -> nat -> caps -> option A) :
  mtch (Repeat 2 (Some 2) (Cls negated items)) s i g k =
  match s with
  | d1 :: d2 :: rest =>
      if cls_matches negated items d1 && cls_matches negated items d2
      then k rest (S (S i)) g else None
  | _ => None
  end.
Proof.
  assert (forall n, Nat.eqb (S n) n = false) as E
    by (intro n; apply Nat.eqb_neq; lia).
  destruct s as [|d1 [|d2 rest]];
    cbn [mtch iterate below List.length Nat.add Nat.ltb Nat.leb];
    rewrite ?E; cbn [andb]; try reflexivity.
  - destruct (cls_matches negated items d1); reflexivity.
  - destruct (cls_matches negated items d1); [|reflexivity].
    destruct (cls_matches negated items d2); [|reflexivity].
    cbn [andb]. now destruct (k rest (S (S i)) g).
Qed.

(** [greedy_plus] finds a match exactly when some character of the class
    has a rest that the continuation accepts, with only characters of the
    class before it. *)
Lemma greedy_plus_some {A : Type} (p : N -> bool) (k : str -> nat -> option A) :
  forall (s : str) (i : nat),
    greedy_plus p s i k <> None ->
    exists cs c rest,
      s = cs ++ c :: rest /\ p c = true /\
      k rest (S (i + List.length cs)) <> None.
Proof.
  induction s as [|x s IH]; intros i H; cbn [greedy_plus] in H; [congruence|].
  destruct (p x) eqn:Px; [|congruence].
  destruct (greedy_plus p s (S i) k) eqn:G.
  - destruct (IH (S i)) as (cs & c & rest & -> & Pc & Hk); [congruence|].
    exists (x :: cs), c, rest. repeat split; [exact Pc|].
    cbn [List.length]. now replace (i + S (List.length cs))%nat
      with (S i + List.length cs)%nat by lia.
  - exists [], x, s. repeat split; [exact Px|].
    cbn [List.length]. now rewrite Nat.add_0_r.
Qed.

Lemma greedy_plus_one {A : Type} (p : N -> bool) (k : str -> nat -> option A)
  (c : N) (rest : str) (i : nat) :
  p c = true -> k rest (S i) <> None ->
  greedy_plus p (c :: rest) i k <> None.
Proof.
  intros Pc Hk. cbn [greedy_plus]. rewrite Pc.
  now destruct (greedy_plus p rest (S i) k).
Qed.

Lemma greedy_plus_ext {A : Type} (p q : N -> bool)
  (k k' : str -> nat -> option A) :
  (forall c, p c = q c) -> (forall s i, k s i = k' s i) ->
  forall s i, greedy_plus p s i k = greedy_plus q s i k'.
Proof.
  intros Hp Hk. induction s as [|x s IH]; intro i; cbn [greedy_plus];
    [reflexivity|].
  now rewrite Hp, IH, Hk.
Qed.

(** [search_from] finds a match exactly when an attempt at some suffix
    does. *)
Lemma search_from_some (r : regex) :
  forall (s : str) (i : nat),
    search_from r s i false <> None ->
    exists pre suf,
      s = pre ++ suf /\ match_at r suf (i + List.length pre) false <> None.
Proof.
  induction s as [|c s IH]; intros i H; cbn [search_from] in H.
  - destruct (match_at r [] i false) eqn:M; [|congruence].
    exists [], []. split; [reflexivity|]. cbn. rewrite Nat.add_0_r. congruence.
  - destruct (match_at r (c :: s) i false) eqn:M.
    + exists [], (c :: s). split; [reflexivity|].
      cbn. rewrite Nat.add_0_r. congruence.
    + destruct (search_from r s (S i) false) as [[sk m]|] eqn:S1; [|congruence].
      destruct (IH (S i)) as (pre & suf & -> & Hm); [congruence|].
      exists (c :: pre), suf. split; [reflexivity|].
      cbn [List.length]. now replace (i + S (List.length pre))%nat
        with (S i + List.length pre)%nat by lia.
Qed.

Lemma search_from_found (r : regex) :
  forall (pre suf : str) (i : nat),
    match_at r suf (i + List.length pre) false <> None ->
    search_from r (pre ++ suf) i false <> None.
Proof.
  induction pre as [|c pre IH]; intros suf i H.
  - cbn in H. rewrite Nat.add_0_r in H. cbn [app].
    destruct suf as [|x suf]; cbn [search_from];
      destruct (match_at r _ i false); congruence.
  - cbn [app search_from].
    destruct (match_at r (c :: pre ++ suf) i false); [congruence|].
    cbn [List.length] in H.
    replace (i + S (List.length pre))%nat
      with (S i + List.length pre)%nat in H by lia.
    specialize (IH suf (S i) H).
    destruct (search_from r (pre ++ suf) (S i) false) as [[sk m]|]; congruence.
Qed.
End ReFacts.

(** * Properties of the extraction engine *)

Module ExtractorFacts.
Import Re ReFacts Extractor.

Lemma dict_get_set_other (k k' : str) (v : value) (d : dict) :
  str_eqb k k' = false ->
  dict_get k (dict_set k' v d) = dict_get k d.
Proof.
  intro N. induction d as [|[k0 v0] d IH]; cbn [dict_set dict_get].
  - now rewrite N.
  - destruct (str_eqb k' k0) eqn:E; cbn [dict_get].
    + apply StateManagerFacts.str_eqb_eq in E. subst k0. now rewrite N.
    + now rewrite IH.
Qed.

Lemma dict_get_set_same (k : str) (v : value) (d : dict) :
  dict_get k (dict_set k v d) = Some v.
Proof.
  induction d as [|[k0 v0] d IH]; cbn [dict_set dict_get].
  - now rewrite StateManagerFacts.str_eqb_refl.
  - destruct (str_eqb k k0) eqn:E; cbn [dict_get]; now rewrite E.
Qed.

(** The first three steps of the heuristic never write a price. *)
Lemma no_price_before_price_step (element : node) :
  dict_get (lit "price")
    (title_field element (link_fields element (image_field element []))) = None.
Proof.
  assert (forall d, dict_get (lit "price") d = None ->
                    dict_get (lit "price") (image_field element d) = None) as H1.
  { intros d Hd. unfold image_field.
    destruct (find_tag _ _); [|exact Hd].
    destruct (attr_or _ _); [|exact Hd].
    destruct (_ && _); [|exact Hd].
    now rewrite dict_get_set_other by reflexivity. }
  assert (forall d, dict_get (lit "price") d = None ->
                    dict_get (lit "price") (link_fields element d) = None) as H2.
  { intros d Hd. unfold link_fields.
    destruct (find_tag _ _) as [a_tag|]; [|exact Hd].
    assert (dict_get (lit "price")
              match tag_get (lit "href") a_tag with
              | Some href =>
                  if attr_truthy (Some href)
                  then dict_set (lit "link") (value_of_attr href) d
                  else d
              | None => d
              end = None) as Hl.
    { destruct (tag_get _ _); [|exact Hd].
      destruct (attr_truthy _); [|exact Hd].
      now rewrite dict_get_set_other by reflexivity. }
    destruct (Nat.ltb _ _); [|exact Hl].
    now rewrite dict_get_set_other by reflexivity. }
  assert (forall d, dict_get (lit "price") d = None ->
                    dict_get (lit "price") (title_field element d) = None) as H3.
  { intros d Hd. unfold title_field.
    destruct (dict_has _ _); [exact Hd|].
    destruct (heading_title _ _); [|exact Hd].
    now rewrite dict_get_set_other by reflexivity. }
  apply H3, H2, H1. reflexivity.
Qed.

Lemma price_class c :
  cls_matches false [Single 36; Single 8364; Single 163; Range 48 57] c =
  price_char c.
Proof.
  unfold cls_matches, price_char, is_currency_symbol.
  cbn [existsb citem_matches xorb].
  destruct (N.eqb c 36), (N.eqb c 8364), (N.eqb c 163),
    (N.leb 48 c && N.leb c 57); reflexivity.
Qed.

Lemma separator_class c :
  cls_matches false [Single 46; Single 44] c = price_separator c.
Proof.
  unfold cls_matches, price_separator. cbn [existsb citem_matches xorb].
  destruct (N.eqb c 46), (N.eqb c 44); reflexivity.
Qed.

Lemma digit_class c : cls_matches false [Digit] c = isdecimal c.
Proof.
  unfold cls_matches. cbn [existsb citem_matches xorb]. apply orb_false_r.
Qed.

Lemma mtch_price_tail {A : Type} (s : str) (i : nat) (g : caps)
  (k : str -> nat -> caps -> option A) :
  mtch price_tail s i g k =
  match s with
  | sep :: d1 :: d2 :: rest =>
      if price_separator sep && (isdecimal d1 && isdecimal d2)
      then k rest (S (S (S i))) g else None
  | _ => None
  end.
Proof.
  unfold price_tail. cbn [mtch].
  destruct s as [|sep s]; [reflexivity|].
  rewrite separator_class. destruct (price_separator sep); cbn [andb].
  - change (iterate _ 2 (Some 2) k _ 0 s (S i) g)
      with (mtch (Repeat 2 (Some 2) (Cls false [Digit])) s (S i) g k).
    rewrite mtch_two_cls. destruct s as [|d1 [|d2 rest]]; try reflexivity.
    now rewrite !digit_class.
  - now destruct s as [|d1 [|d2 rest]].
Qed.

Lemma match_at_price (s : str) (i : nat) :
  match_at price_pattern s i false =
  greedy_plus price_char s i
    (fun s' i' =>
       match s' with
       | sep :: d1 :: d2 :: rest =>
           if price_separator sep && (isdecimal d1 && isdecimal d2)
           then Some (mk_match i (S (S (S i'))) [] rest) else None
       | _ => None
       end).
Proof.
  unfold match_at, price_pattern.
  cbn [mtch]. rewrite mtch_plus_cls.
  apply greedy_plus_ext; [apply price_class|].
  intros s' i'. rewrite mtch_price_tail. reflexivity.
Qed.

(** The price pattern finds a match exactly in the texts that hold a
    price token. *)
Lemma search_price_iff (text : str) :
  search price_pattern text <> None <-> has_price_token text.
Proof.
  unfold search. split.
  - intro H.
    destruct (search_from_some price_pattern text 0) as (pre & suf & -> & Hm).
    { destruct (search_from price_pattern text 0 false) as [[sk m]|]; congruence. }
    rewrite match_at_price in Hm.
    apply greedy_plus_some in Hm as (cs & c & rest & -> & Pc & Hk).
    destruct rest as [|sep [|d1 [|d2 post]]]; try congruence.
    destruct (price_separator sep) eqn:Ps; [|cbn in Hk; congruence].
    destruct (isdecimal d1) eqn:D1; [|cbn in Hk; congruence].
    destruct (isdecimal d2) eqn:D2; [|cbn in Hk; congruence].
    exists (pre ++ cs), c, sep, d1, d2, post.
    rewrite <- app_assoc. repeat split; assumption.
  - intros (pre & c & sep & d1 & d2 & post & -> & Pc & Ps & D1 & D2).
    assert (search_from price_pattern
              (pre ++ c :: sep :: d1 :: d2 :: post) 0 false <> None) as F.
    { apply search_from_found. rewrite match_at_price.
      apply greedy_plus_one; [exact Pc|].
      rewrite Ps, D1, D2. discriminate. }
    destruct (search_from price_pattern _ 0 false) as [[sk m]|]; congruence.
Qed.

(** The heuristic writes a price exactly when the pattern finds a match. *)
Lemma price_written_iff (element : node) :
  dict_has (lit "price") (_heuristically_extract_item element) = true <->
  search price_pattern (get_text [32%N] true element) <> None.
Proof.
  unfold _heuristically_extract_item, price_field, dict_has.
  destruct (search price_pattern (get_text [32%N] true element)) as [m|].
  - rewrite dict_get_set_same. split; [discriminate | reflexivity].
  - rewrite no_price_before_price_step. split; [discriminate | congruence].
Qed.

(** ** The sample test of list detection *)

Lemma count_valid_le (sample : list node) :
  (count_valid sample <= List.length sample)%nat.
Proof.
  unfold count_valid.
  assert (forall acc,
            (fold_left
               (fun valid_items el =>
                  if Nat.leb 2 (List.length (_heuristically_extract_item el))
                  then S valid_items else valid_items) sample acc
             <= acc + List.length sample)%nat) as G.
  { induction sample as [|el sample IH]; intro acc; cbn [fold_left List.length].
    - lia.
    - destruct (Nat.leb 2 _); eapply Nat.le_trans; try apply IH; lia. }
  apply (G O).
Qed.

(** On a sample of one to five elements the floating-point test
    [valid_items / sample_size > 0.6] is the exact test
    [3 * sample_size < 5 * valid_items]. *)
Lemma ratio_test_exact (valid_items sample_size : nat) :
  (1 <= sample_size <= 5)%nat -> (valid_items <= sample_size)%nat ->
  PrimFloat.ltb f0_6 (true_div valid_items sample_size) =
  Nat.ltb (3 * sample_size) (5 * valid_items).
Proof.
  intros Hs Hv.
  destruct sample_size as [|[|[|[|[|[|n]]]]]]; try lia;
    destruct valid_items as [|[|[|[|[|[|v]]]]]]; try lia;
    vm_compute; reflexivity.
Qed.
End ExtractorFacts.

Module ExtractorClaims.
Import Extractor ExtractorFacts.

(** ** Acceptance of a candidate group *)

(** C3, as stated, fails: a group of five elements of which exactly three
    (60% of the sample) yield two fields is not accepted, and list
    detection on a document holding just this group finds no list. *)
Lemma sixty_percent_sample_counterexample :
  List.length Fixtures.three_of_five = 5%nat /\
  count_valid (firstn 5 Fixtures.three_of_five) = 3%nat /\
  (3 * 5 <= 5 * count_valid (firstn 5 Fixtures.three_of_five))%nat /\
  sample_looks_good Fixtures.three_of_five = false /\
  score_candidate Fixtures.three_of_five = (f0, []) /\
  _detect_and_extract_list (Fixtures.document Fixtures.three_of_five) = None.
Proof.
  vm_compute. repeat split. lia.
Qed.

(** C3, amended. A candidate group is accepted exactly when strictly more
    than 60% of its sample (its first five members at most) yields at
    least two fields, that is when [3 * sample_size < 5 * valid_items]; a
    group that is not accepted scores 0 and contributes no items.  For a
    sample of five, four valid members are needed. *)
Theorem sample_accepted_above_sixty_percent :
  forall elements : list node,
    (1 <= List.length elements)%nat ->
    let sample_size := Nat.min (List.length elements) 5 in
    let valid_items := count_valid (firstn sample_size elements) in
    (sample_looks_good elements = true <->
     (3 * sample_size < 5 * valid_items)%nat) /\
    (sample_looks_good elements = false ->
     score_candidate elements = (f0, [])).
Proof.
  intros elements Hlen sample_size valid_items.
  assert (valid_items <= sample_size)%nat as Hv.
  { unfold valid_items. eapply Nat.le_trans; [apply count_valid_le|].
    rewrite length_firstn. unfold sample_size. lia. }
  assert (1 <= sample_size <= 5)%nat as Hs by (unfold sample_size; lia).
  split.
  - unfold sample_looks_good. fold sample_size. fold valid_items.
    rewrite (ratio_test_exact _ _ Hs Hv). apply Nat.ltb_lt.
  - intro H. unfold score_candidate. now rewrite H.
Qed.

Lemma sample_accepted_above_sixty_percent_witness :
  (1 <= List.length Fixtures.three_of_five)%nat /\
  let sample_size := Nat.min (List.length Fixtures.three_of_five) 5 in
  let valid_items := count_valid (firstn sample_size Fixtures.three_of_five) in
  (sample_looks_good Fixtures.three_of_five = true <->
   (3 * sample_size < 5 * valid_items)%nat) /\
  (sample_looks_good Fixtures.three_of_five = false ->
   score_candidate Fixtures.three_of_five = (f0, [])).
Proof.
  assert (1 <= List.length Fixtures.three_of_five)%nat as H
    by (vm_compute; lia).
  split; [exact H|].
  exact (sample_accepted_above_sixty_percent Fixtures.three_of_five H).
Defined.

(** ** The price heuristic *)

(** The price field is produced exactly when the text of the element
    holds a price token: a character that is a currency symbol ($, €, £)
    or an ASCII digit, then a dot or a comma, then two decimal digits.
    The pattern puts the digits in one class with the symbols. *)
Lemma price_field_iff_price_token :
  forall element : node,
    dict_has (lit "price") (_heuristically_extract_item element) = true <->
    has_price_token (get_text [32%N] true element).
Proof.
  intro element. rewrite price_written_iff. apply search_price_iff.
Qed.

(** C4. The code at the failing input: the text "Weight 12.34 kg" holds no
    currency symbol anywhere, and the step commented "Price (look for
    currency symbols)" extracts a price all the same, the bare number
    "12.34".  The claim's other half holds: a text with "$12.34" gives a
    price field. *)
Theorem price_extracted_without_currency_symbol :
  let element := Fixtures.plain (lit "Weight 12.34 kg") in
  get_text [32%N] true element = lit "Weight 12.34 kg" /\
  existsb is_currency_symbol (get_text [32%N] true element) = false /\
  dict_get (lit "price") (_heuristically_extract_item element)
    = Some (VStr (lit "12.34")) /\
  dict_has (lit "price")
    (_heuristically_extract_item (Fixtures.plain (lit "Now $12.34 only")))
    = true.
Proof.
  vm_compute. repeat split.
Qed.

(** More inputs of the same defect: the price taken is the first token of
    the text, with or without a symbol, and a digit before the symbol is
    taken with it. *)
Example price_of_dollar_and_bare_number :
  dict_get (lit "price")
    (_heuristically_extract_item (Fixtures.plain (lit "Now $12.34 only")))
    = Some (VStr (lit "$12.34")) /\
  dict_get (lit "price")
    (_heuristically_extract_item (Fixtures.plain (lit "12.34")))
    = Some (VStr (lit "12.34")) /\
  dict_get (lit "price")
    (_heuristically_extract_item (Fixtures.plain (lit "1.00 and $12.34")))
    = Some (VStr (lit "1.00")) /\
  dict_get (lit "price")
    (_heuristically_extract_item (Fixtures.plain (lit "5$12.34")))
    = Some (VStr (lit "5$12.34")).
Proof.
  vm_compute. repeat split.
Qed.
End ExtractorClaims.

(** * Properties of url_pattern pagination *)

Module PaginationClaims.
Import AsyncScraper.

(** When the pattern does not match the URL there is no next page. *)
Lemma no_match_no_next_page (current_url : str) (cfg : pagination_config)
  (pattern : Re.regex) :
  pattern = match pc_pattern cfg with Some p => p | None => default_pattern end ->
  Re.search pattern current_url = None ->
  next_by_url_pattern current_url cfg = Ok None.
Proof.
  intros -> H. unfold next_by_url_pattern. now rewrite H.
Qed.

(** The url_pattern branch of [_find_next_page] touches nothing of the
    scraper: it issues no request. *)
Lemma url_pattern_is_pure {libs : Libraries} {Pipeline : Type}
  {env : Environment Pipeline} (current_url : str) (pattern : option Re.regex)
  (self : t Pipeline) :
  _find_next_page current_url (url_pattern pattern) self =
  (next_by_url_pattern current_url (url_pattern pattern), self).
Proof. reflexivity. Qed.

(** The example of the specification: with the pattern [page=(\d+)] the
    URL [https://x.com/list?page=3] leads to [page=4], and that one to
    [page=5]; there the code and the increment in place agree. *)
Example default_pattern_page_3_4_5 :
  next_by_url_pattern (lit "https://x.com/list?page=3") (url_pattern None)
    = Ok (Some (lit "https://x.com/list?page=4")) /\
  next_by_url_pattern (lit "https://x.com/list?page=4") (url_pattern None)
    = Ok (Some (lit "https://x.com/list?page=5")) /\
  incremented_in_place (lit "https://x.com/list?page=3") default_pattern
    = Some (lit "https://x.com/list?page=4") /\
  next_by_url_pattern (lit "https://x.com/list") (url_pattern None) = Ok None.
Proof. vm_compute. repeat split. Qed.

(** C5. The code at the failing input: with the configured pattern
    [p=(\d+)], which matches [https://x.com/list?p=3], the next URL is
    [https://x.com/list?page=4] and not the current URL with its page
    number incremented in place, [https://x.com/list?p=4]: the replacement
    text is always [page=N].  The pattern does not match the URL returned,
    so the page after it is never reached. *)
Theorem url_pattern_replacement_ignores_pattern :
  let current_url := lit "https://x.com/list?p=3" in
  let cfg := url_pattern (Some p_pattern) in
  Re.search p_pattern current_url <> None /\
  incremented_in_place current_url p_pattern
    = Some (lit "https://x.com/list?p=4") /\
  next_by_url_pattern current_url cfg
    = Ok (Some (lit "https://x.com/list?page=4")) /\
  next_by_url_pattern current_url cfg
    <> Ok (incremented_in_place current_url p_pattern) /\
  next_by_url_pattern (lit "https://x.com/list?page=4") cfg = Ok None.
Proof.
  vm_compute. repeat split; discriminate.
Qed.

(** A second input of the same defect: every match of the pattern is
    replaced, not the page number located by the first one. *)
Example url_pattern_replaces_every_match :
  next_by_url_pattern (lit "https://x.com/page=1/list?page=7") (url_pattern None)
    = Ok (Some (lit "https://x.com/page=2/list?page=2")) /\
  incremented_in_place (lit "https://x.com/page=1/list?page=7") default_pattern
    = Some (lit "https://x.com/page=2/list?page=7").
Proof. vm_compute. split; reflexivity. Qed.
End PaginationClaims.

(** * The rules of the method monad *)

Module MonadFacts.
Local Open Scope monad_scope.

Section Rules.
Context {S : Type}.

Lemma triple_ret {A} (P : S -> Prop) (a : A) (Q : A -> S -> Prop) E :
  (forall s, P s -> Q a s) -> triple P (ret a) Q E.
Proof. intros H s Hs. now apply H. Qed.

Lemma triple_raise {A} (P : S -> Prop) (e : exn) (Q : A -> S -> Prop)
  (E : exn -> S -> Prop) :
  (forall s, P s -> E e s) -> triple P (@raise S A e) Q E.
Proof. intros H s Hs. now apply H. Qed.

Lemma triple_lift {A} (P : S -> Prop) (r : res A) (Q : A -> S -> Prop)
  (E : exn -> S -> Prop) :
  (forall s, P s -> match r with Ok a => Q a s | Raise e => E e s end) ->
  triple P (lift r) Q E.
Proof. intros H s Hs. unfold lift. specialize (H s Hs). now destruct r. Qed.

Lemma triple_get_state (P : S -> Prop) (Q : S -> S -> Prop) E :
  (forall s, P s -> Q s s) -> triple P get_state Q E.
Proof. intros H s Hs. now apply H. Qed.

Lemma triple_modify (P : S -> Prop) (f : S -> S) (Q : unit -> S -> Prop) E :
  (forall s, P s -> Q tt (f s)) -> triple P (modify f) Q E.
Proof. intros H s Hs. now apply H. Qed.

Lemma triple_put_state (P : S -> Prop) (s' : S) (Q : unit -> S -> Prop) E :
  (forall s, P s -> Q tt s') -> triple P (put_state s') Q E.
Proof. intros H s Hs. now apply (H s). Qed.

Lemma triple_bind {A B} (P : S -> Prop) (m : M S A) (f : A -> M S B)
  (R : A -> S -> Prop) (Q : B -> S -> Prop) (E : exn -> S -> Prop) :
  triple P m R E -> (forall a, triple (R a) (f a) Q E) ->
  triple P (bind m f) Q E.
Proof.
  intros Hm Hf s Hs. unfold bind. specialize (Hm s Hs).
  destruct (m s) as [[a|e] s']; [now apply Hf | exact Hm].
Qed.

Lemma triple_try_except {A} (P : S -> Prop) (m : M S A) (catches : exn -> bool)
  (h : exn -> M S A) (Q : A -> S -> Prop) (E' E : exn -> S -> Prop) :
  triple P m Q E' ->
  (forall e, if catches e then triple (E' e) (h e) Q E
             else forall s, E' e s -> E e s) ->
  triple P (try_except m catches h) Q E.
Proof.
  intros Hm Hh s Hs. unfold try_except. specialize (Hm s Hs).
  destruct (m s) as [[a|e] s']; [exact Hm|]. specialize (Hh e).
  destruct (catches e); [now apply Hh | now apply Hh].
Qed.

Lemma triple_consequence {A} (P P' : S -> Prop) (m : M S A)
  (Q Q' : A -> S -> Prop) (E E' : exn -> S -> Prop) :
  triple P' m Q' E' ->
  (forall s, P s -> P' s) ->
  (forall a s, Q' a s -> Q a s) ->
  (forall e s, E' e s -> E e s) ->
  triple P m Q E.
Proof.
  intros Hm HP HQ HE s Hs. specialize (Hm s (HP s Hs)).
  destruct (m s) as [[a|e] s']; [now apply HQ | now apply HE].
Qed.

Lemma bind_assoc {A B C} (m : M S A) (g : A -> M S B) (k : B -> M S C) s :
  bind m (fun a => bind (g a) k) s = bind (bind m g) k s.
Proof. unfold bind. now destruct (m s) as [[a|e] s']. Qed.

Lemma triple_bind_assoc {A B C} (P : S -> Prop) (m : M S A)
  (g : A -> M S B) (k : B -> M S C) (Q : C -> S -> Prop) E :
  triple P (bind (bind m g) k) Q E ->
  triple P (bind m (fun a => bind (g a) k)) Q E.
Proof. intros H s Hs. rewrite bind_assoc. now apply H. Qed.

Lemma triple_assume {A} (fact : Prop) (P : S -> Prop) (m : M S A)
  (Q : A -> S -> Prop) (E : exn -> S -> Prop) :
  (fact -> triple P m Q E) -> triple (fun s => fact /\ P s) m Q E.
Proof. intros H s [Hf Hs]. exact (H Hf s Hs). Qed.

Lemma bind_ext {A B} (m : M S A) (f g : A -> M S B) s :
  (forall a s', f a s' = g a s') -> bind m f s = bind m g s.
Proof.
  intros H. unfold bind. destruct (m s) as [[a|e] s']; [apply H | reflexivity].
Qed.

End Rules.
End MonadFacts.

(** * Further properties of the visit/session store *)

Module StateManagerMore.
Import StateManager StateManagerFacts.
#[local] Arguments _hash_url : simpl never.

Lemma NoDup_map_filter {A B : Type} (f : A -> B) (p : A -> bool) (l : list A) :
  NoDup (List.map f l) -> NoDup (List.map f (filter p l)).
Proof.
  induction l as [|x l IH]; intro ND; cbn; [constructor|].
  inversion ND as [|y ys Hnin ND']; subst.
  destruct (p x); cbn; [constructor|]; auto.
  intro Hin. apply Hnin. apply in_map_iff in Hin as (z & Hz & Hin).
  apply in_map_iff. exists z. split; [exact Hz|].
  now apply filter_In in Hin.
Qed.

Lemma complete_row_id now sid q :
  se_session_id (complete_session_row now sid q) = se_session_id q.
Proof. unfold complete_session_row. now destruct (str_eqb _ _). Qed.

Lemma start_session_eq stamp now start_url metadata sm :
  start_session stamp now start_url metadata sm =
  let sid := (lit "session_" ++ stamp)%list in
  let row :=
    mk_session sid start_url now None (lit "active")
      match metadata with
      | Some m => if truthy m then Some m else None
      | None => None
      end in
  if existsb (fun q => str_eqb (se_session_id q) sid) (sessions (db sm))
  then (Raise IntegrityError, mk (db sm) (Some sid))
  else (Ok sid,
        mk (mk_database (visited_urls (db sm)) (sessions (db sm) ++ [row])
                        (scraped_items (db sm)) (scraped_items_seq (db sm)))
           (Some sid)).
Proof.
  unfold start_session, bind, modify, execute, insert_sessions, ret.
  cbn [db session_id se_session_id].
  destruct (existsb _ (sessions (db sm))); reflexivity.
Qed.

Lemma save_item_eq now url data sid sm :
  save_item now url data sid sm =
  (Ok tt,
   mk (mk_database (visited_urls (db sm)) (sessions (db sm))
         (scraped_items (db sm) ++
          [mk_scraped_item (scraped_items_seq (db sm) + 1)
                           (oor sid (session_id sm)) url data now])
         (scraped_items_seq (db sm) + 1))
      (session_id sm)).
Proof. reflexivity. Qed.

Lemma clear_session_eq sid sm :
  clear_session sid sm =
  (Ok tt,
   mk (mk_database
         (filter (fun q => negb (col_eq (vu_session_id q) sid))
                 (visited_urls (db sm)))
         (filter (fun q => negb (str_eqb (se_session_id q) sid))
                 (sessions (db sm)))
         (filter (fun q => negb (col_eq (si_session_id q) sid))
                 (scraped_items (db sm)))
         (scraped_items_seq (db sm)))
      (session_id sm)).
Proof. reflexivity. Qed.

Lemma run_call_keys c sm : keys_hold (db sm) -> keys_hold (db (run_call c sm)).
Proof.
  intros (K1 & K2 & K3 & K4).
  destruct c as [stamp now u m|now sid|now u sid st|now u d sid|];
    cbn [run_call].
  - rewrite start_session_eq. cbv zeta.
    destruct (existsb _ (sessions (db sm))) eqn:E; cbn [snd db].
    + now repeat split.
    + repeat split; cbn [visited_urls sessions scraped_items scraped_items_seq];
        try assumption.
      rewrite map_app. cbn [List.map se_session_id].
      apply NoDup_app; [exact K2 | constructor; [intros []|constructor] |].
      intros a Ha [<-|[]]. apply in_map_iff in Ha as (q & Hq & Hin).
      assert (existsb (fun q => str_eqb (se_session_id q)
                                 (lit "session_" ++ stamp)) (sessions (db sm))
              = true) as T.
      { apply existsb_exists. exists q. split; [exact Hin|].
        now apply str_eqb_eq. }
      congruence.
  - rewrite end_session_eq. cbn [snd].
    destruct (oor sid (session_id sm)) as [[|c s]|]; try now repeat split.
    repeat split; cbn [db visited_urls sessions scraped_items
                       scraped_items_seq]; try assumption.
    rewrite map_map.
    now rewrite (map_ext _ _ (complete_row_id now (c :: s))).
  - repeat split.
    + now apply mark_visited_pk.
    + rewrite mark_visited_eq. cbn [snd db].
      now destruct (known u (db sm)).
    + rewrite mark_visited_eq. cbn [snd db].
      now destruct (known u (db sm)).
    + rewrite mark_visited_eq. cbn [snd db].
      now destruct (known u (db sm)).
  - rewrite save_item_eq. cbn [snd db].
    repeat split; cbn [visited_urls sessions scraped_items scraped_items_seq];
      try assumption.
    + rewrite map_app. cbn [List.map si_id].
      apply NoDup_app; [exact K3 | constructor; [intros []|constructor] |].
      intros a Ha [<-|[]]. apply in_map_iff in Ha as (q & Hq & Hin).
      rewrite Forall_forall in K4. specialize (K4 q Hin). lia.
    + apply Forall_app. split.
      * eapply Forall_impl; [|exact K4]. cbn. intros; lia.
      * constructor; [cbn; lia | constructor].
  - now repeat split.
Qed.

Lemma run_command_keys c sm :
  keys_hold (db sm) -> keys_hold (db (run_command c sm)).
Proof.
  destruct c as [c|sid|]; cbn [run_command].
  - apply run_call_keys.
  - intros (K1 & K2 & K3 & K4). rewrite clear_session_eq. cbn [snd db].
    repeat split; cbn [visited_urls sessions scraped_items scraped_items_seq].
    + now apply NoDup_map_filter.
    + now apply NoDup_map_filter.
    + now apply NoDup_map_filter.
    + rewrite Forall_forall in *. intros r Hr. apply K4.
      now apply filter_In in Hr.
  - intros _. cbn. repeat split; constructor.
Qed.

(** X1. Whatever methods are called on a store that started as a new
    database (sessions started and ended, URLs marked, items saved, sessions
    or everything cleared, the process restarted), the keys of the three
    tables hold: one visit per url_hash, one session per session_id, one
    item per id, and no item id above the AUTOINCREMENT sequence, so the
    next item saved always gets an id no row has. *)
Theorem keys_hold_in_every_reachable_store :
  forall cmds : list command,
    keys_hold (db (run_commands cmds (__init__ None))).
Proof.
  intro cmds. unfold run_commands.
  assert (keys_hold (db (__init__ None))) as K0
    by (cbn; repeat split; constructor).
  revert K0. generalize (__init__ None).
  induction cmds as [|c cmds IH]; intros sm K; cbn [fold_left]; [exact K|].
  apply IH. now apply run_command_keys.
Qed.

Lemma sessions_of_nil_existsb sid d :
  sessions_of sid d = [] ->
  existsb (fun q => str_eqb (se_session_id q) sid) (sessions d) = false.
Proof.
  unfold sessions_of. induction (sessions d) as [|q l IH]; cbn; [reflexivity|].
  destruct (str_eqb (se_session_id q) sid); [discriminate|]. exact IH.
Qed.

Lemma complete_rows_absent now sid l :
  filter (fun q => str_eqb (se_session_id q) sid) l = [] ->
  List.map (complete_session_row now sid) l = l.
Proof.
  induction l as [|q l IH]; cbn; [reflexivity|]. unfold complete_session_row at 1.
  destruct (str_eqb (se_session_id q) sid); [discriminate|].
  intro H. now rewrite IH.
Qed.

Lemma insert_by_start_perm r l :
  Permutation.Permutation (r :: l) (insert_by_start r l).
Proof.
  induction l as [|q l IH]; cbn; [apply Permutation.Permutation_refl|].
  destruct (str_leb _ _); [|apply Permutation.Permutation_refl].
  eapply Permutation.perm_trans; [apply Permutation.perm_swap|].
  now apply Permutation.perm_skip.
Qed.

Lemma order_by_started_at_desc_perm l :
  Permutation.Permutation l (order_by_started_at_desc l).
Proof.
  unfold order_by_started_at_desc.
  assert (forall acc, Permutation.Permutation (acc ++ l)
            (fold_left (fun acc r => insert_by_start r acc) l acc)) as G.
  { induction l as [|r l IH]; intro acc; cbn [fold_left].
    - rewrite app_nil_r. apply Permutation.Permutation_refl.
    - eapply Permutation.perm_trans; [|apply IH].
      eapply Permutation.perm_trans;
        [apply Permutation.Permutation_sym, Permutation.Permutation_middle|].
      apply (Permutation.Permutation_app_tail l (insert_by_start_perm r acc)). }
  apply (G []).
Qed.

(** A session is listed as active exactly when its row has status
    'active'. *)
Lemma active_listed_iff sm v :
  In v (get_active_sessions sm) <->
  exists q, In q (sessions (db sm)) /\ is_active q = true /\
            v = session_summary q.
Proof.
  unfold get_active_sessions. rewrite in_map_iff. split.
  - intros (q & <- & Hin). exists q.
    apply (Permutation.Permutation_in _
             (Permutation.Permutation_sym (order_by_started_at_desc_perm _)))
      in Hin.
    apply filter_In in Hin as [Hin Ha]. now repeat split.
  - intros (q & Hin & Ha & ->). exists q. split; [reflexivity|].
    apply (Permutation.Permutation_in _ (order_by_started_at_desc_perm _)).
    apply filter_In. now split.
Qed.

(** X2. [start_session] with a time stamp no session carries yet returns
    the id [session_<stamp>], makes it the current session and adds one row
    for it: status 'active', no completion time, the start URL and the
    timestamp of the call.  The other tables and the other session rows stay
    as they were, and the new session is listed by [get_active_sessions]. *)
Theorem start_session_opens_active_session :
  forall (sm : t) (stamp now start_url : str) (metadata : option value),
    sessions_of (lit "session_" ++ stamp) (db sm) = [] ->
    exists sm' row,
      start_session stamp now start_url metadata sm
        = (Ok (lit "session_" ++ stamp), sm') /\
      session_id sm' = Some (lit "session_" ++ stamp) /\
      sessions (db sm') = sessions (db sm) ++ [row] /\
      se_session_id row = lit "session_" ++ stamp /\
      se_start_url row = start_url /\
      se_started_at row = now /\
      se_completed_at row = None /\
      se_status row = lit "active" /\
      visited_urls (db sm') = visited_urls (db sm) /\
      scraped_items (db sm') = scraped_items (db sm) /\
      In (session_summary row) (get_active_sessions sm').
Proof.
  intros sm stamp now start_url metadata Hnew.
  rewrite start_session_eq. cbv zeta.
  rewrite (sessions_of_nil_existsb _ _ Hnew).
  eexists _, _. split; [reflexivity|].
  cbn [db session_id sessions visited_urls scraped_items se_session_id
       se_start_url se_started_at se_completed_at se_status].
  repeat split.
  apply active_listed_iff. eexists. split; [|split; [|reflexivity]].
  - cbn [db sessions]. apply in_or_app. right. now left.
  - reflexivity.
Qed.

Lemma start_session_opens_active_session_witness :
  sessions_of (lit "session_" ++ lit "20240501_100000") (db (__init__ None)) = [] /\
  exists sm' row,
    start_session (lit "20240501_100000") (lit "2024-05-01 10:00:00")
                  (lit "https://x.com/list") None (__init__ None)
      = (Ok (lit "session_" ++ lit "20240501_100000"), sm') /\
    session_id sm' = Some (lit "session_" ++ lit "20240501_100000") /\
    sessions (db sm') = sessions (db (__init__ None)) ++ [row] /\
    se_session_id row = lit "session_" ++ lit "20240501_100000" /\
    se_start_url row = lit "https://x.com/list" /\
    se_started_at row = lit "2024-05-01 10:00:00" /\
    se_completed_at row = None /\
    se_status row = lit "active" /\
    visited_urls (db sm') = visited_urls (db (__init__ None)) /\
    scraped_items (db sm') = scraped_items (db (__init__ None)) /\
    In (session_summary row) (get_active_sessions sm').
Proof.
  assert (sessions_of (lit "session_" ++ lit "20240501_100000")
            (db (__init__ None)) = []) as H by reflexivity.
  split; [exact H|].
  exact (start_session_opens_active_session (__init__ None)
           (lit "20240501_100000") (lit "2024-05-01 10:00:00")
           (lit "https://x.com/list") None H).
Defined.

(** X3. The session id is derived from the clock to the second, so a
    second [start_session] with the same time stamp finds the id taken:
    whatever the first call did, the second raises IntegrityError and
    leaves the store, and the current session, as the first call left
    them. *)
Theorem start_session_twice_in_a_second_raises :
  forall (sm : t) (stamp now1 now2 url1 url2 : str) (md1 md2 : option value),
    start_session stamp now2 url2 md2
      (snd (start_session stamp now1 url1 md1 sm))
    = (Raise IntegrityError, snd (start_session stamp now1 url1 md1 sm)).
Proof.
  intros sm stamp now1 now2 url1 url2 md1 md2.
  rewrite (start_session_eq stamp now1). cbv zeta.
  destruct (existsb _ (sessions (db sm))) eqn:E; cbn [snd];
    rewrite start_session_eq; cbv zeta; cbn [db sessions].
  - now rewrite E.
  - rewrite existsb_app. cbn [existsb se_session_id].
    rewrite str_eqb_refl, orb_true_r. reflexivity.
Qed.

(** X4. A session started (with a fresh time stamp) and then ended with
    [end_session()] is a completed row: its completion time is the
    timestamp of the second call.  The rows of the other sessions are
    untouched, and [get_active_sessions] lists what it listed before the
    session was started. *)
Theorem session_started_then_ended :
  forall (sm : t) (stamp t0 t1 start_url : str) (metadata : option value),
    sessions_of (lit "session_" ++ stamp) (db sm) = [] ->
    exists sm1 sm2 md,
      start_session stamp t0 start_url metadata sm
        = (Ok (lit "session_" ++ stamp), sm1) /\
      end_session t1 None sm1 = (Ok tt, sm2) /\
      sessions (db sm2) =
        sessions (db sm) ++
        [mk_session (lit "session_" ++ stamp) start_url t0 (Some t1)
                    (lit "completed") md] /\
      get_active_sessions sm2 = get_active_sessions sm.
Proof.
  intros sm stamp t0 t1 start_url metadata Hnew.
  rewrite start_session_eq. cbv zeta.
  rewrite (sessions_of_nil_existsb _ _ Hnew).
  assert (lit "session_" ++ stamp = 115%N :: (lit "ession_" ++ stamp)) as E
    by reflexivity.
  revert Hnew. rewrite E. generalize (lit "ession_" ++ stamp). clear E.
  intros s Hnew.
  set (md := match metadata with
             | Some m => if truthy m then Some m else None
             | None => None
             end).
  eexists _, _, md. split; [reflexivity|].
  rewrite end_session_eq. cbn [session_id db oor otruthy].
  cbn [db sessions visited_urls scraped_items scraped_items_seq].
  rewrite map_app, (complete_rows_absent _ _ _ Hnew). cbn [List.map].
  unfold complete_session_row at 1. cbn [se_session_id].
  rewrite str_eqb_refl.
  cbn [se_start_url se_started_at se_metadata].
  split; [reflexivity|]. split; [reflexivity|].
  unfold get_active_sessions. cbn [db sessions].
  rewrite filter_app. cbn [filter].
  assert (is_active (mk_session (115%N :: s) start_url t0 (Some t1)
                                (lit "completed") md)
          = false) as -> by reflexivity.
  now rewrite app_nil_r.
Qed.

Lemma session_started_then_ended_witness :
  sessions_of (lit "session_" ++ lit "20240501_100000") (db (__init__ None)) = [] /\
  exists sm1 sm2 md,
    start_session (lit "20240501_100000") (lit "2024-05-01 10:00:00")
                  (lit "https://x.com/list") None (__init__ None)
      = (Ok (lit "session_" ++ lit "20240501_100000"), sm1) /\
    end_session (lit "2024-05-01 10:07:00") None sm1 = (Ok tt, sm2) /\
    sessions (db sm2) =
      sessions (db (__init__ None)) ++
      [mk_session (lit "session_" ++ lit "20240501_100000")
                  (lit "https://x.com/list") (lit "2024-05-01 10:00:00")
                  (Some (lit "2024-05-01 10:07:00")) (lit "completed") md] /\
    get_active_sessions sm2 = get_active_sessions (__init__ None).
Proof.
  assert (sessions_of (lit "session_" ++ lit "20240501_100000")
            (db (__init__ None)) = []) as H by reflexivity.
  split; [exact H|].
  exact (session_started_then_ended (__init__ None)
           (lit "20240501_100000") (lit "2024-05-01 10:00:00")
           (lit "2024-05-01 10:07:00") (lit "https://x.com/list") None H).
Defined.

Lemma filter_length_map {A : Type} (p : A -> bool) (f : A -> A) (l : list A) :
  (forall x, p (f x) = p x) ->
  List.length (filter p (List.map f l)) = List.length (filter p l).
Proof.
  intro H. induction l as [|x l IH]; cbn; [reflexivity|].
  rewrite H. destruct (p x); cbn; now rewrite IH.
Qed.

Lemma update_row_session now st h q :
  vu_session_id (update_visited_row now st h q) = vu_session_id q.
Proof. unfold update_visited_row. now destruct (str_eqb _ _). Qed.

(** X5. After [mark_visited(url, ...)] the URL is visited for the global
    check; when it was new and the call had a session (its own or the
    current one) it is visited within that session too; and the answer of
    [is_visited], global or within any session, for a URL of another hash
    is what it was. *)
Theorem mark_visited_then_is_visited :
  forall (sm : t) (now url : str) (sid : option str) (status : str),
    is_visited url None (snd (mark_visited now url sid status sm)) = true /\
    (forall c s,
       is_visited url None sm = false ->
       oor sid (session_id sm) = Some (c :: s) ->
       is_visited url (Some (c :: s))
                  (snd (mark_visited now url sid status sm)) = true) /\
    (forall url' sid',
       _hash_url url' <> _hash_url url ->
       is_visited url' sid' (snd (mark_visited now url sid status sm))
       = is_visited url' sid' sm).
Proof.
  intros sm now url sid status. split; [|split].
  - rewrite AsyncScraperFacts.is_visited_global.
    apply AsyncScraperFacts.known_after_mark.
  - intros c s Hnew Hsid.
    rewrite AsyncScraperFacts.is_visited_global in Hnew.
    rewrite mark_visited_eq, Hnew, Hsid. cbn [snd].
    unfold is_visited. cbn [db visited_urls].
    rewrite filter_app, length_app. cbn [filter vu_url_hash vu_session_id col_eq].
    rewrite !str_eqb_refl. cbn [andb List.length].
    apply Nat.ltb_lt. lia.
  - intros url' sid' Hne.
    assert (str_eqb (_hash_url url) (_hash_url url') = false) as Hf
      by (apply str_eqb_neq; congruence).
    rewrite mark_visited_eq. cbn [snd]. unfold is_visited.
    destruct (known url (db sm)); cbn [db visited_urls].
    + destruct sid' as [[|c s]|];
        (rewrite filter_length_map; [reflexivity|]);
        intro q; now rewrite ?update_row_hash, ?update_row_session.
    + destruct sid' as [[|c s]|];
        rewrite filter_app, length_app; cbn [filter vu_url_hash];
        rewrite Hf; cbn [andb List.length]; now rewrite Nat.add_0_r.
Qed.

(** X6. [mark_visited] adds one to the number of visited URLs when the URL
    was not visited before, and leaves the number as it was when it was:
    however often a URL is marked, it counts once. *)
Theorem mark_visited_counts_each_url_once :
  forall (sm : t) (now url : str) (sid : option str) (status : str),
    get_visited_count None (snd (mark_visited now url sid status sm)) =
    (get_visited_count None sm +
     if is_visited url None sm then 0 else 1)%nat.
Proof.
  intros sm now url sid status.
  rewrite AsyncScraperFacts.is_visited_global, mark_visited_eq. cbn [snd].
  unfold get_visited_count.
  destruct (known url (db sm)); cbn [db visited_urls].
  - rewrite length_map. lia.
  - rewrite length_app. reflexivity.
Qed.

Lemma insert_by_time_perm r l :
  Permutation.Permutation (r :: l) (insert_by_time r l).
Proof.
  induction l as [|q l IH]; cbn; [apply Permutation.Permutation_refl|].
  destruct (str_leb _ _); [|apply Permutation.Permutation_refl].
  eapply Permutation.perm_trans; [apply Permutation.perm_swap|].
  now apply Permutation.perm_skip.
Qed.

Lemma order_by_scraped_at_perm l :
  Permutation.Permutation l (order_by_scraped_at l).
Proof.
  unfold order_by_scraped_at.
  assert (forall acc, Permutation.Permutation (acc ++ l)
            (fold_left (fun acc r => insert_by_time r acc) l acc)) as G.
  { induction l as [|r l IH]; intro acc; cbn [fold_left].
    - rewrite app_nil_r. apply Permutation.Permutation_refl.
    - eapply Permutation.perm_trans; [|apply IH].
      eapply Permutation.perm_trans;
        [apply Permutation.Permutation_sym, Permutation.Permutation_middle|].
      apply (Permutation.Permutation_app_tail l (insert_by_time_perm r acc)). }
  apply (G []).
Qed.

Lemma with_source_url_ok rows :
  Forall holds_mapping rows ->
  with_source_url rows = Ok (List.map item_of_row rows).
Proof.
  induction 1 as [|r rows [d Hd] _ IH]; cbn [with_source_url List.map];
    [reflexivity|].
  unfold item_of_row at 1. now rewrite Hd, IH.
Qed.

Lemma with_source_url_inv rows items :
  with_source_url rows = Ok items -> Forall holds_mapping rows.
Proof.
  revert items. induction rows as [|r rows IH]; intros items H;
    [constructor|].
  cbn [with_source_url] in H.
  destruct (si_data r) as [| | | | |d] eqn:Hd; try discriminate.
  destruct (with_source_url rows) as [its|] eqn:W; [|discriminate].
  constructor; [now exists d | now apply (IH its)].
Qed.

(** X7. An item saved with [save_item] under a session comes back from
    [get_session_items] for that session: the items are those returned
    before the call together with the saved mapping, to which the key
    '_source_url' with the URL has been added. *)
Theorem saved_item_is_returned :
  forall (sm : t) (now url : str) (d : dict) (sid : option str) (c : N)
         (s : str) (items : list value),
    oor sid (session_id sm) = Some (c :: s) ->
    get_session_items (Some (c :: s)) sm = Ok items ->
    exists items',
      get_session_items (Some (c :: s))
        (snd (save_item now url (VDict d) sid sm)) = Ok items' /\
      Permutation.Permutation
        (VDict (dict_set (lit "_source_url") (VStr url) d) :: items) items'.
Proof.
  intros sm now url d sid c s items Hsid Hitems.
  rewrite save_item_eq, Hsid. cbn [snd].
  unfold get_session_items in *. cbn [oor otruthy] in *.
  cbn [db scraped_items]. rewrite filter_app.
  cbn [filter si_session_id col_eq]. rewrite str_eqb_refl.
  set (rows := filter (fun r => col_eq (si_session_id r) (c :: s))
                      (scraped_items (db sm))) in *.
  set (row := mk_scraped_item (scraped_items_seq (db sm) + 1) (Some (c :: s))
                              url (VDict d) now).
  pose proof (with_source_url_inv _ _ Hitems) as Hall.
  assert (Forall holds_mapping rows) as Hrows.
  { eapply Permutation.Permutation_Forall; [|exact Hall].
    apply Permutation.Permutation_sym, order_by_scraped_at_perm. }
  rewrite with_source_url_ok in Hitems by exact Hall.
  injection Hitems as <-.
  assert (Forall holds_mapping (rows ++ [row])) as Hrows'.
  { apply Forall_app. split; [exact Hrows|].
    constructor; [now exists d | constructor]. }
  eexists. split.
  - apply with_source_url_ok.
    eapply Permutation.Permutation_Forall; [|exact Hrows'].
    apply order_by_scraped_at_perm.
  - change (VDict (dict_set (lit "_source_url") (VStr url) d))
      with (item_of_row row).
    change (item_of_row row :: List.map item_of_row (order_by_scraped_at rows))
      with (List.map item_of_row (row :: order_by_scraped_at rows)).
    apply Permutation.Permutation_map.
    eapply Permutation.perm_trans; [|apply order_by_scraped_at_perm].
    eapply Permutation.perm_trans;
      [|apply Permutation.Permutation_cons_append].
    apply Permutation.perm_skip.
    apply Permutation.Permutation_sym, order_by_scraped_at_perm.
Qed.

Lemma saved_item_is_returned_witness :
  let sm :=
    run_calls
      [StartSession (lit "20240501_100000") (lit "2024-05-01 10:00:00")
                    (lit "https://x.com/list") None]
      (__init__ None) in
  let d := [(lit "title", VStr (lit "Product one"))] in
  oor None (session_id sm) = Some (115%N :: lit "ession_20240501_100000") /\
  get_session_items (Some (115%N :: lit "ession_20240501_100000")) sm = Ok [] /\
  exists items',
    get_session_items (Some (115%N :: lit "ession_20240501_100000"))
      (snd (save_item (lit "2024-05-01 10:00:02") (lit "https://x.com/p/1")
                      (VDict d) None sm)) = Ok items' /\
    Permutation.Permutation
      [VDict (dict_set (lit "_source_url") (VStr (lit "https://x.com/p/1")) d)]
      items'.
Proof.
  intros sm d.
  assert (oor None (session_id sm)
          = Some (115%N :: lit "ession_20240501_100000")) as H1
    by (vm_compute; reflexivity).
  assert (get_session_items (Some (115%N :: lit "ession_20240501_100000")) sm
          = Ok []) as H2 by (vm_compute; reflexivity).
  split; [exact H1|]. split; [exact H2|].
  exact (saved_item_is_returned sm (lit "2024-05-01 10:00:02")
           (lit "https://x.com/p/1") d None 115%N
           (lit "ession_20240501_100000") [] H1 H2).
Defined.

(** X8. [clear_session] deletes exactly the rows of the session: no visit,
    item or session row of it is left, so its visited count is zero, its
    items are the empty list and none of its URLs is visited within it;
    every row of another session, and every row without a session, is kept
    as it was.  The current session of the object is not reset, even when
    it is the session cleared. *)
Theorem clear_session_deletes_only_that_session :
  forall (sm : t) (c : N) (s : str),
    exists sm',
      clear_session (c :: s) sm = (Ok tt, sm') /\
      get_visited_count (Some (c :: s)) sm' = 0%nat /\
      get_session_items (Some (c :: s)) sm' = Ok [] /\
      (forall url, is_visited url (Some (c :: s)) sm' = false) /\
      sessions_of (c :: s) (db sm') = [] /\
      (forall q, In q (visited_urls (db sm')) <->
                 In q (visited_urls (db sm)) /\ vu_session_id q <> Some (c :: s)) /\
      (forall q, In q (scraped_items (db sm')) <->
                 In q (scraped_items (db sm)) /\ si_session_id q <> Some (c :: s)) /\
      (forall q, In q (sessions (db sm')) <->
                 In q (sessions (db sm)) /\ se_session_id q <> c :: s) /\
      session_id sm' = session_id sm.
Proof.
  intros sm c s. rewrite clear_session_eq. eexists. split; [reflexivity|].
  assert (forall o, col_eq o (c :: s) = true <-> o = Some (c :: s)) as Hcol.
  { intros [o|]; unfold col_eq.
    - split; [intro H; apply str_eqb_eq in H; now subst|].
      intros [= ->]. apply str_eqb_refl.
    - split; discriminate. }
  assert (forall (A : Type) (p : A -> bool) (l : list A),
            filter p (filter (fun q => negb (p q)) l) = []) as Hnone.
  { intros A p l. induction l as [|x l IH]; cbn; [reflexivity|].
    destruct (p x) eqn:E; cbn; [exact IH|]. now rewrite E. }
  assert (forall (A : Type) (p p' : A -> bool) (l : list A),
            filter (fun q => p' q && p q) (filter (fun q => negb (p q)) l) = [])
    as Hnone2.
  { intros A p p' l. induction l as [|x l IH]; cbn; [reflexivity|].
    destruct (p x) eqn:E; cbn; [exact IH|]. now rewrite E, andb_false_r. }
  unfold get_visited_count, get_session_items, is_visited, sessions_of.
  cbn [oor otruthy db visited_urls scraped_items sessions session_id].
  rewrite !Hnone. repeat split.
  - intro url.
    now rewrite (Hnone2 _ (fun q => col_eq (vu_session_id q) (c :: s))
                        (fun q => str_eqb (vu_url_hash q) (_hash_url url))).
  - now apply filter_In in H.
  - apply filter_In in H as [_ H]. apply negb_true_iff in H.
    intro E. apply Hcol in E. congruence.
  - intros [Hin Hne]. apply filter_In. split; [exact Hin|].
    apply negb_true_iff. destruct (col_eq _ _) eqn:E; [|reflexivity].
    apply Hcol in E. contradiction.
  - now apply filter_In in H.
  - apply filter_In in H as [_ H]. apply negb_true_iff in H.
    intro E. apply Hcol in E. congruence.
  - intros [Hin Hne]. apply filter_In. split; [exact Hin|].
    apply negb_true_iff. destruct (col_eq _ _) eqn:E; [|reflexivity].
    apply Hcol in E. contradiction.
  - now apply filter_In in H.
  - apply filter_In in H as [_ H]. apply negb_true_iff in H.
    apply str_eqb_neq in H. exact H.
  - intros [Hin Hne]. apply filter_In. split; [exact Hin|].
    apply negb_true_iff. now apply str_eqb_neq.
Qed.
End StateManagerMore.

(** * Further properties of the extraction engine *)

Module ExtractorMore.
Import Re ReFacts Extractor ExtractorFacts.

Lemma slice_middle (a b c : str) :
  slice (a ++ b ++ c) (List.length a) (List.length a + List.length b) = b.
Proof.
  unfold slice. rewrite skipn_app, skipn_all, Nat.sub_diag. cbn [skipn app].
  replace (List.length a + List.length b - List.length a)%nat
    with (List.length b + 0)%nat by lia.
  rewrite firstn_app_2. cbn [firstn]. apply app_nil_r.
Qed.

(** [greedy_plus] hands over the rest after a non-empty run of characters
    of the class. *)
Lemma greedy_plus_run {A : Type} (p : N -> bool) (k : str -> nat -> option A)
  (a : A) :
  forall (s : str) (i : nat),
    greedy_plus p s i k = Some a ->
    exists cs rest,
      s = cs ++ rest /\ cs <> [] /\ Forall (fun c => p c = true) cs /\
      k rest (i + List.length cs)%nat = Some a.
Proof.
  induction s as [|x s IH]; intros i H; cbn [greedy_plus] in H; [discriminate|].
  destruct (p x) eqn:Px; [|discriminate].
  destruct (greedy_plus p s (S i) k) as [a'|] eqn:G.
  - injection H as ->.
    destruct (IH (S i) G) as (cs & rest & -> & _ & Hall & Hk).
    exists (x :: cs), rest. repeat split; [discriminate | now constructor |].
    cbn [List.length]. now replace (i + S (List.length cs))%nat
      with (S i + List.length cs)%nat by lia.
  - exists [x], s. repeat split; [discriminate | now repeat constructor |].
    cbn [List.length]. now replace (i + 1)%nat with (S i) by lia.
Qed.

(** [search_from] returns the match of an attempt at the suffix that
    follows the characters skipped. *)
Lemma search_from_match (r : regex) :
  forall (s : str) (i : nat) (sk : str) (m : match_object),
    search_from r s i false = Some (sk, m) ->
    exists suf,
      s = sk ++ suf /\ match_at r suf (i + List.length sk) false = Some m.
Proof.
  induction s as [|c s IH]; intros i sk m H; cbn [search_from] in H.
  - destruct (match_at r [] i false) eqn:M; [|discriminate].
    injection H as <- <-. exists []. split; [reflexivity|].
    cbn. now rewrite Nat.add_0_r.
  - destruct (match_at r (c :: s) i false) eqn:M.
    + injection H as <- <-. exists (c :: s). split; [reflexivity|].
      cbn. now rewrite Nat.add_0_r.
    + destruct (search_from r s (S i) false) as [[sk' m']|] eqn:S1;
        [|discriminate].
      injection H as <- <-.
      destruct (IH (S i) sk' m' S1) as (suf & -> & Hm).
      exists suf. split; [reflexivity|].
      cbn [List.length]. now replace (i + S (List.length sk'))%nat
        with (S i + List.length sk')%nat by lia.
Qed.

Lemma price_value_shape :
  forall (element : node) (v : value),
    dict_get (lit "price") (_heuristically_extract_item element) = Some v ->
    exists pre cs sep d1 d2 post,
      get_text [32%N] true element = pre ++ (cs ++ [sep; d1; d2]) ++ post /\
      cs <> [] /\
      Forall (fun c => price_char c = true) cs /\
      price_separator sep = true /\
      isdecimal d1 = true /\ isdecimal d2 = true /\
      v = VStr (cs ++ [sep; d1; d2]).
Proof.
  intros element v H.
  unfold _heuristically_extract_item, price_field in H.
  set (text := get_text [32%N] true element) in *.
  destruct (search price_pattern text) as [m|] eqn:S1.
  2:{ rewrite no_price_before_price_step in H. discriminate. }
  rewrite dict_get_set_same in H. injection H as <-.
  unfold search in S1.
  destruct (search_from price_pattern text 0 false) as [[sk m']|] eqn:S2;
    [|discriminate].
  injection S1 as ->.
  destruct (search_from_match _ _ _ _ _ S2) as (suf & Htext & Hm).
  rewrite match_at_price in Hm.
  destruct (greedy_plus_run _ _ _ _ _ Hm) as (cs & rest & -> & Hne & Hall & Hk).
  destruct rest as [|sep [|d1 [|d2 post]]]; try discriminate.
  destruct (price_separator sep) eqn:Ps; [|discriminate].
  destruct (isdecimal d1) eqn:D1; [|discriminate].
  destruct (isdecimal d2) eqn:D2; [|discriminate].
  cbn [andb] in Hk. injection Hk as <-. cbn [m_start m_end].
  exists sk, cs, sep, d1, d2, post.
  assert (text = sk ++ (cs ++ [sep; d1; d2]) ++ post) as Ht.
  { rewrite Htext, <- app_assoc. reflexivity. }
  repeat split; try assumption.
  rewrite Ht. cbn [Nat.add].
  replace (S (S (S (List.length sk + List.length cs))))
    with (List.length sk + List.length (cs ++ [sep; d1; d2]))%nat
    by (rewrite length_app; cbn [List.length]; lia).
  now rewrite slice_middle.
Qed.

(** X9. The value of the price field is a piece of the element's text: a
    non-empty run of currency symbols and ASCII digits, then a dot or a
    comma, then two decimal digits. *)
Theorem price_value_is_a_token_of_the_text :
  forall (element : node) (v : value),
    dict_get (lit "price") (_heuristically_extract_item element) = Some v ->
    exists pre cs sep d1 d2 post,
      get_text [32%N] true element = pre ++ (cs ++ [sep; d1; d2]) ++ post /\
      cs <> [] /\
      Forall (fun c => price_char c = true) cs /\
      price_separator sep = true /\
      isdecimal d1 = true /\ isdecimal d2 = true /\
      v = VStr (cs ++ [sep; d1; d2]).
Proof. exact price_value_shape. Qed.

Lemma price_value_is_a_token_of_the_text_witness :
  let element := Fixtures.plain (lit "Now $12.34 only") in
  dict_get (lit "price") (_heuristically_extract_item element)
    = Some (VStr (lit "$12.34")) /\
  exists pre cs sep d1 d2 post,
    get_text [32%N] true element = pre ++ (cs ++ [sep; d1; d2]) ++ post /\
    cs <> [] /\
    Forall (fun c => price_char c = true) cs /\
    price_separator sep = true /\
    isdecimal d1 = true /\ isdecimal d2 = true /\
    VStr (lit "$12.34") = VStr (cs ++ [sep; d1; d2]).
Proof.
  intro element.
  assert (dict_get (lit "price") (_heuristically_extract_item element)
          = Some (VStr (lit "$12.34"))) as H by (vm_compute; reflexivity).
  split; [exact H|].
  exact (price_value_is_a_token_of_the_text element (VStr (lit "$12.34")) H).
Defined.

(** ** The fields of a heuristic item *)

Lemma dict_set_keys (k : str) (v : value) (d : dict) :
  List.map fst (dict_set k v d) =
  if dict_has k d then List.map fst d else List.map fst d ++ [k].
Proof.
  unfold dict_has. induction d as [|[k0 v0] d IH]; cbn [dict_set dict_get];
    [reflexivity|].
  destruct (str_eqb k k0) eqn:E; cbn [List.map fst]; [reflexivity|].
  rewrite IH. now destruct (dict_get k d).
Qed.

Lemma dict_has_in_keys (k : str) (d : dict) :
  dict_has k d = true <-> In k (List.map fst d).
Proof.
  unfold dict_has. induction d as [|[k0 v0] d IH]; cbn [dict_get List.map fst In].
  - split; [discriminate | intros []].
  - destruct (str_eqb k k0) eqn:E.
    + apply StateManagerFacts.str_eqb_eq in E. subst. split; auto.
    + apply StateManagerFacts.str_eqb_neq in E. rewrite IH.
      split; [auto | intros [H|H]; [congruence | exact H]].
Qed.

Lemma dict_set_values (k : str) (v : value) (d : dict) :
  truthy v = true ->
  Forall (fun kv => truthy (snd kv) = true) d ->
  Forall (fun kv => truthy (snd kv) = true) (dict_set k v d).
Proof.
  intros Hv. induction 1 as [|[k0 v0] d H0 Hd IH]; cbn [dict_set].
  - now repeat constructor.
  - destruct (str_eqb k k0); constructor; assumption.
Qed.

Lemma tidy_set (ks : list str) (k : str) (v : value) (d : dict) :
  In k ks -> truthy v = true -> tidy ks d -> tidy ks (dict_set k v d).
Proof.
  intros Hk Hv (ND & Hincl & Hall). unfold tidy. rewrite dict_set_keys.
  split; [|split; [|now apply dict_set_values]].
  - destruct (dict_has k d) eqn:E; [exact ND|].
    apply NoDup_app; [exact ND | constructor; [intros []|constructor] |].
    intros a Ha [<-|[]]. apply dict_has_in_keys in Ha. congruence.
  - destruct (dict_has k d); [exact Hincl|].
    intros a Ha. apply in_app_or in Ha as [Ha|[<-|[]]]; auto.
Qed.

Lemma attr_value_truthy (a : attr_value) :
  attr_truthy (Some a) = true -> truthy (value_of_attr a) = true.
Proof.
  destruct a as [[|c s]|[|x l]]; cbn; congruence.
Qed.

Lemma heuristic_item_tidy (element : node) :
  tidy heuristic_fields (_heuristically_extract_item element).
Proof.
  assert (tidy heuristic_fields []) as T0
    by (repeat split; [constructor | intros a [] | constructor]).
  assert (forall d, tidy heuristic_fields d ->
                    tidy heuristic_fields (image_field element d)) as H1.
  { intros d T. unfold image_field.
    destruct (find_tag _ _); [|exact T].
    destruct (attr_or _ _) as [src|]; [|exact T].
    destruct (attr_truthy (Some src)) eqn:E; [|exact T].
    destruct (Nat.ltb _ _); [|exact T]. cbn [andb].
    apply tidy_set; [cbn; tauto | now apply attr_value_truthy | exact T]. }
  assert (forall d, tidy heuristic_fields d ->
                    tidy heuristic_fields (link_fields element d)) as H2.
  { intros d T. unfold link_fields.
    destruct (find_tag _ _) as [a_tag|]; [|exact T].
    assert (tidy heuristic_fields
              match tag_get (lit "href") a_tag with
              | Some href =>
                  if attr_truthy (Some href)
                  then dict_set (lit "link") (value_of_attr href) d
                  else d
              | None => d
              end) as Tl.
    { destruct (tag_get _ _) as [href|]; [|exact T].
      destruct (attr_truthy (Some href)) eqn:E; [|exact T].
      apply tidy_set; [cbn; tauto | now apply attr_value_truthy | exact T]. }
    destruct (Nat.ltb 3 _) eqn:L; [|exact Tl].
    apply tidy_set; [cbn; tauto | | exact Tl].
    apply Nat.ltb_lt in L. destruct (get_text [] true a_tag); [cbn in L; lia|].
    reflexivity. }
  assert (forall d, tidy heuristic_fields d ->
                    tidy heuristic_fields (title_field element d)) as H3.
  { intros d T. unfold title_field.
    destruct (dict_has _ _); [exact T|].
    destruct (heading_title headings element) as [text|] eqn:Ht; [|exact T].
    apply tidy_set; [cbn; tauto | | exact T].
    clear -Ht. induction headings as [|h hs IH]; cbn [heading_title] in Ht;
      [discriminate|].
    destruct (find_tag h element) as [h_tag|]; [|now apply IH].
    destruct (get_text [] true h_tag) as [|c t]; [now apply IH|].
    now injection Ht as <-. }
  unfold _heuristically_extract_item.
  specialize (H3 _ (H2 _ (H1 _ T0))).
  set (data := title_field element (link_fields element (image_field element [])))
    in *.
  pose proof (price_value_shape element) as Hp.
  unfold _heuristically_extract_item in Hp. fold data in Hp.
  unfold price_field in *.
  destruct (search price_pattern (get_text [32%N] true element)) as [m|];
    [|exact H3].
  apply tidy_set; [cbn; tauto | | exact H3].
  destruct (Hp _ (dict_get_set_same _ _ _))
    as (pre & cs & sep & d1 & d2 & post & _ & Hne & _ & _ & _ & _ & [= ->]).
  destruct cs; [congruence | reflexivity].
Qed.

(** X10. A heuristic item holds at most the four fields image, link,
    title and price, each once, and every value it holds is truthy; so
    the test [any(item_data.values())] of list detection drops the items
    without any field and no others. *)
Theorem heuristic_item_fields :
  forall element : node,
    NoDup (List.map fst (_heuristically_extract_item element)) /\
    incl (List.map fst (_heuristically_extract_item element)) heuristic_fields /\
    (List.length (_heuristically_extract_item element) <= 4)%nat /\
    Forall (fun kv => truthy (snd kv) = true)
           (_heuristically_extract_item element) /\
    (any_values (_heuristically_extract_item element) = true <->
     _heuristically_extract_item element <> []).
Proof.
  intro element.
  destruct (heuristic_item_tidy element) as (ND & Hincl & Hall).
  repeat split; try assumption.
  - rewrite <- (length_map fst).
    apply (NoDup_incl_length ND Hincl).
  - intros H E. rewrite E in H. discriminate.
  - intro Hne. destruct (_heuristically_extract_item element) as [|kv d];
      [congruence|].
    inversion Hall as [|x l Hx _]; subst. cbn [any_values existsb].
    now rewrite Hx.
Qed.

(** ** Where a detected list comes from *)

Lemma fold_left_invariant {A B : Type} (P : A -> Prop) (f : A -> B -> A)
  (l : list B) (init : A) :
  P init -> (forall acc x, In x l -> P acc -> P (f acc x)) ->
  P (fold_left f l init).
Proof.
  revert init. induction l as [|x l IH]; intros init H0 Hstep; cbn; [exact H0|].
  apply IH; [apply Hstep; [now left | exact H0]|].
  intros acc y Hy. apply Hstep. now right.
Qed.

Lemma add_to_group_in (sig : str) (element : node)
  (class_counts : list (str * list node)) (s : str) (els : list node) :
  In (s, els) (add_to_group sig element class_counts) ->
  In (s, els) class_counts \/
  (s = sig /\ exists old, els = old ++ [element] /\
                          (old = [] \/ In (s, old) class_counts)).
Proof.
  induction class_counts as [|[s0 els0] rest IH]; cbn [add_to_group].
  - intros [[= <- <-]|[]]. right. split; [reflexivity|]. exists []. auto.
  - destruct (str_eqb sig s0) eqn:E.
    + apply StateManagerFacts.str_eqb_eq in E. subst s0.
      intros [[= <- <-]|Hin]; [|left; now right].
      right. split; [reflexivity|]. exists els0. split; [reflexivity|].
      right. now left.
    + intros [[= <- <-]|Hin]; [left; now left|].
      destruct (IH Hin) as [H|(-> & old & -> & [->|H])].
      * left. now right.
      * right. split; [reflexivity|]. exists []. auto.
      * right. split; [reflexivity|]. exists old. split; [reflexivity|].
        right. now right.
Qed.

(** Every group holds elements of the document with the signature of the
    group. *)
Lemma groups_share_signature (soup : node) :
  forall sig els,
    In (sig, els) (group_by_class soup) ->
    Forall (has_signature soup sig) els.
Proof.
  unfold group_by_class.
  apply (fold_left_invariant
           (fun cc => forall sig els, In (sig, els) cc ->
                                      Forall (has_signature soup sig) els)).
  - intros sig els [].
  - intros cc tag_name _ Hcc.
    apply (fold_left_invariant
             (fun cc => forall sig els, In (sig, els) cc ->
                                        Forall (has_signature soup sig) els));
      [exact Hcc|].
    intros acc element Hel Hacc sig els Hin.
    destruct (tag_get (lit "class") element) as [classes|] eqn:Hc;
      [|now apply Hacc].
    destruct (attr_truthy (Some classes)); [|now apply Hacc].
    apply add_to_group_in in Hin as [Hin|(-> & old & -> & Hold)];
      [now apply Hacc|].
    apply Forall_app. split.
    + destruct Hold as [->|Hold]; [constructor | now apply Hacc].
    + constructor; [|constructor]. split.
      * unfold find_all in Hel. now apply filter_In in Hel.
      * now exists classes.
Qed.

(** X11. A list returned by automatic list detection comes whole from one
    group: at least three elements of the document that share a class
    signature, accepted by the sample test; the list holds the heuristic
    items of all elements of the group that have a field, in the order of
    the group, and is not empty.  A document without three container elements
    of one signature therefore yields no list. *)
Theorem detected_list_comes_from_one_group :
  forall (soup : node) (items : list dict),
    _detect_and_extract_list soup = Some items ->
    exists sig elements,
      In (sig, elements) (group_by_class soup) /\
      Forall (has_signature soup sig) elements /\
      (3 <= List.length elements)%nat /\
      sample_looks_good elements = true /\
      items = filter any_values
                (List.map _heuristically_extract_item elements) /\
      items <> [].
Proof.
  intros soup items H. unfold _detect_and_extract_list in H.
  set (candidates := List.map snd
         (filter (fun e => Nat.leb 3 (List.length (snd e)))
                 (group_by_class soup))) in H.
  match type of H with
  | context [fold_left ?f candidates ?i] =>
      remember (fold_left f candidates i) as st eqn:F
  end.
  assert (fst st = [] \/
          exists elements,
            In elements candidates /\ sample_looks_good elements = true /\
            fst st = filter any_values
                       (List.map _heuristically_extract_item elements)) as Inv.
  { subst st.
    apply (fold_left_invariant
             (fun st => fst st = [] \/
                exists elements,
                  In elements candidates /\ sample_looks_good elements = true /\
                  fst st = filter any_values
                             (List.map _heuristically_extract_item elements))).
    - now left.
    - intros [best mx] elements Hin IH. cbn beta iota.
      unfold score_candidate.
      destruct (sample_looks_good elements) eqn:Acc.
      + destruct (filter any_values _) as [|d ds] eqn:F.
        * destruct (PrimFloat.ltb mx f0); [now left | exact IH].
        * destruct (PrimFloat.ltb mx _); [|exact IH].
          right. exists elements. now rewrite F.
      + destruct (PrimFloat.ltb mx f0); [now left | exact IH]. }
  clear F. destruct st as [best mx]. cbn [fst] in Inv.
  destruct best as [|d ds]; [discriminate H|]. injection H as <-.
  destruct Inv as [Hnil|(elements & Hin & Acc & Hbest)]; [discriminate Hnil|].
  unfold candidates in Hin. apply in_map_iff in Hin as ([sig els] & <- & Hin).
  apply filter_In in Hin as [Hin Hlen]. cbn [snd] in *.
  exists sig, els. repeat split; try assumption.
  - now apply groups_share_signature.
  - now apply Nat.leb_le.
  - discriminate.
Qed.

Lemma detected_list_comes_from_one_group_witness :
  let soup :=
    Fixtures.document
      [Fixtures.card (lit "/p/1") (lit "Product one");
       Fixtures.card (lit "/p/2") (lit "Product two");
       Fixtures.card (lit "/p/3") (lit "Product three")] in
  let items :=
    List.map _heuristically_extract_item
      [Fixtures.card (lit "/p/1") (lit "Product one");
       Fixtures.card (lit "/p/2") (lit "Product two");
       Fixtures.card (lit "/p/3") (lit "Product three")] in
  _detect_and_extract_list soup = Some items /\
  exists sig elements,
    In (sig, elements) (group_by_class soup) /\
    Forall (has_signature soup sig) elements /\
    (3 <= List.length elements)%nat /\
    sample_looks_good elements = true /\
    items = filter any_values
              (List.map _heuristically_extract_item elements) /\
    items <> [].
Proof.
  intros soup items.
  assert (_detect_and_extract_list soup = Some items) as H
    by (vm_compute; reflexivity).
  split; [exact H|].
  exact (detected_list_comes_from_one_group soup items H).
Defined.
End ExtractorMore.

Module ExtractMore.
Import Extractor ExtractorFacts ExtractorMore.

Lemma dict_has_set (k f : str) (v : value) (d : dict) :
  dict_has k (dict_set f v d) = str_eqb k f || dict_has k d.
Proof.
  unfold dict_has. destruct (str_eqb k f) eqn:E.
  - apply StateManagerFacts.str_eqb_eq in E. subst.
    now rewrite dict_get_set_same.
  - now rewrite dict_get_set_other.
Qed.

Section WithLibraries.
Context {libs : Libraries}.

Lemma _extract_fields_ok (element : node) (sel : dict) :
  _extract_fields element (VDict sel) = Ok (fields_of element sel).
Proof. reflexivity. Qed.

(** X12. With a mapping of selectors [_extract_fields] never raises, and a
    field is in its result exactly when a selector configured for it
    matches an element; a selector that raises or matches nothing just
    leaves its field out. *)
Theorem configured_field_present_iff :
  forall (element : node) (sel : dict) (k : str),
    _extract_fields element (VDict sel) = Ok (fields_of element sel) /\
    (dict_has k (fields_of element sel) = true <->
     exists selector target rest,
       In (k, selector) sel /\ select selector element = Ok (target :: rest)).
Proof.
  intros element sel k. split; [reflexivity|].
  unfold fields_of, _extract_fields.
  assert (forall acc,
    dict_has k
      (fold_left
         (fun data '(field_name, selector) =>
            match select selector element with
            | Ok (target :: _) =>
                let lower_field := lower field_name in
                if is_one_of [lit "link"; lit "url"; lit "href"] lower_field then
                  dict_set field_name
                    (attr_or_else (lit "href") target (text_value target)) data
                else if is_one_of [lit "image"; lit "img"; lit "src";
                                   lit "thumbnail"] lower_field then
                  dict_set field_name
                    (attr_or_else (lit "src") target
                       (attr_or_else (lit "data-src") target
                          (text_value target))) data
                else dict_set field_name (text_value target) data
            | _ => data
            end) sel acc) = true <->
    dict_has k acc = true \/
    exists selector target rest,
      In (k, selector) sel /\ select selector element = Ok (target :: rest))
    as G.
  { induction sel as [|[f s] sel IH]; intro acc; cbn [fold_left].
    - split; [now left | intros [H|(s & t & r & [] & _)]; exact H].
    - rewrite IH. clear IH.
      assert (forall data v,
                dict_has k (dict_set f v data) = true <->
                dict_has k data = true \/ k = f) as Hset.
      { intros data v. rewrite dict_has_set, orb_true_iff,
          StateManagerFacts.str_eqb_eq. tauto. }
      split.
      + intros [H|(s' & t & r & Hin & Hs)].
        * destruct (select s element) as [[|target rest]|e] eqn:Sel;
            try (now left).
          cbv zeta in H.
          destruct (is_one_of _ (lower f));
            [|destruct (is_one_of _ (lower f))];
            apply Hset in H as [H| ->]; try (now left);
            right; exists s, target, rest; split; auto; now left.
        * right. exists s', t, r. split; [now right | exact Hs].
      + intros [H|(s' & t & r & [[= -> ->]|Hin] & Hs)].
        * left. destruct (select s element) as [[|target rest]|e]; try exact H.
          cbv zeta.
          destruct (is_one_of _ (lower f));
            [|destruct (is_one_of _ (lower f))]; apply Hset; now left.
        * left. rewrite Hs. cbv zeta.
          destruct (is_one_of _ (lower k));
            [|destruct (is_one_of _ (lower k))]; apply Hset; now right.
        * right. now exists s', t, r. }
  rewrite G. split; [intros [H|H]; [discriminate H | exact H] | now right].
Qed.

Lemma extract_containers_eq (containers : list node) (sel : dict) :
  extract_containers containers (VDict sel) =
  Ok (List.map VDict
        (filter any_values
                (List.map (fun element => fields_of element sel) containers))).
Proof.
  induction containers as [|element rest IH]; cbn [extract_containers];
    [reflexivity|].
  rewrite _extract_fields_ok, IH. cbn [List.map filter].
  now destruct (any_values (fields_of element sel)).
Qed.

(** X13. Configured extraction with a container: when the container
    selector matches, [extract] returns one item per matched container
    whose fields hold at least one truthy value, in the order of the
    containers, provided there is such a container; list detection and
    the smart fallback are then not attempted. *)
Theorem configured_containers_give_their_items :
  forall (html : str) (config sel : dict) (containers : list node)
         (logged : list event),
    html <> [] ->
    py_or (get (lit "selectors") config) (get (lit "fields") config)
      = VDict sel ->
    sel <> [] ->
    truthy (get (lit "container") config) = true ->
    select (get (lit "container") config) (BeautifulSoup html) = Ok containers ->
    filter any_values
      (List.map (fun element => fields_of element sel) containers) <> [] ->
    extract (VStr html) (VDict config) logged =
    (Ok (VList (List.map VDict
                  (filter any_values
                     (List.map (fun element => fields_of element sel)
                               containers)))),
     logged ++
     [AttemptSelectors;
      ExtractedItems
        (List.length
           (filter any_values
              (List.map (fun element => fields_of element sel) containers)))]).
Proof.
  intros html config sel containers logged Hhtml Hsel Hne Hc Hsl Hitems.
  destruct html as [|ch html]; [congruence|].
  destruct config as [|kv config]; [discriminate Hsel|].
  destruct sel as [|s0 sel]; [congruence|].
  unfold extract. cbn [truthy negb py_or].
  rewrite Hsel. cbn [truthy].
  unfold bind, log, modify, ret, lift, _extract_with_selectors.
  rewrite Hc, Hsl, extract_containers_eq.
  destruct (filter any_values _) as [|d ds]; [congruence|].
  cbn [List.map truthy List.length]. rewrite <- app_assoc, length_map.
  reflexivity.
Qed.

Lemma smart_content_value (html : str) (soup : node) (l1 l2 : list event) :
  fst (_extract_smart_content html soup l1)
  = fst (_extract_smart_content html soup l2).
Proof.
  unfold _extract_smart_content, bind, ret, raise, log, modify.
  destruct (match find_with_attr _ _ _ soup with
            | Some m => Some m
            | None => find_with_attr _ _ _ soup
            end) as [m|].
  - destruct (tag_get (lit "content") m) as [[c|l]|]; try reflexivity.
    + destruct (trafilatura_extract html) as [[[|c0 mc]|]|e];
        try reflexivity; destruct (body_text soup); reflexivity.
    + destruct (trafilatura_extract html) as [[[|c0 mc]|]|e];
        try reflexivity; destruct (body_text soup); reflexivity.
  - destruct (trafilatura_extract html) as [[[|c0 mc]|]|e];
      try reflexivity; destruct (body_text soup); reflexivity.
Qed.

Lemma lower_layers_value (html : str) (soup : node) (l1 l2 : list event) :
  fst (lower_layers html soup l1) = fst (lower_layers html soup l2).
Proof.
  unfold lower_layers, bind, ret, log, modify.
  destruct (_detect_and_extract_list soup); [reflexivity|].
  apply smart_content_value.
Qed.

Lemma extract_without_config (c : N) (html : str) (logged : list event) :
  extract (VStr (c :: html)) VNone logged
  = lower_layers (c :: html) (BeautifulSoup (c :: html)) logged.
Proof. reflexivity. Qed.

(** X14. When the configured selectors yield no data (they give an empty
    list, or a mapping without any truthy value), [extract] does not
    return that empty result: it goes on to list detection and the smart
    fallback, and returns what it returns for the same HTML without any
    configuration. *)
Theorem selectors_without_data_fall_through :
  forall (html : str) (config : dict) (logged : list event),
    html <> [] ->
    yields_nothing (BeautifulSoup html) config ->
    fst (extract (VStr html) (VDict config) logged)
    = fst (extract (VStr html) VNone logged).
Proof.
  intros html config logged Hhtml Hnothing.
  destruct html as [|c html]; [congruence|].
  rewrite extract_without_config.
  assert (exists logged',
            extract (VStr (c :: html)) (VDict config) logged
            = lower_layers (c :: html) (BeautifulSoup (c :: html)) logged')
    as (logged' & ->).
  { unfold yields_nothing in Hnothing. cbv zeta in Hnothing.
    unfold extract. cbn [truthy negb].
    assert (py_or (VDict config) (VDict []) = VDict config
            \/ config = []) as [-> | ->].
    { destruct config; [now right | now left]. }
    - destruct (truthy (py_or (get (lit "selectors") config)
                              (get (lit "fields") config))) eqn:T.
      + destruct (Hnothing eq_refl) as (result & Hres & Hshape).
        unfold bind at 1. unfold bind at 1. unfold log at 1, modify at 1.
        unfold bind at 1. unfold lift at 1. rewrite Hres.
        destruct result as [| | | |l|d]; try contradiction.
        * subst l. cbn [truthy]. eexists. reflexivity.
        * destruct d as [|kv d]; [eexists; reflexivity|].
          cbn [truthy]. rewrite Hshape. eexists. reflexivity.
      + eexists. reflexivity.
    - eexists. reflexivity. }
  apply lower_layers_value.
Qed.

Lemma detected_list_nonempty (soup : node) (items : list dict) :
  _detect_and_extract_list soup = Some items -> items <> [].
Proof.
  unfold _detect_and_extract_list.
  destruct (fold_left _ _ _) as [[|d ds] mx]; [discriminate|].
  intros H. injection H as <-. discriminate.
Qed.

Lemma extract_containers_mappings (containers : list node) (selectors : value)
  (items : list value) :
  extract_containers containers selectors = Ok items ->
  Forall (fun item => exists d, item = VDict d) items.
Proof.
  revert items. induction containers as [|element rest IH]; intros items H.
  - injection H as <-. constructor.
  - cbn [extract_containers] in H.
    destruct (_extract_fields element selectors) as [data|e]; [|discriminate H].
    destruct (extract_containers rest selectors) as [l|e]; [|discriminate H].
    injection H as <-. specialize (IH l eq_refl).
    destruct (any_values data); [|exact IH].
    constructor; [now exists data | exact IH].
Qed.

Lemma smart_content_shape (html : str) (soup : node) (logged : list event) :
  match fst (_extract_smart_content html soup logged) with
  | Ok (VDict d) =>
      dict_get (lit "extraction_type") d = Some (VStr (lit "smart_fallback"))
  | Ok _ => False
  | Raise e => e = AttributeError
  end.
Proof.
  unfold _extract_smart_content, bind, ret, raise, log, modify.
  destruct (match find_with_attr _ _ _ soup with
            | Some m => Some m
            | None => find_with_attr _ _ _ soup
            end) as [m|].
  - destruct (tag_get (lit "content") m) as [[c|l]|]; [| reflexivity |];
      destruct (trafilatura_extract html) as [[[|c0 mc]|]|e];
      try destruct (body_text soup); cbn [fst];
      apply dict_get_set_same.
  - destruct (trafilatura_extract html) as [[[|c0 mc]|]|e];
      try destruct (body_text soup); cbn [fst];
      apply dict_get_set_same.
Qed.

(** X15. What [extract] returns is never an empty list and never a bare
    value: it is a mapping, or a non-empty list of mappings.  The only
    exceptions it lets out are an [AttributeError] (selectors that are
    no mapping, a list-valued meta content) and what the selector engine
    raises for the container. *)
Theorem extract_returns_mapping_or_nonempty_list :
  forall (html : str) (config : dict) (logged : list event),
    match fst (extract (VStr html) (VDict config) logged) with
    | Ok (VDict _) => True
    | Ok (VList l) => l <> [] /\ Forall (fun item => exists d, item = VDict d) l
    | Ok _ => False
    | Raise e =>
        e = AttributeError \/
        select (get (lit "container") config) (BeautifulSoup html) = Raise e
    end.
Proof.
  intros html config logged.
  destruct html as [|c html]; [exact I|].
  assert (forall l,
    match fst (lower_layers (c :: html) (BeautifulSoup (c :: html)) l) with
    | Ok (VDict _) => True
    | Ok (VList l) => l <> [] /\ Forall (fun item => exists d, item = VDict d) l
    | Ok _ => False
    | Raise e =>
        e = AttributeError \/
        select (get (lit "container") config) (BeautifulSoup (c :: html))
          = Raise e
    end) as Lower.
  { intros l. unfold lower_layers, bind, ret, log, modify.
    destruct (_detect_and_extract_list _) as [items|] eqn:D.
    - cbn [fst]. apply detected_list_nonempty in D. split.
      + destruct items; [congruence | discriminate].
      + apply Forall_forall. intros item Hin.
        apply in_map_iff in Hin as (d & <- & _). now exists d.
    - pose proof (smart_content_shape (c :: html) (BeautifulSoup (c :: html))
                    (l ++ [AttemptListDetection] ++ [FallingBack])) as S.
      rewrite app_assoc in S.
      destruct (fst (_extract_smart_content _ _ _)) as [[| | | | |d]|e];
        try contradiction; [exact I | now left]. }
  unfold extract. cbn [truthy negb].
  assert (py_or (VDict config) (VDict []) = VDict config \/ config = [])
    as [-> | ->] by (destruct config; [now right | now left]);
    [|apply (Lower logged)].
  destruct (truthy (py_or (get (lit "selectors") config)
                          (get (lit "fields") config))) eqn:T;
    [|apply (Lower logged)].
  unfold bind at 1. unfold bind at 1. unfold log at 1, modify at 1.
  unfold bind at 1. unfold lift at 1.
  destruct (_extract_with_selectors _ _ _) as [result|e] eqn:R.
  - unfold _extract_with_selectors in R.
    destruct (truthy (get (lit "container") config)).
    + destruct (select _ _) as [containers|e]; [|discriminate R].
      destruct (extract_containers _ _) as [items|e] eqn:E; [|discriminate R].
      injection R as <-. apply extract_containers_mappings in E.
      destruct items as [|i items]; [apply Lower|].
      cbn [truthy fst]. unfold bind, log, modify, ret. cbn [fst].
      split; [discriminate | exact E].
    + destruct (_extract_fields _ _) as [data|e]; [|discriminate R].
      injection R as <-.
      destruct data as [|kv data]; [apply Lower|]. cbn [truthy].
      destruct (any_values (kv :: data)); [exact I | apply Lower].
  - cbn [fst]. unfold _extract_with_selectors in R.
    destruct (truthy (get (lit "container") config)).
    + destruct (select _ _) as [containers|e']; [|right; congruence].
      destruct (extract_containers _ _) as [items|e'] eqn:E; [discriminate R|].
      left. injection R as <-. clear -E.
      induction containers as [|element rest IH]; [discriminate E|].
      cbn [extract_containers] in E.
      destruct (_extract_fields element _) as [data|e''] eqn:F.
      * destruct (extract_containers rest _); [discriminate E|].
        injection E as <-. now apply IH.
      * injection E as <-. unfold _extract_fields in F.
        destruct (py_or _ _); congruence.
    + destruct (_extract_fields _ _) as [data|e'] eqn:F; [discriminate R|].
      left. injection R as <-. unfold _extract_fields in F.
      destruct (py_or _ _); congruence.
Qed.

Lemma body_text_capped (soup : node) (text : str) :
  body_text soup = Some (VStr text) -> (List.length text <= 5000)%nat.
Proof.
  unfold body_text. destruct (find_tag (lit "body") soup) as [body|];
    [|discriminate].
  intros H. injection H as <-. exact (firstn_le_length 5000 _).
Qed.

(** The content of the smart fallback: what trafilatura finds, else what
    [body_text] gives. *)
Lemma smart_content_content (html : str) (soup : node) (logged : list event)
  (d : dict) :
  fst (_extract_smart_content html soup logged) = Ok (VDict d) ->
  dict_get (lit "content") d =
  match trafilatura_extract html with
  | Ok (Some (c :: main_content)) => Some (VStr (c :: main_content))
  | _ => body_text soup
  end.
Proof.
  unfold _extract_smart_content, bind, ret, raise, log, modify.
  generalize (body_text soup) as body. intros body.
  assert (forall v (results : dict),
            dict_get (lit "content")
              (dict_set (lit "extraction_type") (VStr (lit "smart_fallback"))
                 (dict_set (lit "content") v results)) = Some v) as Main.
  { intros v results.
    rewrite dict_get_set_other by (vm_compute; reflexivity).
    apply dict_get_set_same. }
  assert (forall (results : dict),
            dict_get (lit "content") results = None ->
            dict_get (lit "content")
              (dict_set (lit "extraction_type") (VStr (lit "smart_fallback"))
                 results) = None) as Absent
    by (intros results Hn;
        rewrite dict_get_set_other by (vm_compute; reflexivity); exact Hn).
  assert (forall v (results : dict),
            dict_get (lit "content") results = None ->
            dict_get (lit "content") (dict_set (lit "description") v results)
            = None) as Desc
    by (intros v results Hn;
        rewrite dict_get_set_other by (vm_compute; reflexivity); exact Hn).
  assert (dict_get (lit "content")
            (match find_tag (lit "title") soup with
             | Some title =>
                 dict_set (lit "title") (VStr (get_text [] true title)) []
             | None => []
             end) = None) as Title
    by (destruct (find_tag (lit "title") soup); reflexivity).
  destruct (match find_with_attr _ _ _ soup with
            | Some m => Some m
            | None => find_with_attr _ _ _ soup
            end) as [m|].
  - destruct (tag_get (lit "content") m) as [[c|l]|]; [| discriminate |];
      destruct (trafilatura_extract html) as [[[|c0 mc]|]|e];
      destruct body as [v|]; cbn [fst];
      intros R; injection R as <-;
      first [apply Main | apply Absent, Desc, Title].
  - destruct (trafilatura_extract html) as [[[|c0 mc]|]|e];
      destruct body as [v|]; cbn [fst];
      intros R; injection R as <-;
      first [apply Main | apply Absent, Title].
Qed.

(** X16. The smart fallback always tags its result: whatever the page
    holds, a result of [_extract_smart_content] is a mapping whose
    [extraction_type] is ['smart_fallback'].  Its [content] is the main
    content trafilatura finds; when trafilatura finds none, or raises, it
    is the first 5000 characters of the text of the body (its strings
    stripped and joined by newlines), and is absent when the document has
    no body. *)
Theorem smart_content_is_tagged_and_capped :
  forall (html : str) (soup : node) (logged : list event),
    match fst (_extract_smart_content html soup logged) with
    | Ok (VDict d) =>
        dict_get (lit "extraction_type") d
          = Some (VStr (lit "smart_fallback")) /\
        dict_get (lit "content") d =
          match trafilatura_extract html with
          | Ok (Some (c :: main_content)) => Some (VStr (c :: main_content))
          | _ =>
              match find_tag (lit "body") soup with
              | Some body =>
                  Some (VStr (firstn 5000 (get_text [10%N] true body)))
              | None => None
              end
          end /\
        (forall text,
           trafilatura_extract html = Ok None \/
           trafilatura_extract html = Ok (Some []) \/
           (exists e, trafilatura_extract html = Raise e) ->
           dict_get (lit "content") d = Some (VStr text) ->
           (List.length text <= 5000)%nat)
    | Ok _ => False
    | Raise e => e = AttributeError
    end.
Proof.
  intros html soup logged.
  pose proof (smart_content_shape html soup logged) as S.
  pose proof (smart_content_content html soup logged) as C.
  destruct (fst (_extract_smart_content html soup logged))
    as [[| | | | |d]|e]; try contradiction; [|exact S].
  specialize (C d eq_refl).
  split; [exact S|]. split; [exact C|].
  intros text Htraf Htext. apply (body_text_capped soup).
  rewrite <- Htext, C.
  destruct Htraf as [E | [E | [e E]]]; now rewrite E.
Qed.
End WithLibraries.

Lemma configured_containers_give_their_items_witness :
  @extract Fixtures.selecting_libraries (VStr (lit "<html>"))
    (VDict Fixtures.card_links) []
  = (Ok (VList [VDict [(lit "link", VStr (lit "/p/1"))];
                VDict [(lit "link", VStr (lit "/p/2"))];
                VDict [(lit "link", VStr (lit "/p/3"))]]),
     [AttemptSelectors; ExtractedItems 3]).
Proof.
  pose (libs := Fixtures.selecting_libraries).
  pose (containers := Fixtures.three_of_five).
  pose (sel := [(lit "link", VStr (lit "a"))] : dict).
  assert (lit "<html>" <> []) as H1 by (vm_compute; discriminate).
  assert (py_or (get (lit "selectors") Fixtures.card_links)
                (get (lit "fields") Fixtures.card_links) = VDict sel) as H2
    by (vm_compute; reflexivity).
  assert (sel <> []) as H3 by discriminate.
  assert (truthy (get (lit "container") Fixtures.card_links) = true) as H4
    by (vm_compute; reflexivity).
  assert (@select libs (get (lit "container") Fixtures.card_links)
            (@BeautifulSoup libs (lit "<html>")) = Ok containers) as H5
    by (vm_compute; reflexivity).
  assert (filter any_values
            (List.map (fun element => @fields_of libs element sel) containers)
          <> []) as H6 by (vm_compute; discriminate).
  pose proof (@configured_containers_give_their_items libs (lit "<html>")
                Fixtures.card_links sel containers [] H1 H2 H3 H4 H5 H6) as W.
  vm_compute in W. vm_compute. exact W.
Defined.

Lemma selectors_without_data_fall_through_witness :
  fst (@extract Fixtures.selecting_libraries (VStr (lit "<html>"))
         (VDict Fixtures.missing_name) [])
  = fst (@extract Fixtures.selecting_libraries (VStr (lit "<html>")) VNone []).
Proof.
  assert (lit "<html>" <> []) as H1 by (vm_compute; discriminate).
  assert (@yields_nothing Fixtures.selecting_libraries
            (@BeautifulSoup Fixtures.selecting_libraries (lit "<html>"))
            Fixtures.missing_name) as H2.
  { intros _. exists (VDict []). split; vm_compute; reflexivity. }
  exact (@selectors_without_data_fall_through Fixtures.selecting_libraries
           (lit "<html>") Fixtures.missing_name [] H1 H2).
Defined.
End ExtractMore.

(** * More on the async scraper *)

Module AsyncScraperMore.
Import StateManager StateManagerFacts AsyncScraper AsyncScraperFacts MonadFacts.
Local Open Scope monad_scope.
#[local] Arguments _hash_url : simpl never.

Section WithCollaborators.
Context {libs : Libraries} {loader : ConfigLoader}.
Context {Pipeline : Type} {env : Environment Pipeline}.

#[local] Abbreviation scraper := (t Pipeline).

(** Settling the configuration reads the configuration only. *)
Lemma resolve_configuration_config url selectors (s s' : scraper) :
  config s = config s' ->
  fst (resolve_configuration url selectors s)
  = fst (resolve_configuration url selectors s').
Proof.
  intros Hc. unfold resolve_configuration, bind, get_state, ret, lift.
  rewrite Hc.
  destruct (if truthy selectors then _ else _) as [sel container].
  destruct (truthy sel); [reflexivity|].
  destruct (get_config_for_url url) as [[|kv loaded]|]; try reflexivity.
  destruct (py_len _); reflexivity.
Qed.

(** A URL with a visit record is skipped, and the scraper stays as it
    is. *)
Lemma scrape_known url selectors (s : scraper) sm sc :
  state_manager s = Some sm ->
  known url (db sm) = true ->
  fst (resolve_configuration url selectors s) = Ok sc ->
  scrape url selectors s = (Ok (skipped url), s).
Proof.
  intros Hsm K Hres. unfold scrape, bind.
  pose proof (resolve_configuration_state url selectors s) as Hst.
  destruct (resolve_configuration url selectors s) as [r s'].
  cbn [fst snd] in Hres, Hst. subst r s'.
  destruct sc as [sel container]. unfold get_state at 1.
  now rewrite Hsm, is_visited_global, K.
Qed.

Section OneCall.
Variables (self : scraper) (url : str).

#[local] Abbreviation kept :=
  (fun (_ : exn) (s : scraper) => after_request self url s).

Lemma fetch_page_after_request :
  triple (eq self) (_fetch_page url)
         (fun _ s => after_request self url s) kept.
Proof.
  intros s <-. unfold _fetch_page, bind, modify, lift.
  destruct (http_get url); repeat split.
Qed.

Lemma add_result_after_request (item : value) :
  triple (after_request self url) (add_result item)
         (fun _ s => after_request self url s) kept.
Proof.
  intros s (Hc & Hr & Hs). unfold add_result, bind, get_state.
  destruct (process_item item (pipeline_manager s)) as [[item' [k|e]] p'];
    unfold put_state, ret, raise; repeat split; assumption.
Qed.

Lemma add_results_after_request (items : list value) :
  triple (after_request self url) (add_results items)
         (fun _ s => after_request self url s) kept.
Proof.
  induction items as [|item rest IH]; cbn [add_results].
  - now apply triple_ret.
  - eapply triple_bind; [apply add_result_after_request|].
    intros item'. eapply triple_bind; [exact IH|].
    intros rest'. now apply triple_ret.
Qed.

Lemma on_state_manager_after_request {A} (m : str -> M StateManager.t A)
  (sm : StateManager.t) (s : scraper) :
  after_request self url s ->
  state_manager s = Some sm ->
  after_request self url (snd (on_state_manager m sm s)) /\
  state_manager (snd (on_state_manager m sm s))
  = Some (snd (m (CURRENT_TIMESTAMP (ticks s)) sm)).
Proof.
  intros (Hc & Hr & Hs) Hsm. unfold on_state_manager.
  destruct (m _ sm) as [r sm']. cbn [snd]. repeat split; try assumption.
  rewrite <- Hs. unfold has_state_manager. cbn [state_manager].
  now rewrite Hsm.
Qed.

(** The write of the handler: the URL is marked, whatever was raised. *)
Lemma mark_failed_recorded :
  triple (after_request self url)
         (self' <- get_state ;;
          match state_manager self' with
          | Some sm =>
              on_state_manager
                (fun now => mark_visited now url None (lit "failed")) sm
          | None => ret tt
          end)
         (fun _ s => after_request self url s /\ recorded url s)
         (fun _ _ => False).
Proof.
  intros s AR. unfold bind, get_state.
  destruct (state_manager s) as [sm|] eqn:Hsm.
  - destruct (on_state_manager_after_request
                (fun now => mark_visited now url None (lit "failed")) sm s AR Hsm)
      as [AR' Hsm'].
    unfold on_state_manager in *. rewrite mark_visited_eq in *.
    cbn [snd] in *. split; [exact AR'|].
    intros sm' E. rewrite Hsm' in E. injection E as <-.
    pose proof (known_after_mark (CURRENT_TIMESTAMP (ticks s)) url None
                  (lit "failed") sm) as K.
    now rewrite mark_visited_eq in K.
  - unfold ret. split; [exact AR|]. intros sm' E. congruence.
Qed.

(** The writes of the success path. *)
Lemma mark_success_recorded (data : value) :
  triple (after_request self url)
         (self' <- get_state ;;
          match state_manager self' with
          | Some sm =>
              on_state_manager
                (fun now => mark_visited now url None (lit "success")) sm ;;;
              let save_data :=
                match data with
                | VDict _ => data
                | _ =>
                    match py_len data with
                    | Ok n => VDict [(lit "item_count", VInt (Z.of_nat n));
                                     (lit "type", VStr (lit "list"))]
                    | Raise _ => VNone
                    end
                end in
              self' <- get_state ;;
              match state_manager self' with
              | Some sm =>
                  on_state_manager
                    (fun now => save_item now url save_data None) sm
              | None => ret tt
              end
          | None => ret tt
          end)
         (fun _ s => after_request self url s /\ recorded url s)
         kept.
Proof.
  intros s AR. unfold bind at 1. unfold get_state at 1.
  destruct (state_manager s) as [sm|] eqn:Hsm.
  - destruct (on_state_manager_after_request
                (fun now => mark_visited now url None (lit "success")) sm s AR Hsm)
      as [AR' Hsm'].
    pose proof (known_after_mark (CURRENT_TIMESTAMP (ticks s)) url None
                  (lit "success") sm) as K.
    unfold bind at 1.
    destruct (on_state_manager _ sm s) as [[[]|e] s1] eqn:O1; cbn [snd] in *.
    + unfold bind, get_state. rewrite Hsm'.
      match goal with
      | |- context [on_state_manager ?m ?sm1 s1] =>
          destruct (on_state_manager_after_request m sm1 s1 AR' Hsm')
            as [AR2 Hsm2];
          destruct (on_state_manager m sm1 s1) as [[[]|e] s2] eqn:O2
      end; cbn [snd] in *; [|exact AR2].
      split; [exact AR2|]. intros sm' E. rewrite Hsm2 in E. injection E as <-.
      unfold save_item, bind, get_state, execute, insert_scraped_items.
      cbn [snd db]. exact K.
    + exact AR'.
  - unfold ret. split; [exact AR|]. intros sm' E. congruence.
Qed.

Lemma scrape_body_recorded (selectors container : value) :
  triple (eq self)
    (try_except
      (html <- _fetch_page url ;;
       data <- lift (fst (Extractor.extract (VStr html)
                            (VDict [(lit "selectors", selectors);
                                    (lit "container", container)]) [])) ;;
       data <-
         match data with
         | VList items =>
             items <- lift (annotate_items url items) ;;
             items <- add_results items ;;
             ret (VList items)
         | _ =>
             d1 <- lift (set_item (lit "url") (VStr url) data) ;;
             d2 <- lift (set_item (lit "status") (VStr (lit "success")) d1) ;;
             add_result d2
         end ;;
       (* Mark as visited *)
       self <- get_state ;;
       match state_manager self with
       | Some sm =>
           on_state_manager
             (fun now => StateManager.mark_visited now url None (lit "success"))
             sm ;;;
           let save_data :=
             match data with
             | VDict _ => data
             | _ =>
                 match py_len data with
                 | Ok n => VDict [(lit "item_count", VInt (Z.of_nat n));
                                  (lit "type", VStr (lit "list"))]
                 | Raise _ => VNone
                 end
             end in
           self <- get_state ;;
           match state_manager self with
           | Some sm =>
               on_state_manager
                 (fun now => StateManager.save_item now url save_data None) sm
           | None => ret tt
           end
       | None => ret tt
       end ;;;
       ret data)
      (fun _ => true)
      (fun e =>
         self <- get_state ;;
         match state_manager self with
         | Some sm =>
             on_state_manager
               (fun now => StateManager.mark_visited now url None (lit "failed"))
               sm
         | None => ret tt
         end ;;;
         ret (failed url e)))
    (fun _ s => after_request self url s /\ recorded url s)
    (fun _ _ => False).
Proof.
  assert (forall A (r : res A),
            triple (after_request self url) (lift r)
                   (fun _ s => after_request self url s) kept) as Lift.
  { intros A r. apply triple_lift. intros s AR. now destruct r. }
  eapply triple_try_except with (E' := kept).
  - eapply triple_bind; [apply fetch_page_after_request|]. intros html.
    eapply triple_bind; [apply Lift|]. intros data.
    eapply triple_bind with (R := fun _ s => after_request self url s).
    + destruct data as [| | | |items|d].
      1-4,6: (eapply triple_bind; [apply Lift|]; intros d1;
              eapply triple_bind; [apply Lift|]; intros d2;
              apply add_result_after_request).
      eapply triple_bind; [apply Lift|]. intros items1.
      eapply triple_bind; [apply add_results_after_request|]. intros items2.
      now apply triple_ret.
    + intros data'. apply triple_bind_assoc.
      eapply triple_bind; [apply mark_success_recorded|].
      intros []. now apply triple_ret.
  - intros e. cbn beta iota. apply triple_bind_assoc.
    eapply triple_bind; [apply mark_failed_recorded|].
    intros []. now apply triple_ret.
Qed.

End OneCall.

(** What a call of [scrape] comes to, once the configuration is settled:
    the URL was known and is skipped, or it is requested once and ends
    with a visit record. *)
Lemma scrape_outcome url selectors (self : scraper) sc :
  fst (resolve_configuration url selectors self) = Ok sc ->
  match scrape url selectors self with
  | (Ok v, s) =>
      (v = skipped url /\ s = self /\
       exists sm, state_manager self = Some sm /\ known url (db sm) = true) \/
      (after_request self url s /\ recorded url s)
  | (Raise _, _) => False
  end.
Proof.
  intros Hres. unfold scrape. unfold bind at 1.
  pose proof (resolve_configuration_state url selectors self) as Hst.
  destruct (resolve_configuration url selectors self) as [r s'].
  cbn [fst snd] in Hres, Hst. subst r s'.
  destruct sc as [sel container]. unfold bind at 1. unfold get_state at 1.
  pose proof (scrape_body_recorded self url sel container self eq_refl) as H.
  destruct (state_manager self) as [sm|] eqn:Hsm.
  - rewrite is_visited_global. destruct (known url (db sm)) eqn:K.
    + left. repeat split. now exists sm.
    + revert H. destruct (try_except _ _ _ self) as [[v|e] s]; intros H;
        [right|]; exact H.
  - revert H. destruct (try_except _ _ _ self) as [[v|e] s]; intros H;
      [right|]; exact H.
Qed.

(** X17. For a URL that encodes to UTF-8 and once the configuration is
    settled, [scrape] returns a record whatever the request, the
    extraction or the item pipeline raise: the [try] around them turns
    every exception into the 'failed' record.  The call issues at most one
    request, for the URL itself, and keeps the configuration.  (The calls
    of the state manager before the [try] and in its handler are not
    protected; on a URL that encodes, and a store that executes its
    statements, they return.) *)
Theorem scrape_never_raises :
  forall (url : str) (selectors : value) (self : scraper) (sc : value * value),
    encodes url = true ->
    fst (resolve_configuration url selectors self) = Ok sc ->
    exists v,
      fst (scrape url selectors self) = Ok v /\
      config (snd (scrape url selectors self)) = config self /\
      (requests (snd (scrape url selectors self)) = requests self \/
       requests (snd (scrape url selectors self)) = requests self ++ [url]).
Proof.
  intros url selectors self sc _ Hres.
  pose proof (scrape_outcome url selectors self sc Hres) as H.
  destruct (scrape url selectors self) as [[v|e] s]; [|contradiction].
  exists v. cbn [fst snd].
  destruct H as [(_ & -> & _) | ((Hc & Hr & _) & _)].
  - repeat split. now left.
  - repeat split; [exact Hc | now right].
Qed.

(** X18. A request that fails is recorded and not retried: when the URL
    has no visit record and the request raises, [scrape] returns the
    record with status 'failed' and the text of the exception, adds no
    result, and inserts a visit record of status 'failed' for the URL;
    a second [scrape] of the URL is then skipped without a request. *)
Theorem failed_request_is_recorded_and_not_retried :
  forall (url : str) (selectors : value) (self : scraper)
         (sm : StateManager.t) (sc : value * value) (e : exn),
    state_manager self = Some sm ->
    is_visited url None sm = false ->
    fst (resolve_configuration url selectors self) = Ok sc ->
    http_get url = Raise e ->
    let now := CURRENT_TIMESTAMP (ticks self) in
    let sm' :=
      StateManager.mk
        (mk_database
           (visited_urls (db sm) ++
            [mk_visited_url (_hash_url url) url (session_id sm) now
                            (lit "failed")])
           (sessions (db sm)) (scraped_items (db sm))
           (scraped_items_seq (db sm)))
        (session_id sm) in
    let self' :=
      mk (config self) (Some sm') (results self) (pipeline_manager self)
         (requests self ++ [url]) (S (ticks self)) in
    scrape url selectors self = (Ok (failed url e), self') /\
    scrape url selectors self' = (Ok (skipped url), self').
Proof.
  intros url selectors self sm sc e Hsm Hvis Hres Hget now sm' self'.
  assert (known url (db sm) = false) as K
    by now rewrite <- is_visited_global.
  split.
  - unfold scrape. unfold bind at 1.
    pose proof (resolve_configuration_state url selectors self) as Hst.
    destruct (resolve_configuration url selectors self) as [r s'].
    cbn [fst snd] in Hres, Hst. subst r s'.
    destruct sc as [sel container]. unfold bind at 1. unfold get_state at 1.
    rewrite Hsm, Hvis. unfold try_except, _fetch_page.
    unfold bind at 2. unfold modify at 1. unfold bind at 1. unfold lift at 1.
    rewrite Hget. cbn beta iota.
    unfold bind, get_state. cbn [state_manager]. rewrite Hsm.
    unfold on_state_manager. rewrite mark_visited_eq, K.
    cbn [config results pipeline_manager requests ticks]. unfold ret.
    destruct (session_id sm) as [[|c s]|]; reflexivity.
  - apply (scrape_known url selectors self' sm' sc).
    + reflexivity.
    + unfold known, sm'. cbn [db visited_urls]. rewrite existsb_app.
      cbn [existsb vu_url_hash]. rewrite str_eqb_refl. apply orb_true_r.
    + rewrite <- Hres. now apply resolve_configuration_config.
Qed.

(** X19. With a state manager, for a URL that encodes to UTF-8 and once
    the configuration is settled, a call of [scrape] leaves a visit record
    of the URL behind, whether the page was scraped, the request, the
    extraction or the pipeline failed, or the URL was skipped; so the next
    [scrape] of the URL returns the 'skipped' record and changes
    nothing. *)
Theorem scraped_url_is_skipped_next_time :
  forall (url : str) (selectors : value) (self : scraper)
         (sm : StateManager.t) (sc : value * value),
    encodes url = true ->
    state_manager self = Some sm ->
    fst (resolve_configuration url selectors self) = Ok sc ->
    let self' := snd (scrape url selectors self) in
    (exists sm', state_manager self' = Some sm' /\
                 is_visited url None sm' = true) /\
    scrape url selectors self' = (Ok (skipped url), self').
Proof.
  intros url selectors self sm sc _ Hsm Hres self'.
  pose proof (scrape_outcome url selectors self sc Hres) as H.
  subst self'. destruct (scrape url selectors self) as [[v|e] s];
    [|contradiction]. cbn [snd].
  assert (exists sm', state_manager s = Some sm' /\ known url (db sm') = true)
    as (sm' & Hsm' & K).
  { destruct H as [(_ & -> & sm0 & H0 & K0) | ((Hc & Hr & Hh) & Hrec)].
    - now exists sm0.
    - unfold has_state_manager in Hh. rewrite Hsm in Hh.
      destruct (state_manager s) as [sm'|] eqn:E; [|discriminate Hh].
      exists sm'. split; [reflexivity | now apply Hrec]. }
  split.
  - exists sm'. split; [exact Hsm'|]. now rewrite is_visited_global.
  - apply (scrape_known url selectors s sm' sc Hsm' K).
    rewrite <- Hres. apply resolve_configuration_config.
    destruct H as [(_ & -> & _) | ((Hc & _) & _)]; [reflexivity | exact Hc].
Qed.

(** X20. With pagination of type next_button (also the default when no
    type is given), [_find_next_page] requests the current page once more
    and never raises: a failed request, a selector the engine rejects or a
    list-valued href give no next page.  A next page, when there is one,
    is the non-empty href, joined to the current URL, of the element chosen
    on the page fetched: the first element the configured selector
    matches, or, when no selector is configured or it matches nothing, the
    first link of the page whose text looks like "next" and that has an
    href. *)
Theorem next_button_requests_the_page_again :
  forall (current_url : str) (cfg : pagination_config) (self : scraper),
    pc_type cfg = None \/ pc_type cfg = Some (lit "next_button") ->
    exists next_url,
      _find_next_page current_url cfg self =
      (Ok next_url,
       mk (config self) (state_manager self) (results self)
          (pipeline_manager self) (requests self ++ [current_url])
          (ticks self)) /\
      (next_url = None \/
       exists html el c href,
         http_get current_url = Ok html /\
         ((truthy (pc_selector cfg) = true /\
           exists rest,
             select (pc_selector cfg) (BeautifulSoup html) = Ok (el :: rest)) \/
          ((truthy (pc_selector cfg) = false \/
            select (pc_selector cfg) (BeautifulSoup html) = Ok []) /\
           next_by_text (BeautifulSoup html) = Some el /\
           In el (find_all (lit "a") (BeautifulSoup html)) /\
           looks_like_next (lower (get_text [] true el)) = true)) /\
         tag_get (lit "href") el = Some (AStr (c :: href)) /\
         next_url = Some (urljoin current_url (c :: href))).
Proof.
  intros current_url cfg self Hty.
  assert (_find_next_page current_url cfg self
          = next_by_button current_url cfg self) as ->.
  { unfold _find_next_page. now destruct Hty as [-> | ->]. }
  set (s1 := mk (config self) (state_manager self) (results self)
                (pipeline_manager self) (requests self ++ [current_url])
                (ticks self)).
  set (chosen := fun (html : str) (el : node) =>
         (truthy (pc_selector cfg) = true /\
          exists rest,
            select (pc_selector cfg) (BeautifulSoup html) = Ok (el :: rest)) \/
         ((truthy (pc_selector cfg) = false \/
           select (pc_selector cfg) (BeautifulSoup html) = Ok []) /\
          next_by_text (BeautifulSoup html) = Some el /\
          In el (find_all (lit "a") (BeautifulSoup html)) /\
          looks_like_next (lower (get_text [] true el)) = true)).
  set (shape := fun next_url : option str =>
         next_url = None \/
         exists html el c href,
           http_get current_url = Ok html /\
           chosen html el /\
           tag_get (lit "href") el = Some (AStr (c :: href)) /\
           next_url = Some (urljoin current_url (c :: href))).
  assert (forall html el,
            next_by_text (BeautifulSoup html) = Some el ->
            In el (find_all (lit "a") (BeautifulSoup html)) /\
            looks_like_next (lower (get_text [] true el)) = true) as ByText.
  { intros html el H. unfold next_by_text in H.
    apply find_some in H as [Hin Hp]. apply andb_prop in Hp as [Hp _].
    now split. }
  assert (triple (eq self) (next_by_button current_url cfg)
                 (fun next_url s => s = s1 /\ shape next_url)
                 (fun _ _ => False)) as T.
  { unfold next_by_button.
    eapply triple_try_except with (E' := fun _ s => s = s1).
    - eapply triple_bind with (R := fun html s =>
                                 s = s1 /\ http_get current_url = Ok html).
      + intros s <-. unfold _fetch_page, bind, modify, lift.
        destruct (http_get current_url); [split|]; reflexivity.
      + intros html.
        eapply triple_bind
          with (R := fun next_element s =>
                       s = s1 /\ http_get current_url = Ok html /\
                       match next_element with
                       | Some el =>
                           truthy (pc_selector cfg) = true /\
                           exists rest,
                             select (pc_selector cfg) (BeautifulSoup html)
                             = Ok (el :: rest)
                       | None =>
                           truthy (pc_selector cfg) = false \/
                           select (pc_selector cfg) (BeautifulSoup html) = Ok []
                       end).
        * destruct (truthy (pc_selector cfg)) eqn:Tsel.
          -- eapply triple_bind
               with (R := fun found s =>
                            s = s1 /\ http_get current_url = Ok html /\
                            select (pc_selector cfg) (BeautifulSoup html)
                            = Ok found).
             ++ apply triple_lift. intros s [-> Hget].
                now destruct (select _ _).
             ++ intros found. apply triple_ret. intros s (-> & Hget & Hsel).
                split; [reflexivity|]. split; [exact Hget|].
                destruct found as [|el rest]; cbn [hd_error];
                  [now right | split; [reflexivity | now exists rest]].
          -- apply triple_ret. intros s [-> Hget].
             split; [reflexivity|]. split; [exact Hget | now left].
        * intros next_element.
          assert (forall el,
                    match next_element with
                    | Some el => Some el
                    | None => next_by_text (BeautifulSoup html)
                    end = Some el ->
                    match next_element with
                    | Some el =>
                        truthy (pc_selector cfg) = true /\
                        exists rest,
                          select (pc_selector cfg) (BeautifulSoup html)
                          = Ok (el :: rest)
                    | None =>
                        truthy (pc_selector cfg) = false \/
                        select (pc_selector cfg) (BeautifulSoup html) = Ok []
                    end ->
                    chosen html el) as Chosen.
          { intros el Hel Hne. destruct next_element as [el'|].
            - injection Hel as ->. now left.
            - right. split; [exact Hne|]. split; [exact Hel|].
              now apply ByText. }
          destruct (match next_element with
                    | Some el => Some el
                    | None => next_by_text (BeautifulSoup html)
                    end) as [el|].
          -- destruct (tag_get (lit "href") el) as [[[|c href]|[|c l]]|]
               eqn:Hhref.
             ++ apply triple_ret. intros s [-> _]. split; [reflexivity|now left].
             ++ apply triple_ret. intros s (-> & Hget & Hne).
                split; [reflexivity|].
                right. exists html, el, c, href.
                split; [exact Hget|]. split; [now apply Chosen|]. now split.
             ++ apply triple_ret. intros s [-> _]. split; [reflexivity|now left].
             ++ apply triple_raise. now intros s [-> _].
             ++ apply triple_ret. intros s [-> _]. split; [reflexivity|now left].
          -- apply triple_ret. intros s [-> _]. split; [reflexivity|now left].
    - intros e. cbn beta iota. apply triple_ret.
      intros s ->. split; [reflexivity | now left]. }
  specialize (T self eq_refl).
  destruct (next_by_button current_url cfg self) as [[next_url|e] s];
    [|contradiction].
  destruct T as [-> Hshape]. now exists next_url.
Qed.

End WithCollaborators.

Lemma scrape_never_raises_witness :
  let url := lit "https://x.com/list" in
  let self := Fixtures.new_scraper (Some (__init__ None)) in
  fst (@resolve_configuration Fixtures.no_configuration unit url VNone self)
    = Ok (VDict [], VNone) /\
  exists v,
    fst (@scrape Fixtures.libraries Fixtures.no_configuration unit
           Fixtures.offline url VNone self) = Ok v /\
    config (snd (@scrape Fixtures.libraries Fixtures.no_configuration unit
                   Fixtures.offline url VNone self)) = config self /\
    (requests (snd (@scrape Fixtures.libraries Fixtures.no_configuration unit
                      Fixtures.offline url VNone self)) = requests self \/
     requests (snd (@scrape Fixtures.libraries Fixtures.no_configuration unit
                      Fixtures.offline url VNone self))
     = requests self ++ [url]).
Proof.
  intros url self.
  assert (fst (@resolve_configuration Fixtures.no_configuration unit url
                 VNone self) = Ok (VDict [], VNone)) as H
    by (vm_compute; reflexivity).
  assert (encodes url = true) as E by (vm_compute; reflexivity).
  split; [exact H|].
  exact (@scrape_never_raises Fixtures.libraries Fixtures.no_configuration
           unit Fixtures.offline url VNone self (VDict [], VNone) E H).
Defined.

Lemma failed_request_is_recorded_and_not_retried_witness :
  let url := lit "https://x.com/list" in
  let sm := __init__ None in
  let self := Fixtures.new_scraper (Some sm) in
  let e := OtherError (lit "connection refused") in
  let row :=
    mk_visited_url (_hash_url url) url None (lit "0") (lit "failed") in
  let self' :=
    mk [] (Some (StateManager.mk (mk_database [row] [] [] 0) None)) [] tt
       [url] 1 in
  @scrape Fixtures.libraries Fixtures.no_configuration unit Fixtures.offline
    url VNone self
  = (Ok (@failed Fixtures.libraries url e), self') /\
  @scrape Fixtures.libraries Fixtures.no_configuration unit Fixtures.offline
    url VNone self'
  = (Ok (skipped url), self').
Proof.
  intros url sm self e row self'.
  assert (state_manager self = Some sm) as H1 by reflexivity.
  assert (is_visited url None sm = false) as H2 by (vm_compute; reflexivity).
  assert (fst (@resolve_configuration Fixtures.no_configuration unit url
                 VNone self) = Ok (VDict [], VNone)) as H3
    by (vm_compute; reflexivity).
  assert (@http_get unit Fixtures.offline url = Raise e) as H4 by reflexivity.
  exact (@failed_request_is_recorded_and_not_retried Fixtures.libraries
           Fixtures.no_configuration unit Fixtures.offline url VNone self sm
           (VDict [], VNone) e H1 H2 H3 H4).
Defined.

Lemma scraped_url_is_skipped_next_time_witness :
  let url := lit "https://x.com/list" in
  let sm := __init__ None in
  let self := Fixtures.new_scraper (Some sm) in
  let self' :=
    snd (@scrape Fixtures.libraries Fixtures.no_configuration unit
           Fixtures.network url VNone self) in
  (exists sm', state_manager self' = Some sm' /\
               is_visited url None sm' = true) /\
  @scrape Fixtures.libraries Fixtures.no_configuration unit Fixtures.network
    url VNone self'
  = (Ok (skipped url), self').
Proof.
  intros url sm self.
  assert (state_manager self = Some sm) as H1 by reflexivity.
  assert (fst (@resolve_configuration Fixtures.no_configuration unit url
                 VNone self) = Ok (VDict [], VNone)) as H2
    by (vm_compute; reflexivity).
  assert (encodes url = true) as E by (vm_compute; reflexivity).
  exact (@scraped_url_is_skipped_next_time Fixtures.libraries
           Fixtures.no_configuration unit Fixtures.network url VNone self sm
           (VDict [], VNone) E H1 H2).
Defined.

Lemma next_button_requests_the_page_again_witness :
  let url := lit "https://x.com/list" in
  let cfg := mk_pagination None VNone None in
  let self := Fixtures.new_scraper None in
  exists next_url,
    @_find_next_page Fixtures.next_link_libraries unit Fixtures.network url
      cfg self
    = (Ok next_url, mk [] None [] tt [url] 0) /\
    next_url = Some (lit "/list?page=2").
Proof.
  intros url cfg self.
  destruct (@next_button_requests_the_page_again Fixtures.next_link_libraries
              unit Fixtures.network url cfg self (or_introl eq_refl))
    as (next_url & Heq & _).
  exists next_url. split; [exact Heq|].
  vm_compute in Heq. injection Heq as <-. reflexivity.
Defined.
End AsyncScraperMore.

(** * More on the universal scraper *)

Module UniversalScraperMore.
Import UniversalScraper UniversalScraperFacts.

Section Crawl.
Context {libs : Libraries} {loader : ConfigLoader} {browser : Browser}.


(** X21. With a positive [max_items] in the configuration, [scrape]
    never returns more items than the limit, however many pages the site
    has and whatever they hold. *)
Theorem scrape_within_max_items :
  forall (url : str) (config : dict) (m : Z) (v : value) (pages : list nat),
    get (lit "max_items") config = VInt m ->
    (0 < m)%Z ->
    scrape url (Some config) = Ok (v, pages) ->
    exists items total_pages,
      v = VDict [(lit "items", VList items);
                 (lit "total_pages", VInt total_pages)] /\
      (Z.of_nat (List.length items) <= m)%Z.
Proof.
  intros url config m v pages Hm Hpos H.
  destruct config as [|kv rest]; [discriminate Hm|].
  unfold scrape in H.
  destruct (if truthy (get (lit "pagination") (kv :: rest)) then _ else _)
    as [max_pages|e]; [|discriminate H].
  destruct (loop _ _ _ _) as [c|e] eqn:L; [|discriminate H].
  injection H as <- <-.
  exists (all_results c), (page_num c). split; [reflexivity|].
  apply (loop_within_max_items _ _ _ _ Hm Hpos _ _) in L; [exact L|].
  cbn [all_results List.length]. lia.
Qed.


End Crawl.

Lemma scrape_within_max_items_witness :
  @scrape Fixtures.libraries Fixtures.no_configuration Fixtures.three_pages
    (lit "https://x.com/list") (Some Fixtures.five_items)
  = Ok (VDict [(lit "items", VList (firstn 5 (Fixtures.page_items 0)));
               (lit "total_pages", VInt 1)],
        [0%nat]) /\
  exists items total_pages,
    VDict [(lit "items", VList (firstn 5 (Fixtures.page_items 0)));
           (lit "total_pages", VInt 1)]
    = VDict [(lit "items", VList items);
             (lit "total_pages", VInt total_pages)] /\
    (Z.of_nat (List.length items) <= 5)%Z.
Proof.
  assert (get (lit "max_items") Fixtures.five_items = VInt 5) as H1
    by (vm_compute; reflexivity).
  assert (0 < 5)%Z as H2 by lia.
  assert (@scrape Fixtures.libraries Fixtures.no_configuration
            Fixtures.three_pages (lit "https://x.com/list")
            (Some Fixtures.five_items)
          = Ok (VDict [(lit "items", VList (firstn 5 (Fixtures.page_items 0)));
                       (lit "total_pages", VInt 1)],
                [0%nat])) as H3 by (vm_compute; reflexivity).
  split; [exact H3|].
  exact (@scrape_within_max_items Fixtures.libraries Fixtures.no_configuration
           Fixtures.three_pages (lit "https://x.com/list") Fixtures.five_items
           5 _ _ H1 H2 H3).
Defined.

End UniversalScraperMore.

(** * The item pipelines *)

Module PipelinesMore.
Import StateManagerFacts ExtractorFacts ExtractorMore Pipelines.

(** ** Stripping *)

Lemma lstrip_idem (s : str) : lstrip (lstrip s) = lstrip s.
Proof.
  induction s as [|c s IH]; [reflexivity|]. cbn [lstrip].
  destruct (isspace c) eqn:E; [exact IH|]. cbn [lstrip]. now rewrite E.
Qed.

(** What [lstrip] leaves starts with no space. *)
Lemma lstrip_head (s : str) :
  match lstrip s with
  | c :: _ => isspace c = false
  | [] => True
  end.
Proof.
  induction s as [|c s IH]; [exact I|]. cbn [lstrip].
  destruct (isspace c) eqn:E; [exact IH | exact E].
Qed.

Lemma lstrip_suffix (s : str) : exists pre, s = pre ++ lstrip s.
Proof.
  induction s as [|c s [pre IH]]; [now exists []|]. cbn [lstrip].
  destruct (isspace c); [|now exists []].
  exists (c :: pre). cbn. now rewrite <- IH.
Qed.

Lemma lstrip_fixed (s : str) :
  match s with
  | c :: _ => isspace c = false
  | [] => True
  end ->
  lstrip s = s.
Proof. destruct s as [|c s]; [reflexivity|]. cbn. now intros ->. Qed.

(** [strip] is idempotent: a stripped string has nothing left to strip. *)
Lemma strip_idem (s : str) : strip (strip s) = strip s.
Proof.
  unfold strip.
  set (u := lstrip s). set (v := lstrip (rev u)).
  assert (lstrip (rev v) = rev v) as E.
  { apply lstrip_fixed.
    destruct (lstrip_suffix (rev u)) as [pre Hpre]. fold v in Hpre.
    assert (u = rev v ++ rev pre) as Hu
      by (rewrite <- rev_app_distr, <- Hpre; symmetry; apply rev_involutive).
    pose proof (lstrip_head s) as Hh. fold u in Hh.
    destruct (rev v) as [|c t]; [exact I|]. rewrite Hu in Hh. exact Hh. }
  rewrite E, rev_involutive. unfold v. now rewrite lstrip_idem.
Qed.

Lemma stripped_idem (v : value) : stripped (stripped v) = stripped v.
Proof. destruct v; try reflexivity. cbn. now rewrite strip_idem. Qed.

Lemma dict_set_fresh (pre post : dict) (k : str) (v0 v : value) :
  ~ In k (List.map fst pre) ->
  dict_set k v (pre ++ (k, v0) :: post) = pre ++ (k, v) :: post.
Proof.
  induction pre as [|[k1 v1] pre IH]; intros Hk; cbn [dict_set app].
  - now rewrite str_eqb_refl.
  - cbn [List.map fst In] in Hk.
    assert (str_eqb k k1 = false) as -> by (apply str_eqb_neq; intuition).
    rewrite IH by intuition. reflexivity.
Qed.

(** On a mapping, [ItemPipeline] replaces every string value by its
    [strip] and leaves the keys, their order and the other values. *)
Lemma strip_item_map (item : dict) :
  is_mapping item ->
  strip_item item = List.map (fun kv => (fst kv, stripped (snd kv))) item.
Proof.
  intros ND. unfold strip_item.
  set (g := fun kv : str * value => (fst kv, stripped (snd kv))).
  assert (forall post pre,
            NoDup (List.map fst (pre ++ post)) ->
            fold_left
              (fun item' kv =>
                 match snd kv with
                 | VStr s => dict_set (fst kv) (VStr (strip s)) item'
                 | _ => item'
                 end)
              post (List.map g pre ++ post)
            = List.map g (pre ++ post)) as H.
  { induction post as [|[k v] post IH]; intros pre Hnd.
    - cbn [fold_left]. now rewrite !app_nil_r.
    - cbn [fold_left fst snd].
      assert (~ In k (List.map fst (List.map g pre))) as Hk.
      { rewrite map_map. cbn [g fst].
        rewrite map_app in Hnd. cbn [List.map fst] in Hnd.
        apply NoDup_remove_2 in Hnd. intros Hin. apply Hnd.
        apply in_or_app. now left. }
      match goal with
      | |- fold_left _ post ?acc = _ =>
          assert (acc = List.map g (pre ++ [(k, v)]) ++ post) as ->
      end.
      { rewrite map_app, <- app_assoc. cbn [List.map app g fst snd].
        destruct v; try reflexivity. now apply dict_set_fresh. }
      rewrite IH by (now rewrite <- app_assoc).
      now rewrite <- app_assoc. }
  apply (H item []). exact ND.
Qed.

Lemma dict_get_map (k : str) (f : value -> value) (d : dict) :
  dict_get k (List.map (fun kv => (fst kv, f (snd kv))) d)
  = option_map f (dict_get k d).
Proof.
  induction d as [|[k0 v0] d IH]; [reflexivity|].
  cbn [List.map dict_get fst snd]. now destruct (str_eqb k k0).
Qed.

Lemma get_strip_item (k : str) (item : dict) :
  is_mapping item -> get k (strip_item item) = stripped (get k item).
Proof.
  intros ND. rewrite (strip_item_map item ND). unfold get.
  rewrite dict_get_map. now destruct (dict_get k item).
Qed.

Lemma py_eq_refl (v : value) : hashable v = true -> py_eq v v = true.
Proof.
  destruct v as [|b|z|s|l|d]; cbn; try discriminate; intros _;
    try reflexivity.
  - now destruct b.
  - apply Z.eqb_refl.
  - apply str_eqb_refl.
Qed.

Section WithBuiltins.
Context {builtins : Builtins}.

(** The manager of [BaseScraper.__init__], after any number of items. *)
#[local] Abbreviation manager seen_ids :=
  [ItemPipeline; ValidationPipeline; DeduplicationPipeline seen_ids;
   SchemaValidationPipeline].

(** The four default pipelines in one step. *)
Lemma manager_eq (config : dict) (seen_ids : list value) (item : dict) :
  process_item (manager seen_ids) config (VDict item) =
  let item' := strip_item item in
  if truthy (get (lit "title") item') then
    match item_id item' with
    | Ok id =>
        if hashable id then
          if existsb (py_eq id) seen_ids
          then ((VDict item', Ok false), manager seen_ids)
          else ((VDict item',
                 if truthy (get (lit "schema") config)
                 then validate (VDict item') (get (lit "schema") config)
                 else Ok true),
                manager (seen_ids ++ [id]))
        else ((VDict item', Raise TypeError), manager seen_ids)
    | Raise e => ((VDict item', Raise e), manager seen_ids)
    end
  else ((VDict item', Ok false), manager seen_ids).
Proof.
  cbn [process_item]. unfold process. cbv zeta.
  destruct (truthy (get (lit "title") (strip_item item))); [|reflexivity].
  destruct (item_id (strip_item item)) as [id|e]; [|reflexivity].
  destruct (hashable id); [|reflexivity].
  destruct (existsb (py_eq id) seen_ids); [reflexivity|].
  destruct (truthy (get (lit "schema") config)); [|reflexivity].
  now destruct (validate _ _) as [[|]|e].
Qed.

(** X23. An item that the default pipelines keep comes out with every
    string value stripped and nothing else changed, has a title that is
    truthy after stripping, and an id (its link, else its url, else the
    hash of its content) that no item kept before had; the id is then
    recorded. *)
Theorem kept_item_is_stripped_titled_and_new :
  forall (config : dict) (seen_ids : list value) (item : dict)
         (item' : value) (pipelines' : list pipeline),
    is_mapping item ->
    process_item (manager seen_ids) config (VDict item)
      = ((item', Ok true), pipelines') ->
    item' = VDict (List.map (fun kv => (fst kv, stripped (snd kv))) item) /\
    truthy (stripped (get (lit "title") item)) = true /\
    (forall k s, In (k, VStr s) (strip_item item) -> strip s = s) /\
    exists id,
      item_id (strip_item item) = Ok id /\
      existsb (py_eq id) seen_ids = false /\
      pipelines' = manager (seen_ids ++ [id]).
Proof.
  intros config seen_ids item item' pipelines' ND H.
  rewrite manager_eq in H. cbv zeta in H.
  rewrite <- (get_strip_item _ _ ND).
  destruct (truthy (get (lit "title") (strip_item item)));
    [|discriminate H].
  destruct (item_id (strip_item item)) as [id|e]; [|discriminate H].
  destruct (hashable id); [|discriminate H].
  destruct (existsb (py_eq id) seen_ids) eqn:Seen; [discriminate H|].
  injection H as <- _ <-.
  split; [now rewrite (strip_item_map item ND)|].
  split; [reflexivity|]. split; [|now exists id].
  intros k s Hin. rewrite (strip_item_map item ND) in Hin.
  apply in_map_iff in Hin as ([k0 v0] & E & _). cbn [fst snd] in E.
  injection E as _ E. destruct v0; try discriminate E.
  cbn in E. injection E as <-. apply strip_idem.
Qed.

(** The default manager keeps its shape, and never forgets an id. *)
Lemma manager_step (config : dict) (seen_ids : list value) (item : value) :
  exists seen_ids',
    snd (process_item (manager seen_ids) config item) = manager seen_ids' /\
    incl seen_ids seen_ids'.
Proof.
  destruct item as [| | | | |d];
    try (exists seen_ids; split; [reflexivity | apply incl_refl]).
  rewrite manager_eq. cbv zeta.
  destruct (truthy _); [|exists seen_ids; split; [reflexivity|apply incl_refl]].
  destruct (item_id _) as [id|e];
    [|exists seen_ids; split; [reflexivity|apply incl_refl]].
  destruct (hashable id);
    [|exists seen_ids; split; [reflexivity|apply incl_refl]].
  destruct (existsb _ _);
    [exists seen_ids; split; [reflexivity|apply incl_refl]|].
  exists (seen_ids ++ [id]). split; [reflexivity | now apply incl_appl].
Qed.

Lemma manager_feed (config : dict) (items : list value) :
  forall seen_ids,
  exists seen_ids',
    feed (manager seen_ids) config items = manager seen_ids' /\
    incl seen_ids seen_ids'.
Proof.
  induction items as [|item items IH]; intros seen_ids.
  - exists seen_ids. split; [reflexivity | apply incl_refl].
  - cbn [feed fold_left].
    destruct (manager_step config seen_ids item) as (s1 & -> & I1).
    destruct (IH s1) as (s2 & E & I2). exists s2.
    split; [exact E | now apply incl_tran with s1].
Qed.

(** X24. Deduplication goes by the id alone.  Once the default pipelines
    have kept an item, every later item with the same id (the same link;
    without a link the same url; without both the same content hash)
    is dropped, whatever its other fields and whatever was processed in
    between, and the manager stays as it is. *)
Theorem item_with_a_seen_id_is_dropped :
  forall (config : dict) (seen_ids : list value) (item1 item2 : dict)
         (out1 : value) (pipelines1 : list pipeline) (between : list value),
    process_item (manager seen_ids) config (VDict item1)
      = ((out1, Ok true), pipelines1) ->
    item_id (strip_item item2) = item_id (strip_item item1) ->
    process_item (feed pipelines1 config between) config (VDict item2)
    = ((VDict (strip_item item2), Ok false), feed pipelines1 config between).
Proof.
  intros config seen_ids item1 item2 out1 pipelines1 between H1 Hid.
  rewrite manager_eq in H1. cbv zeta in H1.
  destruct (truthy (get (lit "title") (strip_item item1)));
    [|discriminate H1].
  destruct (item_id (strip_item item1)) as [id|e] eqn:Id1; [|discriminate H1].
  destruct (hashable id) eqn:Hh; [|discriminate H1].
  destruct (existsb (py_eq id) seen_ids); [discriminate H1|].
  injection H1 as _ _ <-.
  destruct (manager_feed config between (seen_ids ++ [id])) as (s2 & -> & I2).
  rewrite manager_eq. cbv zeta. rewrite Hid, Hh.
  assert (existsb (py_eq id) s2 = true) as ->.
  { apply existsb_exists. exists id. split; [|now apply py_eq_refl].
    apply I2, in_or_app. right. now left. }
  now destruct (truthy _).
Qed.

(** ** The pipelines under [add_result] *)

Lemma is_mapping_set (k : str) (v : value) (d : dict) :
  is_mapping d -> is_mapping (dict_set k v d).
Proof.
  unfold is_mapping. intros ND. rewrite dict_set_keys.
  destruct (dict_has k d) eqn:E; [exact ND|].
  apply NoDup_app; [exact ND | constructor; [intros []|constructor] |].
  intros a Ha [<-|[]]. apply dict_has_in_keys in Ha. congruence.
Qed.

(** What [scrape] makes of an item of a listing. *)
#[local] Abbreviation annotated url d :=
  (dict_set (lit "status") (VStr (lit "success"))
            (dict_set (lit "url") (VStr url) d)).

Lemma annotate_mappings (url : str) (ds : list dict) :
  AsyncScraper.annotate_items url (List.map VDict ds)
  = Ok (List.map (fun d => VDict (annotated url d)) ds).
Proof.
  induction ds as [|d ds IH]; [reflexivity|].
  cbn [List.map AsyncScraper.annotate_items AsyncScraper.set_item].
  now rewrite IH.
Qed.

(** An item without a link, annotated by [scrape], goes by the URL of its
    page. *)
Lemma annotated_item (config : dict) (seen_ids : list value) (url : str)
  (d : dict) :
  is_mapping d ->
  truthy (stripped (get (lit "title") d)) = true ->
  truthy (stripped (get (lit "link") d)) = false ->
  strip url <> [] ->
  get (lit "schema") config = VNone ->
  process_item (manager seen_ids) config (VDict (annotated url d)) =
  ((VDict (strip_item (annotated url d)),
    Ok (negb (existsb (py_eq (VStr (strip url))) seen_ids))),
   if existsb (py_eq (VStr (strip url))) seen_ids
   then manager seen_ids
   else manager (seen_ids ++ [VStr (strip url)])).
Proof.
  intros ND Ht Hl Hu Hs.
  assert (is_mapping (annotated url d)) as ND'
    by now repeat apply is_mapping_set.
  assert (forall k, str_eqb k (lit "status") = false ->
                    str_eqb k (lit "url") = false ->
                    get k (strip_item (annotated url d)) = stripped (get k d))
    as Other.
  { intros k H1 H2. rewrite (get_strip_item _ _ ND'). f_equal. unfold get.
    now rewrite !dict_get_set_other. }
  assert (get (lit "url") (strip_item (annotated url d)) = VStr (strip url))
    as Url.
  { rewrite (get_strip_item _ _ ND'). unfold get.
    rewrite dict_get_set_other by reflexivity.
    now rewrite dict_get_set_same. }
  rewrite manager_eq. cbv zeta. unfold item_id.
  rewrite (Other (lit "title")), (Other (lit "link")), Url, Ht, Hl, Hs
    by reflexivity.
  cbn [truthy hashable].
  destruct (strip url) as [|c u] eqn:E; [congruence|].
  now destruct (existsb _ seen_ids).
Qed.

(** The items of a listing without links under [add_results]: the first
    is kept, unless the URL was seen, and the others are dropped. *)
Lemma add_results_linkless (http_get : str -> res str)
  (urljoin : str -> str -> str) (CURRENT_TIMESTAMP : nat -> str)
  (config : dict) (url : str) (ds : list dict) :
  get (lit "schema") config = VNone ->
  strip url <> [] ->
  Forall (fun d => is_mapping d /\
                   truthy (stripped (get (lit "title") d)) = true /\
                   truthy (stripped (get (lit "link") d)) = false) ds ->
  forall (self : AsyncScraper.t (list pipeline)) (seen_ids : list value),
    AsyncScraper.pipeline_manager self = manager seen_ids ->
    AsyncScraper.config self = config ->
    exists self',
      @AsyncScraper.add_results _
        (environment config http_get urljoin CURRENT_TIMESTAMP)
        (List.map (fun d => VDict (annotated url d)) ds) self
      = (Ok (List.map (fun d => VDict (strip_item (annotated url d))) ds),
         self') /\
      AsyncScraper.results self' =
        AsyncScraper.results self ++
        (if existsb (py_eq (VStr (strip url))) seen_ids then []
         else firstn 1
                (List.map (fun d => VDict (strip_item (annotated url d))) ds)).
Proof.
  intros Hschema Hurl Hds.
  induction Hds as [|d ds (ND & Ht & Hl) Hds IH]; intros self seen_ids Hpm Hc.
  - exists self. split; [reflexivity|].
    destruct (existsb _ _); now rewrite app_nil_r.
  - cbn [List.map AsyncScraper.add_results].
    unfold bind at 1. unfold AsyncScraper.add_result at 1.
    unfold bind at 1. unfold get_state at 1.
    cbn [AsyncScraper.process_item environment]. rewrite Hpm.
    rewrite (annotated_item config seen_ids url d ND Ht Hl Hurl Hschema).
    unfold bind at 1. unfold put_state at 1. unfold ret at 1.
    unfold bind at 1.
    destruct (existsb (py_eq (VStr (strip url))) seen_ids) eqn:Seen;
      cbn [negb].
    + match goal with
      | |- context [AsyncScraper.add_results _ ?s] =>
          destruct (IH s seen_ids eq_refl Hc) as (self' & E1 & E2)
      end.
      rewrite E1. unfold ret. exists self'. split; [reflexivity|].
      rewrite E2, Seen. reflexivity.
    + match goal with
      | |- context [AsyncScraper.add_results _ ?s] =>
          destruct (IH s (seen_ids ++ [VStr (strip url)]) eq_refl Hc)
            as (self' & E1 & E2)
      end.
      rewrite E1. unfold ret. exists self'. split; [reflexivity|].
      rewrite E2. cbn [AsyncScraper.results firstn].
      rewrite existsb_app. cbn [existsb py_eq].
      rewrite str_eqb_refl, orb_true_r, app_nil_r. reflexivity.
Qed.

Section Scrape.
Import StateManager AsyncScraper MonadFacts.
Local Open Scope monad_scope.
Context {libs : Libraries} {loader : ConfigLoader}.
Variables (http_get : str -> res str) (urljoin : str -> str -> str)
          (CURRENT_TIMESTAMP : nat -> str).

#[local] Abbreviation scraper := (AsyncScraper.t (list pipeline)).

(** Marking the URL and saving the page leave [results] alone, and
    return. *)
Lemma visit_recorded_keeps_results (config : dict) (url : str) (data : value)
  (kept : list value) :
  triple (fun s : scraper => results s = kept)
         (self' <- get_state ;;
          match state_manager self' with
          | Some sm =>
              @on_state_manager _
                (environment config http_get urljoin CURRENT_TIMESTAMP) _
                (fun now => mark_visited now url None (lit "success")) sm ;;;
              let save_data :=
                match data with
                | VDict _ => data
                | _ =>
                    match py_len data with
                    | Ok n => VDict [(lit "item_count", VInt (Z.of_nat n));
                                     (lit "type", VStr (lit "list"))]
                    | Raise _ => VNone
                    end
                end in
              self' <- get_state ;;
              match state_manager self' with
              | Some sm =>
                  @on_state_manager _
                    (environment config http_get urljoin CURRENT_TIMESTAMP) _
                    (fun now => save_item now url save_data None) sm
              | None => ret tt
              end
          | None => ret tt
          end)
         (fun _ s => results s = kept)
         (fun _ _ => False).
Proof.
  intros s Hs. unfold bind at 1. unfold get_state at 1.
  destruct (state_manager s) as [sm|]; [|exact Hs].
  unfold bind at 1. unfold on_state_manager at 1.
  rewrite mark_visited_eq. unfold bind, get_state. cbn [state_manager].
  unfold on_state_manager. rewrite StateManagerMore.save_item_eq.
  exact Hs.
Qed.

(** X25. [scrape] gives every item of a listing the URL of the page, and
    the deduplication pipeline identifies an item without a link by its
    url.  So when [scrape] extracts a list of items that have a title but
    no link, and no schema is configured, it returns them all, stripped
    and annotated, but adds only the first to [results]: the others are
    dropped as its duplicates (all of them, when the URL was seen
    before). *)
Theorem linkless_items_of_a_page_collapse :
  forall (self : scraper) (seen_ids : list value) (url : str)
         (selectors sel container : value) (html : str) (ds : list dict),
    let env :=
      environment (config self) http_get urljoin CURRENT_TIMESTAMP in
    pipeline_manager self = manager seen_ids ->
    get (lit "schema") (config self) = VNone ->
    strip url <> [] ->
    fst (resolve_configuration url selectors self) = Ok (sel, container) ->
    match state_manager self with
    | Some sm => is_visited url None sm = false
    | None => True
    end ->
    http_get url = Ok html ->
    fst (Extractor.extract (VStr html)
           (VDict [(lit "selectors", sel); (lit "container", container)]) [])
      = Ok (VList (List.map VDict ds)) ->
    Forall (fun d => is_mapping d /\
                     truthy (stripped (get (lit "title") d)) = true /\
                     truthy (stripped (get (lit "link") d)) = false) ds ->
    exists self',
      @scrape libs loader _ env url selectors self
      = (Ok (VList (List.map (fun d => VDict (strip_item (annotated url d)))
                             ds)),
         self') /\
      results self' =
        results self ++
        (if existsb (py_eq (VStr (strip url))) seen_ids then []
         else firstn 1
                (List.map (fun d => VDict (strip_item (annotated url d))) ds)).
Proof.
  intros self seen_ids url selectors sel container html ds env
         Hpm Hschema Hurl Hres Hnew Hget Hextract Hds.
  set (out := List.map (fun d => VDict (strip_item (annotated url d))) ds).
  set (kept := results self ++
               (if existsb (py_eq (VStr (strip url))) seen_ids then []
                else firstn 1 out)).
  set (s1 := mk (config self) (state_manager self) (results self)
                (pipeline_manager self) (requests self ++ [url])
                (ticks self)).
  enough (match @scrape libs loader _ env url selectors self with
          | (Ok v, s) => v = VList out /\ results s = kept
          | (Raise _, _) => False
          end) as H.
  { destruct (scrape url selectors self) as [[v|e] s]; [|contradiction].
    destruct H as [-> H]. now exists s. }
  unfold scrape. unfold bind at 1.
  pose proof (AsyncScraperFacts.resolve_configuration_state url selectors self)
    as Hst.
  destruct (resolve_configuration url selectors self) as [r s'].
  cbn [fst snd] in Hres, Hst. subst r s'. cbn beta iota.
  unfold bind at 1. unfold get_state at 1.
  assert (match state_manager self with
          | Some sm => is_visited url None sm
          | None => false
          end = false) as ->
    by (destruct (state_manager self); [exact Hnew | reflexivity]).
  match goal with
  | |- match ?body self with _ => _ end =>
      assert (triple (eq self) body
                     (fun v s => v = VList out /\ results s = kept)
                     (fun _ _ => False)) as T;
      [|exact (T self eq_refl)]
  end.
  eapply triple_try_except with (E' := fun _ _ => False);
    [|intros e; cbn beta iota; intros s []].
  eapply triple_bind with (R := fun h s => h = html /\ s = s1).
  { intros s <-. unfold _fetch_page, bind, modify, lift.
    cbn [AsyncScraper.http_get env environment]. rewrite Hget. now split. }
  intros h. apply triple_assume. intros ->.
  eapply triple_bind
    with (R := fun data s => data = VList (List.map VDict ds) /\ s = s1).
  { apply triple_lift. intros s ->. rewrite Hextract. now split. }
  intros data. apply triple_assume. intros ->.
  eapply triple_bind
    with (R := fun data (s : scraper) => data = VList out /\ results s = kept).
  { eapply triple_bind
      with (R := fun items s =>
                   items = List.map (fun d => VDict (annotated url d)) ds /\
                   s = s1).
    { apply triple_lift. intros s ->. rewrite annotate_mappings. now split. }
    intros items. apply triple_assume. intros ->.
    eapply triple_bind
      with (R := fun items' (s : scraper) => items' = out /\ results s = kept).
    { intros s ->.
      destruct (add_results_linkless http_get urljoin CURRENT_TIMESTAMP
                  (config self) url ds Hschema Hurl Hds s1 seen_ids Hpm eq_refl)
        as (s2 & E1 & E2).
      fold env in E1. rewrite E1. split; [reflexivity | exact E2]. }
    intros items'. apply triple_assume. intros ->.
    now apply triple_ret. }
  intros data. apply triple_assume. intros ->.
  apply triple_bind_assoc.
  eapply triple_bind with (R := fun _ (s : scraper) => results s = kept).
  { exact (visit_recorded_keeps_results (config self) url (VList out) kept). }
  intros []. apply triple_ret. intros s Hs. now split.
Qed.

End Scrape.

End WithBuiltins.

Lemma kept_item_is_stripped_titled_and_new_witness :
  let item' :=
    VDict [(lit "title", VStr (lit "Widget")); (lit "link", VStr (lit "/p/1"))] in
  let pipelines' :=
    [ItemPipeline; ValidationPipeline;
     DeduplicationPipeline [VStr (lit "/p/1")]; SchemaValidationPipeline] in
  @process_item Fixtures.builtins default_pipelines [] (VDict Fixtures.widget)
    = ((item', Ok true), pipelines') /\
  item' = VDict (List.map (fun kv => (fst kv, stripped (snd kv)))
                          Fixtures.widget) /\
  truthy (stripped (get (lit "title") Fixtures.widget)) = true /\
  (forall k s, In (k, VStr s) (strip_item Fixtures.widget) -> strip s = s) /\
  exists id,
    @item_id Fixtures.builtins (strip_item Fixtures.widget) = Ok id /\
    existsb (py_eq id) [] = false /\
    pipelines' = [ItemPipeline; ValidationPipeline;
                  DeduplicationPipeline ([] ++ [id]);
                  SchemaValidationPipeline].
Proof.
  intros item' pipelines'.
  assert (is_mapping Fixtures.widget) as H1.
  { unfold is_mapping. vm_compute.
    repeat (apply NoDup_cons; [cbn; intuition discriminate|]).
    apply NoDup_nil. }
  assert (@process_item Fixtures.builtins default_pipelines []
            (VDict Fixtures.widget) = ((item', Ok true), pipelines')) as H2
    by (vm_compute; reflexivity).
  split; [exact H2|].
  exact (@kept_item_is_stripped_titled_and_new Fixtures.builtins [] []
           Fixtures.widget item' pipelines' H1 H2).
Defined.

Lemma item_with_a_seen_id_is_dropped_witness :
  let pipelines1 :=
    [ItemPipeline; ValidationPipeline;
     DeduplicationPipeline [VStr (lit "/p/1")]; SchemaValidationPipeline] in
  let between := [VDict [(lit "title", VStr (lit "Other"))]; VNone] in
  @process_item Fixtures.builtins
    (@feed Fixtures.builtins pipelines1 [] between) [] (VDict Fixtures.gadget)
  = ((VDict (strip_item Fixtures.gadget), Ok false),
     @feed Fixtures.builtins pipelines1 [] between).
Proof.
  intros pipelines1 between.
  assert (@process_item Fixtures.builtins default_pipelines []
            (VDict Fixtures.widget)
          = ((VDict (strip_item Fixtures.widget), Ok true), pipelines1)) as H1
    by (vm_compute; reflexivity).
  assert (@item_id Fixtures.builtins (strip_item Fixtures.gadget)
          = @item_id Fixtures.builtins (strip_item Fixtures.widget)) as H2
    by (vm_compute; reflexivity).
  exact (@item_with_a_seen_id_is_dropped Fixtures.builtins [] []
           Fixtures.widget Fixtures.gadget _ pipelines1 between H1 H2).
Defined.

Lemma linkless_items_of_a_page_collapse_witness :
  let url := lit "https://x.com/list" in
  let self := AsyncScraper.mk [] None [] default_pipelines [] O in
  let env :=
    @environment Fixtures.builtins [] (fun u => Ok u) (fun _ href => href)
                 (fun n => str_of_Z (Z.of_nat n)) in
  let item (title price : str) :=
    VDict [(lit "title", VStr title); (lit "price", VStr price);
           (lit "url", VStr url); (lit "status", VStr (lit "success"))] in
  exists self',
    @AsyncScraper.scrape Fixtures.offer_libraries Fixtures.no_configuration
      _ env url VNone self
    = (Ok (VList [item (lit "One") (lit "$1.00");
                  item (lit "Two") (lit "$2.00");
                  item (lit "Three") (lit "$3.00")]), self') /\
    AsyncScraper.results self' = [item (lit "One") (lit "$1.00")].
Proof.
  intros url self env item.
  assert (AsyncScraper.pipeline_manager self = default_pipelines) as H1
    by reflexivity.
  assert (get (lit "schema") (AsyncScraper.config self) = VNone) as H2
    by reflexivity.
  assert (strip url <> []) as H3 by (vm_compute; discriminate).
  assert (fst (@AsyncScraper.resolve_configuration Fixtures.no_configuration
                 _ url VNone self) = Ok (VDict [], VNone)) as H4
    by (vm_compute; reflexivity).
  assert (match AsyncScraper.state_manager self with
          | Some sm => StateManager.is_visited url None sm = false
          | None => True
          end) as H5 by exact I.
  assert ((fun u : str => Ok u) url = Ok url) as H6 by reflexivity.
  assert (fst (@Extractor.extract Fixtures.offer_libraries (VStr url)
                 (VDict [(lit "selectors", VDict []);
                         (lit "container", VNone)]) [])
          = Ok (VList (List.map VDict Fixtures.offers))) as H7
    by (vm_compute; reflexivity).
  assert (Forall (fun d => is_mapping d /\
                           truthy (stripped (get (lit "title") d)) = true /\
                           truthy (stripped (get (lit "link") d)) = false)
                 Fixtures.offers) as H8.
  { unfold is_mapping. vm_compute.
    repeat (apply Forall_cons;
            [split; [|split; reflexivity];
             repeat (apply NoDup_cons; [cbn; intuition discriminate|]);
             apply NoDup_nil|]).
    apply Forall_nil. }
  pose proof (@linkless_items_of_a_page_collapse Fixtures.builtins
                Fixtures.offer_libraries Fixtures.no_configuration
                (fun u => Ok u) (fun _ href => href)
                (fun n => str_of_Z (Z.of_nat n)) self [] url VNone
                (VDict []) VNone url Fixtures.offers
                H1 H2 H3 H4 H5 H6 H7 H8) as W.
  vm_compute in W. vm_compute. exact W.
Defined.
End PipelinesMore.

(** * The configuration loader *)

Module ConfigLoaderMore.
Import StateManagerFacts config_loader.

Lemma replace_underscore_none (key : str) :
  ~ In 95%N key -> replace_underscore key = key.
Proof.
  unfold replace_underscore. induction key as [|c key IH]; intros H;
    [reflexivity|].
  cbn [List.map]. rewrite IH by (intros Hin; apply H; now right).
  destruct (N.eqb_spec c 95) as [->|_]; [|reflexivity].
  exfalso. apply H. now left.
Qed.

Section WithLibraries.
Context {libs : Libraries} {urllib : UrlLib}.

Lemma search_sites_found (domain : str) (sites : list value) (found : dict) :
  search_sites domain sites = Ok (Some found) ->
  In (VDict found) sites /\
  exists d, get_default (lit "domain") (VStr []) found = VStr d /\
            lower d <> [] /\ str_in (lower d) domain = true.
Proof.
  induction sites as [|site sites IH]; [discriminate|].
  cbn [search_sites]. destruct site as [| | | | |s]; try discriminate.
  destruct (get_default (lit "domain") (VStr []) s) as [| | |d| |] eqn:G;
    try discriminate.
  destruct (truthy (VStr (lower d)) && str_in (lower d) domain) eqn:E.
  - intros H. injection H as <-. apply andb_prop in E as [E1 E2].
    split; [now left|]. exists d. repeat split; [exact G | | exact E2].
    intros Hn. rewrite Hn in E1. discriminate E1.
  - intros H. apply IH in H as [Hin Hd]. split; [now right | exact Hd].
Qed.

Lemma search_keys_found (domain : str) (entries : dict) (found : dict) :
  search_keys domain entries = Ok (Some found) ->
  exists key,
    In (key, VDict found) entries /\
    ((exists d, dict_get (lit "domain") found = Some (VStr d) /\
                str_in (lower d) domain = true) \/
     str_in (replace_underscore key) domain = true \/
     ((3 < List.length key)%nat /\ str_in key domain = true)).
Proof.
  induction entries as [|[key v] entries IH]; [discriminate|].
  cbn [search_keys].
  assert (search_keys domain entries = Ok (Some found) ->
          exists key0,
            In (key0, VDict found) ((key, v) :: entries) /\
            ((exists d, dict_get (lit "domain") found = Some (VStr d) /\
                        str_in (lower d) domain = true) \/
             str_in (replace_underscore key0) domain = true \/
             ((3 < List.length key0)%nat /\ str_in key0 domain = true))) as Rest.
  { intros H. apply IH in H as (key0 & Hin & Hm). exists key0.
    split; [now right | exact Hm]. }
  destruct v as [| | | | |options]; try exact Rest.
  unfold domain_field_matches, dict_has, get.
  destruct (dict_get (lit "domain") options) as [[| | |d| |]|] eqn:G;
    try discriminate.
  - destruct (str_in (lower d) domain) eqn:A.
    + intros H. injection H as <-. exists key. split; [now left|].
      left. now exists d.
    + destruct (str_in (replace_underscore key) domain) eqn:B.
      * intros H. injection H as <-. exists key. split; [now left|].
        right. now left.
      * destruct (Nat.ltb 3 (List.length key) && str_in key domain) eqn:C;
          [|exact Rest].
        intros H. injection H as <-. exists key. split; [now left|].
        apply andb_prop in C as [C1 C2]. apply Nat.ltb_lt in C1.
        right. right. now split.
  - destruct (str_in (replace_underscore key) domain) eqn:B.
    + intros H. injection H as <-. exists key. split; [now left|].
      right. now left.
    + destruct (Nat.ltb 3 (List.length key) && str_in key domain) eqn:C;
        [|exact Rest].
      intros H. injection H as <-. exists key. split; [now left|].
      apply andb_prop in C as [C1 C2]. apply Nat.ltb_lt in C1.
      right. right. now split.
Qed.

(** X26. A configuration that [get_config_for_url] returns is one of the
    mappings of the file, and one that matches the domain of the URL: a
    site of the "sites" list whose non-empty domain occurs in it, or the
    value of a key with a domain field that occurs in it, with a key that
    occurs in it once underscores are read as dots, or with a key of
    more than three characters that occurs in it. *)
Theorem found_configuration_matches_the_domain :
  forall (config : dict) (url : str) (found : dict),
    get_config_for_url (VDict config) url = Some found ->
    exists domain,
      domain_of url = Ok domain /\
      ((exists sites d,
          dict_get (lit "sites") config = Some (VList sites) /\
          In (VDict found) sites /\
          get_default (lit "domain") (VStr []) found = VStr d /\
          lower d <> [] /\ str_in (lower d) domain = true) \/
       (exists key,
          In (key, VDict found) config /\
          ((exists d, dict_get (lit "domain") found = Some (VStr d) /\
                      str_in (lower d) domain = true) \/
           str_in (replace_underscore key) domain = true \/
           ((3 < List.length key)%nat /\ str_in key domain = true)))).
Proof.
  intros config url found H. unfold get_config_for_url, find_config in H.
  destruct (domain_of url) as [domain|e]; [|discriminate H].
  exists domain. split; [reflexivity|].
  destruct (dict_get (lit "sites") config) as [[| | | |sites|]|] eqn:S;
    try (right; apply search_keys_found;
         destruct (search_keys domain config) as [[f|]|e];
         [now injection H as <- | discriminate H | discriminate H]).
  destruct (search_sites domain sites) as [[f|]|e] eqn:E; [| |discriminate H].
  - injection H as <-. left. apply search_sites_found in E as (Hin & d & Hd).
    exists sites, d. split; [reflexivity|]. split; [exact Hin | exact Hd].
  - right. apply search_keys_found.
    destruct (search_keys domain config) as [[f|]|e];
      [now injection H as <- | discriminate H | discriminate H].
Qed.

Lemma search_keys_by_key (domain : str) (entries : dict) (key : str)
  (options : dict) :
  domains_are_text entries ->
  In (key, VDict options) entries ->
  str_in (replace_underscore key) domain = true ->
  exists found, search_keys domain entries = Ok (Some found).
Proof.
  induction 1 as [|[k v] entries Hv Htext IH]; intros Hin Hkey; [destruct Hin|].
  cbn [search_keys]. cbn [snd] in Hv.
  destruct v as [| | | | |o].
  1-5: (destruct Hin as [E|Hin]; [discriminate E | now apply IH]).
  unfold domain_field_matches, dict_has, get.
  assert (forall o' : dict,
            exists found,
              (if str_in (replace_underscore k) domain then Ok (Some o')
               else if Nat.ltb 3 (List.length k) && str_in k domain
                    then Ok (Some o')
                    else search_keys domain entries) = Ok (Some found)) as BC.
  { intros o'. destruct Hin as [E|Hin].
    - injection E as -> _. rewrite Hkey. now exists o'.
    - destruct (str_in (replace_underscore k) domain); [now exists o'|].
      destruct (_ && _); [now exists o' | now apply IH]. }
  destruct (dict_get (lit "domain") o) as [[| | |d| |]|]; try contradiction.
  - destruct (str_in (lower d) domain); [now exists o | apply BC].
  - apply BC.
Qed.

(** X27. Rule B makes the length check of rule C idle: a key without an
    underscore that occurs anywhere in the domain of the URL matches it,
    however short the key is ('co' matches costco.com).  With no "sites"
    list and no domain field that is no string, [get_config_for_url]
    then returns a configuration. *)
Theorem key_in_domain_matches_whatever_its_length :
  forall (config : dict) (url domain key : str) (options : dict),
    domain_of url = Ok domain ->
    (forall sites, dict_get (lit "sites") config <> Some (VList sites)) ->
    domains_are_text config ->
    In (key, VDict options) config ->
    ~ In 95%N key ->
    str_in key domain = true ->
    exists found, get_config_for_url (VDict config) url = Some found.
Proof.
  intros config url domain key options Hd Hsites Htext Hin Hu Hkey.
  unfold get_config_for_url, find_config. rewrite Hd.
  rewrite <- (replace_underscore_none key Hu) in Hkey.
  destruct (search_keys_by_key domain config key options Htext Hin Hkey)
    as (found & E).
  exists found.
  destruct (dict_get (lit "sites") config) as [[| | | |sites|]|] eqn:S;
    try (now rewrite E).
  exfalso. now apply (Hsites sites).
Qed.

End WithLibraries.

Lemma found_configuration_matches_the_domain_witness :
  let url := lit "https://www.costco.com/deals" in
  let found := [(lit "selectors", VDict [(lit "title", VStr (lit "h1"))])] in
  @get_config_for_url Fixtures.libraries Fixtures.urllib
    (VDict Fixtures.short_key) url = Some found /\
  exists domain,
    @domain_of Fixtures.libraries Fixtures.urllib url = Ok domain /\
    ((exists sites d,
        dict_get (lit "sites") Fixtures.short_key = Some (VList sites) /\
        In (VDict found) sites /\
        get_default (lit "domain") (VStr []) found = VStr d /\
        @lower Fixtures.libraries d <> [] /\
        str_in (@lower Fixtures.libraries d) domain = true) \/
     (exists key,
        In (key, VDict found) Fixtures.short_key /\
        ((exists d, dict_get (lit "domain") found = Some (VStr d) /\
                    str_in (@lower Fixtures.libraries d) domain = true) \/
         str_in (replace_underscore key) domain = true \/
         ((3 < List.length key)%nat /\ str_in key domain = true)))).
Proof.
  intros url found.
  assert (@get_config_for_url Fixtures.libraries Fixtures.urllib
            (VDict Fixtures.short_key) url = Some found) as H
    by (vm_compute; reflexivity).
  split; [exact H|].
  exact (@found_configuration_matches_the_domain Fixtures.libraries
           Fixtures.urllib Fixtures.short_key url found H).
Defined.

Lemma key_in_domain_matches_whatever_its_length_witness :
  exists found,
    @get_config_for_url Fixtures.libraries Fixtures.urllib
      (VDict Fixtures.short_key) (lit "https://www.costco.com/deals")
    = Some found.
Proof.
  assert (@domain_of Fixtures.libraries Fixtures.urllib
            (lit "https://www.costco.com/deals") = Ok (lit "costco.com")) as H1
    by (vm_compute; reflexivity).
  assert (forall sites,
            dict_get (lit "sites") Fixtures.short_key <> Some (VList sites))
    as H2 by (intros sites; vm_compute; discriminate).
  assert (domains_are_text Fixtures.short_key) as H3
    by (vm_compute; repeat constructor).
  assert (In (lit "co",
              VDict [(lit "selectors", VDict [(lit "title", VStr (lit "h1"))])])
             Fixtures.short_key) as H4 by (now left).
  assert (~ In 95%N (lit "co")) as H5
    by (vm_compute; intuition discriminate).
  assert (str_in (lit "co") (lit "costco.com") = true) as H6
    by (vm_compute; reflexivity).
  exact (@key_in_domain_matches_whatever_its_length Fixtures.libraries
           Fixtures.urllib Fixtures.short_key _ _ _ _ H1 H2 H3 H4 H5 H6).
Defined.
End ConfigLoaderMore.

(** * Crawling with pagination *)

Module AsyncPaginationMore.
Import StateManager StateManagerFacts StateManagerMore.
Import AsyncScraper AsyncScraperFacts MonadFacts AsyncPagination.
Local Open Scope monad_scope.
#[local] Arguments _hash_url : simpl never.

Section WithCollaborators.
Context {libs : Libraries} {loader : ConfigLoader}.
Context {Pipeline : Type} {env : Environment Pipeline} {clock : SessionClock}.

#[local] Abbreviation scraper := (t Pipeline).

(** ** What [scrape] does to the state manager *)

Section Frame.
(** A property of the state manager that marking a URL and saving an item
    preserve. *)
Variable P : StateManager.t -> Prop.
Hypothesis P_mark_visited :
  forall now url sid status sm,
    P sm -> P (snd (mark_visited now url sid status sm)).
Hypothesis P_save_item :
  forall now url data sid sm, P sm -> P (snd (save_item now url data sid sm)).

#[local] Abbreviation holds :=
  (fun s : scraper => exists sm, state_manager s = Some sm /\ P sm).
#[local] Abbreviation kept_ := (fun (_ : exn) (s : scraper) => holds s).

Lemma lift_frame {A} (r : res A) :
  triple holds (lift r) (fun _ s => holds s) kept_.
Proof. apply triple_lift. intros s H. now destruct r. Qed.

Lemma fetch_page_frame (url : str) :
  triple holds (_fetch_page url) (fun _ s => holds s) kept_.
Proof.
  intros s H. unfold _fetch_page, bind, modify, lift.
  destruct (http_get url); exact H.
Qed.

Lemma add_result_frame (item : value) :
  triple holds (add_result item) (fun _ s => holds s) kept_.
Proof.
  intros s H. unfold add_result, bind, get_state.
  destruct (process_item item (pipeline_manager s)) as [[item' [k|e]] p'];
    exact H.
Qed.

Lemma add_results_frame (items : list value) :
  triple holds (add_results items) (fun _ s => holds s) kept_.
Proof.
  induction items as [|item rest IH]; cbn [add_results].
  - now apply triple_ret.
  - eapply triple_bind; [apply add_result_frame|].
    intros item'. eapply triple_bind; [exact IH|].
    intros rest'. now apply triple_ret.
Qed.

Lemma mark_frame (url status : str) :
  triple holds
         (self' <- get_state ;;
          match state_manager self' with
          | Some sm =>
              on_state_manager
                (fun now => mark_visited now url None status) sm
          | None => ret tt
          end)
         (fun _ s => holds s) kept_.
Proof.
  intros s (sm & Hsm & HP). unfold bind, get_state. rewrite Hsm.
  unfold on_state_manager.
  pose proof (P_mark_visited (CURRENT_TIMESTAMP (ticks s)) url None status sm HP)
    as HP'.
  destruct (mark_visited _ url None status sm) as [[[]|e] sm'];
    cbn [snd] in HP'; now exists sm'.
Qed.

Lemma mark_and_save_frame (url : str) (data : value) :
  triple holds
         (self' <- get_state ;;
          match state_manager self' with
          | Some sm =>
              on_state_manager
                (fun now => mark_visited now url None (lit "success")) sm ;;;
              let save_data :=
                match data with
                | VDict _ => data
                | _ =>
                    match py_len data with
                    | Ok n => VDict [(lit "item_count", VInt (Z.of_nat n));
                                     (lit "type", VStr (lit "list"))]
                    | Raise _ => VNone
                    end
                end in
              self' <- get_state ;;
              match state_manager self' with
              | Some sm =>
                  on_state_manager
                    (fun now => save_item now url save_data None) sm
              | None => ret tt
              end
          | None => ret tt
          end)
         (fun _ s => holds s) kept_.
Proof.
  intros s (sm & Hsm & HP). unfold bind at 1. unfold get_state at 1.
  rewrite Hsm. unfold bind at 1. unfold on_state_manager at 1.
  pose proof (P_mark_visited (CURRENT_TIMESTAMP (ticks s)) url None
                (lit "success") sm HP) as HP1.
  destruct (mark_visited _ url None (lit "success") sm) as [[[]|e] sm1];
    cbn [snd] in HP1; [|now exists sm1].
  unfold bind, get_state. cbn [state_manager]. unfold on_state_manager.
  cbn [ticks].
  match goal with
  | |- context [save_item ?now url ?d None sm1] =>
      pose proof (P_save_item now url d None sm1 HP1) as HP2;
      destruct (save_item now url d None sm1) as [[[]|e] sm2]
  end; cbn [snd] in HP2; now exists sm2.
Qed.

(** [scrape] touches the state manager through [mark_visited] and
    [save_item] only. *)
Lemma scrape_frame (url : str) (selectors : value) :
  triple holds (scrape url selectors) (fun _ s => holds s) kept_.
Proof.
  unfold scrape.
  eapply triple_bind with (R := fun _ s => holds s).
  { intros s H.
    pose proof (resolve_configuration_state url selectors s) as Hst.
    destruct (resolve_configuration url selectors s) as [[sc|e] s'];
      cbn [snd] in Hst; now subst s'. }
  intros [sel container].
  eapply triple_bind with (R := fun _ s => holds s);
    [now apply triple_get_state|].
  intros self.
  destruct (match state_manager self with
            | Some sm => is_visited url None sm
            | None => false
            end); [now apply triple_ret|].
  eapply triple_try_except with (E' := kept_).
  - eapply triple_bind; [apply fetch_page_frame|]. intros html.
    eapply triple_bind; [apply lift_frame|]. intros data.
    eapply triple_bind with (R := fun _ s => holds s).
    + destruct data as [| | | |items|d].
      1-4,6: (eapply triple_bind; [apply lift_frame|]; intros d1;
              eapply triple_bind; [apply lift_frame|]; intros d2;
              apply add_result_frame).
      eapply triple_bind; [apply lift_frame|]. intros items1.
      eapply triple_bind; [apply add_results_frame|]. intros items2.
      now apply triple_ret.
    + intros data'. apply triple_bind_assoc.
      eapply triple_bind; [apply mark_and_save_frame|].
      intros []. now apply triple_ret.
  - intros e. cbn beta iota. apply triple_bind_assoc.
    eapply triple_bind; [apply mark_frame|].
    intros []. now apply triple_ret.
Qed.

(** [_find_next_page] leaves the state manager alone. *)
Lemma find_next_page_frame (current_url : str) (cfg : pagination_config) :
  triple holds (_find_next_page current_url cfg) (fun _ s => holds s) kept_.
Proof.
  unfold _find_next_page.
  destruct (str_eqb _ (lit "next_button")).
  - unfold next_by_button.
    eapply triple_try_except with (E' := kept_).
    + eapply triple_bind; [apply fetch_page_frame|]. intros html.
      eapply triple_bind with (R := fun _ s => holds s).
      * destruct (truthy (pc_selector cfg)); [|now apply triple_ret].
        eapply triple_bind; [apply lift_frame|]. intros found.
        now apply triple_ret.
      * intros next_element.
        destruct (match next_element with
                  | Some el => Some el
                  | None => next_by_text (BeautifulSoup html)
                  end) as [el|]; [|now apply triple_ret].
        destruct (tag_get (lit "href") el) as [[[|c href]|[|c l]]|];
          try (now apply triple_ret). now apply triple_raise.
    + intros e. cbn beta iota. now apply triple_ret.
  - destruct (str_eqb _ (lit "url_pattern")); [apply lift_frame|].
    now apply triple_ret.
Qed.

Lemma pages_frame (fuel : nat) (selectors : value) (cfg : pagination_config)
  (max_pages : Z) :
  forall (page_num : Z) (current_url : str) (all_results : list value),
    triple holds
           (pages fuel selectors cfg max_pages page_num current_url all_results)
           (fun _ s => holds s) kept_.
Proof.
  induction fuel as [|fuel IH]; intros page_num current_url all_results;
    cbn [pages]; [now apply triple_ret|].
  destruct (page_num <=? max_pages)%Z; [|now apply triple_ret].
  eapply triple_bind; [apply scrape_frame|]. intros result.
  eapply triple_bind; [apply lift_frame|]. intros [|]; [|now apply triple_ret].
  eapply triple_bind; [apply find_next_page_frame|].
  intros [[|c u]|]; try (now apply triple_ret). apply IH.
Qed.

End Frame.

(** The fuel [scrape_with_pagination] gives the loop is enough: more
    fuel changes nothing once it covers the pages left. *)
Lemma pages_fuel_enough (fuel : nat) (selectors : value)
  (cfg : pagination_config) (max_pages : Z) :
  forall (page_num : Z) (current_url : str) (all_results : list value)
         (s : scraper),
    (max_pages - page_num + 1 <= Z.of_nat fuel)%Z ->
    pages (S fuel) selectors cfg max_pages page_num current_url all_results s
    = pages fuel selectors cfg max_pages page_num current_url all_results s.
Proof.
  induction fuel as [|fuel IH]; intros page_num current_url all_results s Hf.
  - cbn [pages]. destruct (page_num <=? max_pages)%Z eqn:E; [|reflexivity].
    apply Z.leb_le in E. lia.
  - change (pages (S (S fuel)) selectors cfg max_pages page_num current_url
                  all_results s)
      with ((if (page_num <=? max_pages)%Z then
               result <- scrape current_url selectors ;;
               success <- lift (status_is_success result) ;;
               if success then
                 next_url <- _find_next_page current_url cfg ;;
                 match next_url with
                 | Some (c :: u) =>
                     pages (S fuel) selectors cfg max_pages (page_num + 1)%Z
                           (c :: u) (all_results ++ [result])
                 | _ => ret (all_results ++ [result])
                 end
               else ret all_results
             else ret all_results) s).
    change (pages (S fuel) selectors cfg max_pages page_num current_url
                  all_results s)
      with ((if (page_num <=? max_pages)%Z then
               result <- scrape current_url selectors ;;
               success <- lift (status_is_success result) ;;
               if success then
                 next_url <- _find_next_page current_url cfg ;;
                 match next_url with
                 | Some (c :: u) =>
                     pages fuel selectors cfg max_pages (page_num + 1)%Z
                           (c :: u) (all_results ++ [result])
                 | _ => ret (all_results ++ [result])
                 end
               else ret all_results
             else ret all_results) s).
    destruct (page_num <=? max_pages)%Z eqn:E; [|reflexivity].
    apply Z.leb_le in E.
    apply bind_ext. intros result s1.
    apply bind_ext. intros [|] s2; [|reflexivity].
    apply bind_ext. intros [[|c u]|] s3; try reflexivity.
    apply IH. lia.
Qed.

(** ** The results of a crawl *)



Lemma close_session_returns (s : scraper) : fst (close_session s) = Ok tt.
Proof.
  unfold close_session, bind, get_state.
  destruct (state_manager s) as [sm|]; [|reflexivity].
  unfold on_state_manager. now rewrite end_session_eq.
Qed.


(** X29. A listing page breaks the crawl: when [scrape] returns a list
    for the first page (the extractor found a list of items),
    [scrape_with_pagination] asks the list for its status and raises
    AttributeError; no result is returned and no further page is
    requested, and the session that was started is ended on the way
    out. *)
Theorem listing_page_breaks_pagination :
  forall (start_url : str) (selectors : value)
         (pagination : option pagination_config) (max_pages : Z)
         (self : scraper) (items : list value),
    (1 <= max_pages)%Z ->
    pagination <> None \/ (1 < max_pages)%Z ->
    let selectors' :=
      py_or selectors (get_default (lit "selectors") (VDict []) (config self)) in
    let metadata :=
      VDict [(lit "max_pages", VInt max_pages); (lit "pagination", VBool true)] in
    let started := snd (open_session start_url metadata self) in
    fst (open_session start_url metadata self) = Ok tt ->
    fst (scrape start_url selectors' started) = Ok (VList items) ->
    scrape_with_pagination start_url selectors pagination max_pages self
    = (Raise AttributeError,
       snd (close_session (snd (scrape start_url selectors' started)))).
Proof.
  intros start_url selectors pagination max_pages self items Hmax Hloop
         selectors' metadata started Hopen Hscrape.
  unfold scrape_with_pagination. unfold bind at 1. unfold get_state at 1.
  fold selectors'.
  assert (forall cfg,
            (open_session start_url metadata ;;;
             try_finally
               (pages (Z.to_nat max_pages) selectors' cfg max_pages 1
                      start_url [])
               close_session) self
            = (Raise AttributeError,
               snd (close_session (snd (scrape start_url selectors' started)))))
    as Loop.
  { intros cfg. unfold bind at 1. subst started.
    destruct (open_session start_url metadata self) as [r s1].
    cbn [fst snd] in *. subst r. unfold try_finally.
    destruct (Z.to_nat max_pages) as [|fuel] eqn:F; [lia|].
    cbn [pages].
    assert ((1 <=? max_pages)%Z = true) as -> by (apply Z.leb_le; lia).
    unfold bind at 1.
    destruct (scrape start_url selectors' s1) as [r s2].
    cbn [fst snd] in *. subst r. unfold bind at 1. cbn [status_is_success lift].
    pose proof (close_session_returns s2) as C.
    destruct (close_session s2) as [r s3]. cbn [fst snd] in *. now subst r. }
  destruct pagination as [cfg|]; [apply Loop|].
  destruct (max_pages <=? 1)%Z eqn:E; [|apply Loop].
  apply Z.leb_le in E. destruct Hloop as [H|H]; [congruence | lia].
Qed.

Lemma end_session_current now sm c s :
  session_id sm = Some (c :: s) ->
  end_session now None sm =
  (Ok tt,
   StateManager.mk
     (mk_database (visited_urls (db sm))
        (List.map (complete_session_row now (c :: s)) (sessions (db sm)))
        (scraped_items (db sm)) (scraped_items_seq (db sm)))
     (session_id sm)).
Proof. intros H. rewrite end_session_eq. cbn [oor otruthy]. now rewrite H. Qed.

(** X30. The session of a crawl is always closed.  With a state manager
    and a session id that is free, [scrape_with_pagination] (when it
    enters the loop) adds exactly one session row, and whether the crawl
    returns or raises that row is completed when the call is over; the
    other session rows are as they were, and so is the list of active
    sessions. *)
Theorem pagination_session_is_completed :
  forall (start_url : str) (selectors : value)
         (pagination : option pagination_config) (max_pages : Z)
         (self : scraper) (sm : StateManager.t),
    state_manager self = Some sm ->
    pagination <> None \/ (1 < max_pages)%Z ->
    let sid := lit "session_" ++ strftime (ticks self) in
    sessions_of sid (db sm) = [] ->
    exists sm' completed_at,
      state_manager
        (snd (scrape_with_pagination start_url selectors pagination max_pages
                                     self)) = Some sm' /\
      sessions (db sm') =
        sessions (db sm) ++
        [mk_session sid start_url (CURRENT_TIMESTAMP (ticks self))
                    (Some completed_at) (lit "completed")
                    (Some (VDict [(lit "max_pages", VInt max_pages);
                                  (lit "pagination", VBool true)]))] /\
      get_active_sessions sm' = get_active_sessions sm.
Proof.
  intros start_url selectors pagination max_pages self sm Hsm Hloop sid Hfree.
  assert (sid = lit "session_" ++ strftime (ticks self)) as Dsid
    by reflexivity.
  assert (sid = 115%N :: (lit "ession_" ++ strftime (ticks self))) as Esid
    by reflexivity.
  clearbody sid.
  set (metadata := VDict [(lit "max_pages", VInt max_pages);
                          (lit "pagination", VBool true)]).
  set (row := mk_session sid start_url (CURRENT_TIMESTAMP (ticks self)) None
                         (lit "active") (Some metadata)).
  set (P := fun sm1 : StateManager.t =>
              session_id sm1 = Some sid /\
              sessions (db sm1) = sessions (db sm) ++ [row]).
  assert (forall now url s st sm1,
            P sm1 -> P (snd (mark_visited now url s st sm1))) as P_mark.
  { intros now url s st sm1 [H1 H2]. rewrite mark_visited_eq. cbn [snd].
    destruct (known url (db sm1)); split; assumption. }
  assert (forall now url data s sm1,
            P sm1 -> P (snd (save_item now url data s sm1))) as P_save.
  { intros now url data s sm1 [H1 H2].
    unfold save_item, bind, get_state, execute, insert_scraped_items.
    split; assumption. }
  unfold scrape_with_pagination. unfold bind at 1. unfold get_state at 1.
  set (sel := py_or selectors _).
  assert (forall cfg,
            exists sm' completed_at,
              state_manager
                (snd ((open_session start_url metadata ;;;
                       try_finally
                         (pages (Z.to_nat max_pages) sel cfg max_pages 1
                                start_url [])
                         close_session) self)) = Some sm' /\
              sessions (db sm') =
                sessions (db sm) ++
                [mk_session sid start_url (CURRENT_TIMESTAMP (ticks self))
                            (Some completed_at) (lit "completed")
                            (Some metadata)] /\
              get_active_sessions sm' = get_active_sessions sm) as Loop.
  { intros cfg. unfold bind at 1. unfold open_session at 1.
    unfold bind at 1. unfold get_state at 1. rewrite Hsm.
    unfold bind at 1. unfold on_state_manager at 1.
    rewrite start_session_eq. cbv zeta. rewrite <- Dsid.
    rewrite (sessions_of_nil_existsb _ _ Hfree). cbn [truthy].
    fold metadata. fold row. unfold ret at 1. unfold try_finally.
    match goal with
    | |- context [pages _ _ _ _ _ _ _ ?s1] =>
        pose proof (pages_frame P P_mark P_save (Z.to_nat max_pages) sel cfg
                      max_pages 1 start_url [] s1) as F;
        destruct (pages (Z.to_nat max_pages) sel cfg max_pages 1 start_url []
                        s1) as [r s2]
    end.
    assert (exists sm2, state_manager s2 = Some sm2 /\ P sm2)
      as (sm2 & Hsm2 & Hid & Hrows).
    { destruct r as [rs|e]; apply F; eexists; (split; [reflexivity|]);
        split; reflexivity. }
    unfold close_session, bind, get_state. rewrite Hsm2.
    unfold on_state_manager.
    pose proof Hid as Hid'. rewrite Esid in Hid'.
    rewrite (end_session_current _ _ _ _ Hid'), <- Esid.
    exists (StateManager.mk
              (mk_database (visited_urls (db sm2))
                 (List.map (complete_session_row
                              (CURRENT_TIMESTAMP (ticks s2)) sid)
                           (sessions (db sm2)))
                 (scraped_items (db sm2)) (scraped_items_seq (db sm2)))
              (session_id sm2)),
           (CURRENT_TIMESTAMP (ticks s2)).
    assert (List.map (complete_session_row (CURRENT_TIMESTAMP (ticks s2)) sid)
                     (sessions (db sm2))
            = sessions (db sm) ++
              [mk_session sid start_url (CURRENT_TIMESTAMP (ticks self))
                          (Some (CURRENT_TIMESTAMP (ticks s2)))
                          (lit "completed") (Some metadata)]) as Hdone.
    { rewrite Hrows, map_app, complete_rows_absent by exact Hfree.
      cbn [List.map]. unfold complete_session_row, row.
      cbn [se_session_id se_start_url se_started_at se_metadata].
      now rewrite str_eqb_refl. }
    split; [now destruct r|]. cbn [db sessions]. split; [exact Hdone|].
    unfold get_active_sessions. cbn [db sessions]. rewrite Hdone.
    assert (forall q, se_status q = lit "completed" -> is_active q = false)
      as Done
      by (intros q Hq; unfold is_active; rewrite Hq; reflexivity).
    rewrite filter_app. cbn [filter]. rewrite Done by reflexivity.
    now rewrite app_nil_r. }
  destruct pagination as [cfg|]; [apply Loop|].
  destruct (max_pages <=? 1)%Z eqn:E; [|apply Loop].
  apply Z.leb_le in E. destruct Hloop as [H|H]; [congruence | lia].
Qed.

End WithCollaborators.


Lemma listing_page_breaks_pagination_witness :
  let url := lit "https://x.com/list" in
  let self := Fixtures.new_scraper (Some (__init__ None)) in
  let metadata :=
    VDict [(lit "max_pages", VInt 2); (lit "pagination", VBool true)] in
  let started :=
    snd (@open_session unit Fixtures.network Fixtures.session_clock url
           metadata self) in
  @scrape_with_pagination Fixtures.libraries Fixtures.no_configuration unit
    Fixtures.network Fixtures.session_clock url VNone None 2 self
  = (Raise AttributeError,
     snd (@close_session unit Fixtures.network
            (snd (@scrape Fixtures.libraries Fixtures.no_configuration unit
                    Fixtures.network url (VDict []) started)))).
Proof.
  intros url self metadata started.
  assert (1 <= 2)%Z as H1 by lia.
  assert (@None pagination_config <> None \/ (1 < 2)%Z) as H2 by (right; lia).
  assert (fst (@open_session unit Fixtures.network Fixtures.session_clock url
                 metadata self) = Ok tt) as H3 by (vm_compute; reflexivity).
  assert (fst (@scrape Fixtures.libraries Fixtures.no_configuration unit
                 Fixtures.network url (VDict []) started)
          = Ok (VList
                  (match fst (@scrape Fixtures.libraries
                                Fixtures.no_configuration unit
                                Fixtures.network url (VDict []) started) with
                   | Ok (VList items) => items
                   | _ => []
                   end))) as H4 by (vm_compute; reflexivity).
  exact (@listing_page_breaks_pagination Fixtures.libraries
           Fixtures.no_configuration unit Fixtures.network
           Fixtures.session_clock url VNone None 2 self _ H1 H2 H3 H4).
Defined.

Lemma pagination_session_is_completed_witness :
  let url := lit "https://x.com/list" in
  let sm := __init__ None in
  let self := Fixtures.new_scraper (Some sm) in
  exists sm' completed_at,
    state_manager
      (snd (@scrape_with_pagination Fixtures.libraries
              Fixtures.no_configuration unit Fixtures.network
              Fixtures.session_clock url VNone None 2 self)) = Some sm' /\
    sessions (db sm') =
      sessions (db sm) ++
      [mk_session (lit "session_0") url (lit "0") (Some completed_at)
                  (lit "completed")
                  (Some (VDict [(lit "max_pages", VInt 2);
                                (lit "pagination", VBool true)]))] /\
    get_active_sessions sm' = get_active_sessions sm.
Proof.
  intros url sm self.
  assert (state_manager self = Some sm) as H1 by reflexivity.
  assert (@None pagination_config <> None \/ (1 < 2)%Z) as H2 by (right; lia).
  assert (sessions_of
            (lit "session_" ++
             @strftime Fixtures.session_clock (ticks self)) (db sm) = [])
    as H3 by (vm_compute; reflexivity).
  exact (@pagination_session_is_completed Fixtures.libraries
           Fixtures.no_configuration unit Fixtures.network
           Fixtures.session_clock url VNone None 2 self sm H1 H2 H3).
Defined.
End AsyncPaginationMore.
